(** * Nexus paper-trading engine: shallow embedding and checked properties

    Sources embedded here:
    - [nexus_trading_engine_complete.js]  (module [Engine])
    - [nexus_exit_engine.js]              (module [ExitEngine])
    - [nexus_api_server.js]               (module [ApiServer])

    Numbers.  A JavaScript number is modelled as an exact rational: every
    decimal literal of the source is the same decimal here, and [+ - * /],
    [Math.abs], [Math.max], [Math.min], [Math.floor] and the comparisons are
    the exact operations.  Rounding to binary64 and overflow are not
    modelled; the one place where the source can divide by zero
    (the WIN formula with [entryPrice = 0]) is written out case by case.
    Module [Binary64] has the exit path once more on IEEE doubles, to
    replay the end-to-end run with rounding.

    Clock and randomness.  [Date.now()], the UTC hour and [Math.random()]
    are inputs of the functions that read them.

    I/O.  [saveToVPS] posts a copy of the state and never changes it (a
    failure is caught and logged), so it does not appear in the state
    transformers below.  Log lines that tell which branch ran are returned
    as an event.

    Scheduling.  Modules [Engine] and [Run] take each call and each turn
    of the scan from its start to its end.  Module [Async] cuts a turn
    at its [await]s, keeps the setup objects in a store shared by slot
    and trade, and lets turns and ticker messages interleave. *)

From Stdlib Require Import QArith Qminmax Qabs Qround Lqa ZArith Lia.
From Stdlib Require Import Bool String Ascii Floats.
From Stdlib Require Import List.
Import ListNotations.
Open Scope Q_scope.

(** ** JavaScript operators on numbers and arrays *)

Module Js.

(** [x < y], [x <= y], [x > y], [x >= y] *)
Definition ltb (x y : Q) : bool := negb (Qle_bool y x).
Definition leb (x y : Q) : bool := Qle_bool x y.
Definition gtb (x y : Q) : bool := ltb y x.
Definition geb (x y : Q) : bool := leb y x.

(** a number is falsy when it is [0] *)
Definition truthy (x : Q) : bool := negb (Qeq_bool x 0).

(** [x || y] on numbers *)
Definition or_else (x y : Q) : Q := if truthy x then x else y.

(** [arr.slice(-n)] *)
Definition slice_last {A : Type} (n : nat) (arr : list A) : list A :=
  skipn (length arr - n) arr.

(** [arr.reduce((sum, x) => sum + f(x), 0)] *)
Definition sum_by {A : Type} (f : A -> Q) (arr : list A) : Q :=
  fold_left (fun sum x => sum + f x) arr 0.

(** [arr.shift()], result dropped *)
Definition shift {A : Type} (arr : list A) : list A := tl arr.

(** [arr.length] as a number *)
Definition len {A : Type} (arr : list A) : Q := inject_Z (Z.of_nat (length arr)).

End Js.

Infix "<?" := Js.ltb (at level 70, no associativity) : Q_scope.
Infix "<=?" := Js.leb (at level 70, no associativity) : Q_scope.
Infix ">?" := Js.gtb (at level 70, no associativity) : Q_scope.
Infix ">=?" := Js.geb (at level 70, no associativity) : Q_scope.

(** ** Data model shared by the three processes (the persisted blob) *)

Inductive asset : Type := btc | eth.

Definition asset_eqb (a b : asset) : bool :=
  match a, b with
  | btc, btc | eth, eth => true
  | _, _ => false
  end.

(** An object with the two keys [btc] and [eth]. *)
Record perAsset (A : Type) : Type := mkPerAsset { at_btc : A; at_eth : A }.
Arguments mkPerAsset {A} _ _.
Arguments at_btc {A} _.
Arguments at_eth {A} _.

Definition lookup {A : Type} (m : perAsset A) (a : asset) : A :=
  match a with btc => at_btc m | eth => at_eth m end.

Definition assign {A : Type} (m : perAsset A) (a : asset) (v : A) : perAsset A :=
  match a with
  | btc => mkPerAsset v (at_eth m)
  | eth => mkPerAsset (at_btc m) v
  end.

Inductive direction : Type := BULLISH | BEARISH.
Inductive condition : Type := TRENDING_UP | TRENDING_DOWN | RANGING.
Inductive volatility : Type := LOW | NORMAL | HIGH | EXTREME.
Inductive session : Type := SYDNEY | TOKYO | LONDON | NEW_YORK | OVERLAP.
Inductive outcome : Type := WIN | LOSS | BREAKEVEN | ACTIVE | OPEN.
Inductive closer : Type := AUTONOMOUS_EXIT_ENGINE | MANUAL_API.

Definition outcome_eqb (a b : outcome) : bool :=
  match a, b with
  | WIN, WIN | LOSS, LOSS | BREAKEVEN, BREAKEVEN | ACTIVE, ACTIVE | OPEN, OPEN => true
  | _, _ => false
  end.

(** [t.outcome === o] for a stored, possibly missing, outcome *)
Definition outcome_is (stored : option outcome) (o : outcome) : bool :=
  match stored with
  | Some x => outcome_eqb x o
  | None => false
  end.

Record band : Type := mkBand { min : Q; max : Q }.

Module Setup.
(** The object built by [calculateSetupLevels] and [generateAISetup].
    [originalStop] is absent until target 1 is hit; [recorded] is absent
    (falsy) until the recorder sets it; [status] is always ['ACTIVE'] and
    [smcData] always [null] in these sources, so neither is a field. *)
Record t : Type := mk {
  entry : band;
  stop : Q;
  t1 : Q;
  t2 : Q;
  entryPrice : Q;
  confidence : Z;
  direction : direction;
  timestamp : Z;
  reachedTarget1 : bool;
  reachedTarget2 : bool;
  marketCondition : condition;
  volatilityLevel : volatility;
  sessionActive : session;
  originalStop : option Q;
  recorded : bool
}.

(** [setup.recorded = true] *)
Definition mark_recorded (s : t) : t :=
  mk (entry s) (stop s) (t1 s) (t2 s) (entryPrice s) (confidence s)
     (direction s) (timestamp s) (reachedTarget1 s) (reachedTarget2 s)
     (marketCondition s) (volatilityLevel s) (sessionActive s)
     (originalStop s) true.

(** [reachedTarget1 = true; originalStop = stop; stop = entryAvg] *)
Definition arm_breakeven (s : t) (entryAvg : Q) : t :=
  mk (entry s) entryAvg (t1 s) (t2 s) (entryPrice s) (confidence s)
     (direction s) (timestamp s) true (reachedTarget2 s)
     (marketCondition s) (volatilityLevel s) (sessionActive s)
     (Some (stop s)) (recorded s).
End Setup.

Module Trade.
(** An element of [trades].  The engine writes the first eight fields;
    the exit engine and the manual close also write [exitPrice],
    [exitTime] and [closedBy]. *)
Record t : Type := mk {
  asset : asset;
  setup : Setup.t;
  outcome : option outcome;
  profit : Q;
  timestamp : Z;
  marketCondition : option condition;
  volatilityLevel : option volatility;
  sessionActive : option session;
  exitPrice : option Q;
  exitTime : option Z;
  closedBy : option closer
}.
End Trade.

(** [profitFactor] can hold [Infinity]. *)
Inductive factor : Type := Finite (q : Q) | Infinity.

Module Perf.
Record t : Type := mk {
  totalTrades : Z;
  winners : Z;
  losers : Z;
  breakevenTrades : Z;
  totalProfit : Q;
  winRate : Q;
  profitFactor : factor;
  avgWin : Q;
  avgLoss : Q;
  breakevenRate : Q
}.

Definition zero : t := mk 0 0 0 0 0 0 (Finite 0) 0 0 0.
End Perf.

(** [trades.filter(t => t.outcome === o).reduce((sum, t) => sum + Math.abs(t.profit || 0), 0)] *)
Definition total_abs_profit (o : outcome) (trades : list Trade.t) : Q :=
  Js.sum_by (fun t => Qabs (Js.or_else (Trade.profit t) 0))
            (filter (fun t => outcome_is (Trade.outcome t) o) trades).

(** [getCurrentSession()], from [new Date().getUTCHours()] *)
Definition getCurrentSession (hour : Z) : session :=
  if ((hour >=? 22) || (hour <? 7))%Z then SYDNEY
  else if ((hour >=? 0) && (hour <? 9))%Z then TOKYO
  else if ((hour >=? 8) && (hour <? 17))%Z then LONDON
  else if ((hour >=? 13) && (hour <? 22))%Z then NEW_YORK
  else OVERLAP.

(** ** nexus_trading_engine_complete.js *)

Module Engine.

(** [CONFIG.RISK_PER_TRADE] *)
Definition RISK_PER_TRADE : Q := 10.

Record riskConfig : Type := mkRisk {
  stopPct : Q;
  target1 : Q;
  target2 : Q;
  minConfidence : Z
}.

Inductive mode : Type := conservative | aggressive.

Definition RISK_CONFIGS (m : mode) : riskConfig :=
  match m with
  | conservative => mkRisk 0.005 1.5 2.5 8
  | aggressive => mkRisk 0.003 1.0 2.0 6
  end.

(** An element of [priceHistory[asset]]. *)
Record sample : Type := mkSample { price : Q; change : Q; time : Z }.

(** The module-level variables.  [activeTrades] and
    [tradeDatabase.activeTrades] are assigned together everywhere and
    hold the same setup object, and [saveToVPS] sends [activeTrades] for
    both, so one field stands for the two; [trades] and [performance]
    are the fields of [tradeDatabase]. *)
Record state : Type := mkState {
  riskMode : mode;
  marketCondition : condition;
  volatilityLevel : volatility;
  priceHistory : perAsset (list sample);
  currentPrices : perAsset Q;
  lastSignalTime : perAsset Z;
  activeTrades : perAsset (option Setup.t);
  trades : list Trade.t;
  performance : Perf.t
}.

Definition initial : state :=
  mkState conservative RANGING NORMAL
          (mkPerAsset [] []) (mkPerAsset 0 0) (mkPerAsset 0%Z 0%Z)
          (mkPerAsset None None) [] Perf.zero.

Definition with_regime (st : state) (c : condition) (v : volatility) : state :=
  mkState (riskMode st) c v (priceHistory st) (currentPrices st)
          (lastSignalTime st) (activeTrades st) (trades st) (performance st).

Definition with_prices (st : state) (h : perAsset (list sample)) (p : perAsset Q) : state :=
  mkState (riskMode st) (marketCondition st) (volatilityLevel st) h p
          (lastSignalTime st) (activeTrades st) (trades st) (performance st).

Definition with_lastSignalTime (st : state) (l : perAsset Z) : state :=
  mkState (riskMode st) (marketCondition st) (volatilityLevel st)
          (priceHistory st) (currentPrices st) l (activeTrades st)
          (trades st) (performance st).

Definition with_activeTrades (st : state) (a : perAsset (option Setup.t)) : state :=
  mkState (riskMode st) (marketCondition st) (volatilityLevel st)
          (priceHistory st) (currentPrices st) (lastSignalTime st) a
          (trades st) (performance st).

Definition with_database (st : state) (ts : list Trade.t) (p : Perf.t) : state :=
  mkState (riskMode st) (marketCondition st) (volatilityLevel st)
          (priceHistory st) (currentPrices st) (lastSignalTime st)
          (activeTrades st) ts p.

(** *** Price monitoring *)

Definition updatePrice (st : state) (a : asset) (price change : Q) (now : Z) : state :=
  if negb (Js.truthy price) || (price <=? 0) then st
  else
    let pushed := lookup (priceHistory st) a ++ [mkSample price change now] in
    let history := if (50 <? length pushed)%nat then Js.shift pushed else pushed in
    with_prices st (assign (priceHistory st) a history)
                   (assign (currentPrices st) a price).

(** *** Market analysis *)

Definition classify_trend (recent : list sample) (currentPrice : Q) : condition :=
  let trend := price (last recent (mkSample 0 0 0)) - price (hd (mkSample 0 0 0) recent) in
  if trend >? currentPrice * 0.02 then TRENDING_UP
  else if trend <? - currentPrice * 0.02 then TRENDING_DOWN
  else RANGING.

Definition classify_volatility (recent : list sample) : volatility :=
  let avgChange :=
    Js.sum_by (fun p => Qabs (Js.or_else (change p) 0)) recent / Js.len recent in
  if avgChange >? 2.0 then EXTREME
  else if avgChange >? 1.5 then HIGH
  else if avgChange >? 0.8 then NORMAL
  else LOW.

(** The body of the [forEach] callback. *)
Definition detect_asset (st : state) (a : asset) : state :=
  let history := lookup (priceHistory st) a in
  if (5 <=? length history)%nat then
    let recent := Js.slice_last 5 history in
    with_regime st (classify_trend recent (lookup (currentPrices st) a))
                   (classify_volatility recent)
  else st.

Definition detectMarketCondition (st : state) : state :=
  fold_left detect_asset [btc; eth] st.

(** *** Trade recording *)

Inductive recordLog : Type :=
| NotRecordingStillActive
| AlreadyRecorded
| DuplicateDetected
| Recording.

(** The local [realizedPnL].  With [entryPrice = 0] both distances are
    quotients by zero: a zero numerator gives [NaN], every comparison
    with it is false and the fallback is taken; otherwise both are
    [Infinity], [10 / Infinity] is [0], [0 * Infinity] is [NaN] and the
    [isNaN] guard resets the result to [0]. *)
Definition realizedPnL (setup : Setup.t) (o : outcome) : Q :=
  match o with
  | WIN =>
      if Qeq_bool (Setup.entryPrice setup) 0 then
        if Qeq_bool (Setup.stop setup) 0 || Qeq_bool (Setup.t2 setup) 0
        then RISK_PER_TRADE * 3
        else 0
      else
        let stopDistancePercent :=
          Qabs ((Setup.stop setup - Setup.entryPrice setup) / Setup.entryPrice setup) in
        let targetDistancePercent :=
          Qabs ((Setup.t2 setup - Setup.entryPrice setup) / Setup.entryPrice setup) in
        if (stopDistancePercent >? 0) && (targetDistancePercent >? 0) then
          let positionValueAtRisk := RISK_PER_TRADE / stopDistancePercent in
          positionValueAtRisk * targetDistancePercent
        else RISK_PER_TRADE * 3
  | LOSS => - RISK_PER_TRADE
  | _ => 0
  end.

(** The predicate given to [tradeDatabase.trades.some]. *)
Definition is_duplicate (a : asset) (setup : Setup.t) (o : outcome) (t : Trade.t) : bool :=
  asset_eqb (Trade.asset t) a
  && (Qabs (Js.or_else (Setup.entryPrice (Trade.setup t)) 0
            - Js.or_else (Setup.entryPrice setup) 0) <? 0.5)
  && outcome_is (Trade.outcome t) o.

(** The statements after [tradeDatabase.trades.push(trade)]. *)
Definition update_performance (p : Perf.t) (all : list Trade.t) (o : outcome) : Perf.t :=
  let totalTrades := Z.of_nat (length all) in
  let winners := if outcome_eqb o WIN then (Perf.winners p + 1)%Z else Perf.winners p in
  let losers := if outcome_eqb o LOSS then (Perf.losers p + 1)%Z else Perf.losers p in
  let breakevenTrades :=
    if outcome_eqb o BREAKEVEN then (Perf.breakevenTrades p + 1)%Z
    else Perf.breakevenTrades p in
  let avgWin :=
    if outcome_eqb o WIN then
      (if (winners >? 0)%Z then total_abs_profit WIN all / inject_Z winners else 0)
    else Perf.avgWin p in
  let avgLoss :=
    if outcome_eqb o LOSS then
      (if (losers >? 0)%Z then total_abs_profit LOSS all / inject_Z losers else 0)
    else Perf.avgLoss p in
  let winRate :=
    if (totalTrades >? 0)%Z then inject_Z winners / inject_Z totalTrades * 100 else 0 in
  let totalWinsAmount := total_abs_profit WIN all in
  let totalLossesAmount := total_abs_profit LOSS all in
  let profitFactor :=
    if totalLossesAmount >? 0 then Finite (totalWinsAmount / totalLossesAmount)
    else if totalWinsAmount >? 0 then Infinity else Finite 0 in
  Perf.mk totalTrades winners losers breakevenTrades (Perf.totalProfit p)
          winRate profitFactor avgWin avgLoss (Perf.breakevenRate p).

(** [recordTradeOutcome(asset, setup, outcome, profit)].  The result
    carries the state, the setup object as the call leaves it, and the
    log line of the branch taken.  [profit] is only logged. *)
Definition recordTradeOutcome (st : state) (a : asset) (setup : Setup.t)
           (outcome : option outcome) (profit : Q) (now : Z)
  : state * Setup.t * recordLog :=
  match outcome with
  | None | Some ACTIVE | Some OPEN => (st, setup, NotRecordingStillActive)
  | Some o =>
      if Setup.recorded setup then (st, setup, AlreadyRecorded)
      else if existsb (is_duplicate a setup o) (trades st) then (st, setup, DuplicateDetected)
      else
        let setup' := Setup.mark_recorded setup in
        let trade :=
          Trade.mk a setup' (Some o) (realizedPnL setup' o)
                   (if (Setup.timestamp setup' =? 0)%Z then now else Setup.timestamp setup')
                   (Some (Setup.marketCondition setup'))
                   (Some (Setup.volatilityLevel setup'))
                   (Some (Setup.sessionActive setup'))
                   None None None in
        let all := trades st ++ [trade] in
        (with_database st all (update_performance (performance st) all o),
         setup', Recording)
  end.

(** *** Trade generation *)

Record levels : Type := mkLevels {
  l_entry : band;
  l_stop : Q;
  l_t1 : Q;
  l_t2 : Q;
  l_entryPrice : Q
}.

Definition calculateSetupLevels (a : asset) (price : Q) (d : direction)
           (config : riskConfig) : levels :=
  let entry :=
    mkBand (price * (match d with BULLISH => 0.9995 | BEARISH => 1.0005 end))
           (price * (match d with BULLISH => 1.0005 | BEARISH => 0.9995 end)) in
  match d with
  | BULLISH =>
      mkLevels entry
               (price * (1 - stopPct config))
               (price * (1 + stopPct config * target1 config))
               (price * (1 + stopPct config * target2 config))
               price
  | BEARISH =>
      mkLevels entry
               (price * (1 + stopPct config))
               (price * (1 - stopPct config * target1 config))
               (price * (1 - stopPct config * target2 config))
               price
  end.

(** [momentum > 0 ? 'BULLISH' : 'BEARISH'] *)
Definition direction_of (momentum : Q) : direction :=
  if momentum >? 0 then BULLISH else BEARISH.

(** [generateAISetup(asset, price, confidence, momentum)] with
    [smcData = null]; [now] and [hour] are the clock readings. *)
Definition generateAISetup (st : state) (a : asset) (price : Q) (confidence : Z)
           (momentum : Q) (now hour : Z) : state :=
  let d := direction_of momentum in
  let config := RISK_CONFIGS (riskMode st) in
  let lv := calculateSetupLevels a price d config in
  let setup :=
    Setup.mk (l_entry lv) (l_stop lv) (l_t1 lv) (l_t2 lv) price confidence d now
             false false (marketCondition st) (volatilityLevel st)
             (getCurrentSession hour) None false in
  with_activeTrades st (assign (activeTrades st) a (Some setup)).

(** *** Signal scanning *)

(** [random] is the value [Math.random()] returns if it is called. *)
Definition calculateMomentum (st : state) (a : asset) (random : Q) : Q :=
  let history := lookup (priceHistory st) a in
  if (length history <? 3)%nat then
    (if random >? 0.5 then 1 else -1)
  else
    let recent := Js.slice_last 3 history in
    let avgChange := Js.sum_by (fun p => Js.or_else (change p) 0) recent / Js.len recent in
    Qmax (-2) (Qmin 2 (avgChange / 2)).

(** What one call of [scanForSignals] reads from the clock and from
    [Math.random()]. *)
Record scanInputs : Type := mkScanInputs {
  now_scan : Z;
  now_setup : Z;
  now_signal : Z;
  utcHour : Z;
  random_momentum : Q;
  random_confidence : Q
}.

Definition confidence_of (st : state) (momentum random : Q) : Z :=
  let c0 := (8 + Qfloor (random * 8))%Z in
  let c1 := if match marketCondition st with TRENDING_UP => true | _ => false end
               && (momentum >? 0) then (c0 + 2)%Z else c0 in
  let c2 := if match marketCondition st with TRENDING_DOWN => true | _ => false end
               && (momentum <? 0) then (c1 + 2)%Z else c1 in
  if match volatilityLevel st with HIGH | EXTREME => true | _ => false end
  then (c2 + 3)%Z else c2.

Definition scanForSignals (st : state) (a : asset) (currentPrice : Q)
           (i : scanInputs) : state :=
  let timeSinceLastSignal := (now_scan i - lookup (lastSignalTime st) a)%Z in
  if (timeSinceLastSignal <? 60000)%Z then st
  else
    match lookup (activeTrades st) a with
    | Some _ => st
    | None =>
        let momentum := calculateMomentum st a (random_momentum i) in
        let config := RISK_CONFIGS (riskMode st) in
        let confidence := confidence_of st momentum (random_confidence i) in
        if (confidence >=? minConfidence config)%Z then
          let st' := generateAISetup st a currentPrice confidence momentum
                                     (now_setup i) (utcHour i) in
          with_lastSignalTime st' (assign (lastSignalTime st') a (now_signal i))
        else st
    end.

(** *** Trade exit monitoring *)

Inductive exitLog : Type :=
| Nothing
| Target1Hit
| Target2HitWin (profit : Q)
| BreakevenStopHit
| StopLossHit (loss : Q).

(** [(cond for BULLISH) || (cond for BEARISH)] of the four rules *)
Definition crossed_up (d : direction) (currentPrice level : Q) : bool :=
  match d with
  | BULLISH => currentPrice >=? level
  | BEARISH => currentPrice <=? level
  end.

Definition crossed_down (d : direction) (currentPrice level : Q) : bool :=
  match d with
  | BULLISH => currentPrice <=? level
  | BEARISH => currentPrice >=? level
  end.

Definition entryAvg (trade : Setup.t) : Q :=
  Js.or_else ((min (Setup.entry trade) + max (Setup.entry trade)) / 2)
             (Setup.entryPrice trade).

(** [trade.originalStop || trade.stop] *)
Definition loss_stop (trade : Setup.t) : Q :=
  match Setup.originalStop trade with
  | Some s => Js.or_else s (Setup.stop trade)
  | None => Setup.stop trade
  end.

(** Record the close, then clear the slot. *)
Definition close (st : state) (a : asset) (trade : Setup.t) (o : outcome)
           (profit : Q) (now : Z) : state :=
  let st' := fst (fst (recordTradeOutcome st a trade (Some o) profit now)) in
  with_activeTrades st' (assign (activeTrades st') a None).

Definition updateTradeStatus (st : state) (a : asset) (now : Z) : state * exitLog :=
  match lookup (activeTrades st) a with
  | None => (st, Nothing)
  | Some trade =>
      let currentPrice := lookup (currentPrices st) a in
      if negb (Js.truthy currentPrice) || (currentPrice <=? 0) then (st, Nothing)
      else
        let d := Setup.direction trade in
        if negb (Setup.reachedTarget1 trade)
           && crossed_up d currentPrice (Setup.t1 trade) then
          (with_activeTrades st
             (assign (activeTrades st) a
                     (Some (Setup.arm_breakeven trade (entryAvg trade)))),
           Target1Hit)
        else if Setup.reachedTarget1 trade && negb (Setup.reachedTarget2 trade)
                && crossed_up d currentPrice (Setup.t2 trade) then
          let profit := Qabs (Setup.t2 trade - entryAvg trade) in
          (close st a trade WIN profit now, Target2HitWin profit)
        else if Setup.reachedTarget1 trade && negb (Setup.reachedTarget2 trade)
                && crossed_down d currentPrice (Setup.stop trade) then
          (close st a trade BREAKEVEN 0 now, BreakevenStopHit)
        else if negb (Setup.reachedTarget1 trade)
                && crossed_down d currentPrice (loss_stop trade) then
          let loss := Qabs (currentPrice - entryAvg trade) in
          (close st a trade LOSS loss now, StopLossHit loss)
        else (st, Nothing)
  end.

(** *** Adaptive scan *)

(** The body of the [for] loop of [adaptiveScan]. *)
Definition scan_asset (st : state) (a : asset) (i : scanInputs) : state :=
  if lookup (currentPrices st) a >? 0 then
    let st1 := fst (updateTradeStatus st a (now_scan i)) in
    match lookup (activeTrades st1) a with
    | None => scanForSignals st1 a (lookup (currentPrices st1) a) i
    | Some _ => st1
    end
  else st.

Definition adaptiveScan (st : state) (i : perAsset scanInputs) : state :=
  fold_left (fun st a => scan_asset st a (lookup i a)) [btc; eth]
            (detectMarketCondition st).

End Engine.

(** ** The persisted blob as the exit engine and the API server hold it *)

(** An entry of [activeTrades]: the setup object itself, or an object
    with a [setup] field ("both formats" in the exit engine). *)
Inductive position : Type :=
| Direct (s : Setup.t)
| Wrapped (s : Setup.t).

(** [trade.setup || trade] *)
Definition setup_of (p : position) : Setup.t :=
  match p with Direct s | Wrapped s => s end.

Module Blob.
Record t : Type := mk {
  trades : list Trade.t;
  activeTrades : perAsset (option position);
  performance : Perf.t
}.

Definition empty : t := mk [] (mkPerAsset None None) Perf.zero.
End Blob.

(** [arr.find(p)] followed by assignments to the fields of the element
    found: the first element satisfying [p] is replaced by its image. *)
Fixpoint update_first {A : Type} (p : A -> bool) (f : A -> A) (arr : list A)
  : option (list A) :=
  match arr with
  | [] => None
  | x :: rest =>
      if p x then Some (f x :: rest)
      else match update_first p f rest with
           | Some rest' => Some (x :: rest')
           | None => None
           end
  end.

(** ** nexus_exit_engine.js *)

Module ExitEngine.

(** The local [realizedPnL] of [TradeDatabase.recordTradeOutcome].
    There is no [isNaN] guard here; the [NaN] that [entryPrice = 0]
    gives is read everywhere as [t.profit || 0], so it is [0] below. *)
Definition realizedPnL (setup : Setup.t) (o : outcome) : Q :=
  let RISK_PER_TRADE := 10 in
  match o with
  | WIN =>
      if Qeq_bool (Setup.entryPrice setup) 0 then
        if Qeq_bool (Setup.stop setup) 0 || Qeq_bool (Setup.t2 setup) 0
        then RISK_PER_TRADE * 3
        else 0
      else
        let stopDistancePercent :=
          Qabs ((Setup.stop setup - Setup.entryPrice setup) / Setup.entryPrice setup) in
        let targetDistancePercent :=
          Qabs ((Setup.t2 setup - Setup.entryPrice setup) / Setup.entryPrice setup) in
        if (stopDistancePercent >? 0) && (targetDistancePercent >? 0) then
          let positionValueAtRisk := RISK_PER_TRADE / stopDistancePercent in
          positionValueAtRisk * targetDistancePercent
        else RISK_PER_TRADE * 3
  | LOSS => - RISK_PER_TRADE
  | _ => 0
  end.

(** The predicate given to [this.data.trades.find]. *)
Definition is_open_record (a : asset) (setup : Setup.t) (t : Trade.t) : bool :=
  asset_eqb (Trade.asset t) a
  && (Setup.timestamp (Trade.setup t) =? Setup.timestamp setup)%Z
  && match Trade.outcome t with None => true | Some _ => false end.

(** The assignments to [tradeRecord]. *)
Definition close_record (o : outcome) (pnl exitPrice : Q) (now : Z) (by_ : closer)
           (t : Trade.t) : Trade.t :=
  Trade.mk (Trade.asset t) (Trade.setup t) (Some o) pnl (Trade.timestamp t)
           (Trade.marketCondition t) (Trade.volatilityLevel t) (Trade.sessionActive t)
           (Some exitPrice) (Some now) (Some by_).

(** "Update performance metrics" to the end of the method. *)
Definition update_performance (p : Perf.t) (all : list Trade.t) (o : outcome) : Perf.t :=
  let totalTrades := Z.of_nat (length all) in
  let winners := if outcome_eqb o WIN then (Perf.winners p + 1)%Z else Perf.winners p in
  let losers := if outcome_eqb o LOSS then (Perf.losers p + 1)%Z else Perf.losers p in
  let breakevenTrades :=
    if outcome_eqb o BREAKEVEN then (Perf.breakevenTrades p + 1)%Z
    else Perf.breakevenTrades p in
  let avgWin :=
    if outcome_eqb o WIN then
      (if (winners >? 0)%Z then total_abs_profit WIN all / inject_Z winners else 0)
    else Perf.avgWin p in
  let avgLoss :=
    if outcome_eqb o LOSS then
      (if (losers >? 0)%Z then total_abs_profit LOSS all / inject_Z losers else 0)
    else Perf.avgLoss p in
  let winRate :=
    if (totalTrades >? 0)%Z then inject_Z winners / inject_Z totalTrades * 100 else 0 in
  let totalWins := total_abs_profit WIN all in
  let totalLosses := total_abs_profit LOSS all in
  let profitFactor :=
    if totalLosses >? 0 then Finite (totalWins / totalLosses)
    else if totalWins >? 0 then Finite 999 else Finite 0 in
  let breakevenRate :=
    if (totalTrades >? 0)%Z
    then inject_Z breakevenTrades / inject_Z totalTrades * 100 else 0 in
  let totalProfit := Js.sum_by (fun t => Js.or_else (Trade.profit t) 0) all in
  Perf.mk totalTrades winners losers breakevenTrades totalProfit
          winRate profitFactor avgWin avgLoss breakevenRate.

(** [TradeDatabase.recordTradeOutcome(asset, trade, outcome, profit, exitPrice)];
    [setup] is [trade.setup]. *)
Definition recordTradeOutcome (data : Blob.t) (a : asset) (setup : Setup.t)
           (o : outcome) (profit exitPrice : Q) (now : Z) : Blob.t :=
  let pnl := realizedPnL setup o in
  let all :=
    match update_first (is_open_record a setup)
                       (close_record o pnl exitPrice now AUTONOMOUS_EXIT_ENGINE)
                       (Blob.trades data) with
    | Some updated => updated
    | None =>
        Blob.trades data ++
        [Trade.mk a setup (Some o) pnl (Setup.timestamp setup)
                  (Some (Setup.marketCondition setup))
                  (Some (Setup.volatilityLevel setup))
                  (Some (Setup.sessionActive setup))
                  (Some exitPrice) (Some now) (Some AUTONOMOUS_EXIT_ENGINE)]
    end in
  Blob.mk all (Blob.activeTrades data)
          (update_performance (Blob.performance data) all o).

Definition clearActiveTrade (data : Blob.t) (a : asset) : Blob.t :=
  Blob.mk (Blob.trades data) (assign (Blob.activeTrades data) a None)
          (Blob.performance data).

Inductive exitLog : Type :=
| Nothing
| InvalidTradeStructure
| NoValidPrice
| Target1Hit
| Target2HitWin (profit : Q)
| BreakevenStopHit
| StopLossHit (loss : Q).

(** [direction === 'BULLISH' ? currentPrice >= level : currentPrice <= level] *)
Definition hit_up (d : direction) (currentPrice level : Q) : bool :=
  match d with BULLISH => currentPrice >=? level | BEARISH => currentPrice <=? level end.

Definition hit_down (d : direction) (currentPrice level : Q) : bool :=
  match d with BULLISH => currentPrice <=? level | BEARISH => currentPrice >=? level end.

(** [setup.originalStop || setup.stop] *)
Definition stopPrice (setup : Setup.t) : Q :=
  match Setup.originalStop setup with
  | Some s => Js.or_else s (Setup.stop setup)
  | None => Setup.stop setup
  end.

(** Keep the format of the entry and put the changed setup in it. *)
Definition rewrap (p : position) (s : Setup.t) : position :=
  match p with Direct _ => Direct s | Wrapped _ => Wrapped s end.

(** The body of the [for] loop of [checkTradeExits]. *)
Definition check_asset (data : Blob.t) (a : asset) (currentPrice : Q) (now : Z)
  : Blob.t * exitLog :=
  match lookup (Blob.activeTrades data) a with
  | None => (data, Nothing)
  | Some trade =>
      let setup := setup_of trade in
      if negb (Js.truthy (Setup.entryPrice setup)) then (data, InvalidTradeStructure)
      else if negb (Js.truthy currentPrice) || (currentPrice <=? 0) then (data, NoValidPrice)
      else
        let entryAvg := (min (Setup.entry setup) + max (Setup.entry setup)) / 2 in
        let d := Setup.direction setup in
        if negb (Setup.reachedTarget1 setup) && hit_up d currentPrice (Setup.t1 setup) then
          (Blob.mk (Blob.trades data)
                   (assign (Blob.activeTrades data) a
                           (Some (rewrap trade (Setup.arm_breakeven setup entryAvg))))
                   (Blob.performance data),
           Target1Hit)
        else if Setup.reachedTarget1 setup && negb (Setup.reachedTarget2 setup)
                && hit_up d currentPrice (Setup.t2 setup) then
          let profit := Qabs (Setup.t2 setup - entryAvg) in
          (clearActiveTrade (recordTradeOutcome data a setup WIN profit currentPrice now) a,
           Target2HitWin profit)
        else if Setup.reachedTarget1 setup && negb (Setup.reachedTarget2 setup)
                && hit_down d currentPrice (Setup.stop setup) then
          (clearActiveTrade (recordTradeOutcome data a setup BREAKEVEN 0 currentPrice now) a,
           BreakevenStopHit)
        else if negb (Setup.reachedTarget1 setup)
                && hit_down d currentPrice (stopPrice setup) then
          let loss := Qabs (currentPrice - entryAvg) in
          (clearActiveTrade (recordTradeOutcome data a setup LOSS loss currentPrice now) a,
           StopLossHit loss)
        else (data, Nothing)
  end.

Definition checkTradeExits (data : Blob.t) (prices : perAsset Q) (now : Z) : Blob.t :=
  fold_left (fun data a => fst (check_asset data a (lookup prices a) now))
            [btc; eth] data.

End ExitEngine.

(** ** nexus_api_server.js *)

Module ApiServer.

Definition lower_ascii (c : ascii) : ascii :=
  let n := nat_of_ascii c in
  if ((65 <=? n) && (n <=? 90))%nat then ascii_of_nat (n + 32) else c.

(** [s.toLowerCase()] on ASCII text *)
Fixpoint toLowerCase (s : string) : string :=
  match s with
  | EmptyString => EmptyString
  | String c rest => String (lower_ascii c) (toLowerCase rest)
  end.

(** The keys the blob has under [activeTrades]. *)
Definition asset_of_key (key : string) : option asset :=
  if String.eqb key "btc" then Some btc
  else if String.eqb key "eth" then Some eth
  else None.

(** The request body of [POST /api/trades/close]; an absent field is
    [None], an absent [asset] the empty string. *)
Record closeRequest : Type := mkCloseRequest {
  req_asset : string;
  req_outcome : option outcome;
  req_profit : option Q;
  req_exitPrice : option Q
}.

Inductive response : Type :=
| Status400
| Status404
| Success.

Definition missing (exitPrice : option Q) : bool :=
  match exitPrice with
  | Some x => negb (Js.truthy x)
  | None => true
  end.

Definition is_open_record (a : asset) (setup : Setup.t) (t : Trade.t) : bool :=
  asset_eqb (Trade.asset t) a
  && (Setup.timestamp (Trade.setup t) =? Setup.timestamp setup)%Z
  && match Trade.outcome t with None => true | Some _ => false end.

(** "Update performance (simplified)": [totalTrades] and the counter of
    the outcome, nothing else. *)
Definition update_performance (p : Perf.t) (all : list Trade.t) (o : outcome) : Perf.t :=
  Perf.mk (Z.of_nat (length all))
          (match o with WIN => (Perf.winners p + 1)%Z | _ => Perf.winners p end)
          (match o with LOSS => (Perf.losers p + 1)%Z | _ => Perf.losers p end)
          (match o with
           | BREAKEVEN => (Perf.breakevenTrades p + 1)%Z
           | _ => Perf.breakevenTrades p
           end)
          (Perf.totalProfit p) (Perf.winRate p) (Perf.profitFactor p)
          (Perf.avgWin p) (Perf.avgLoss p) (Perf.breakevenRate p).

(** The handler of [POST /api/trades/close]: [data] is the content of
    the data file, the result is the response and the content saved
    (unchanged when the handler returns early). *)
Definition post_trades_close (data : Blob.t) (req : closeRequest) (now : Z)
  : response * Blob.t :=
  match req_outcome req, req_exitPrice req with
  | Some o, Some exitPrice =>
      if String.eqb (req_asset req) "" || missing (req_exitPrice req)
      then (Status400, data)
      else
        match asset_of_key (toLowerCase (req_asset req)) with
        | None => (Status404, data)
        | Some a =>
            match lookup (Blob.activeTrades data) a with
            | Some (Wrapped setup) =>
                let calculatedProfit :=
                  match req_profit req with Some p => p | None => 0 end in
                let all :=
                  match update_first (is_open_record a setup)
                          (ExitEngine.close_record o calculatedProfit exitPrice now MANUAL_API)
                          (Blob.trades data) with
                  | Some updated => updated
                  | None =>
                      Blob.trades data ++
                      [Trade.mk a setup (Some o) calculatedProfit (Setup.timestamp setup)
                                None None None
                                (Some exitPrice) (Some now) (Some MANUAL_API)]
                  end in
                (Success,
                 Blob.mk all (assign (Blob.activeTrades data) a None)
                         (update_performance (Blob.performance data) all o))
            | _ => (Status404, data)
            end
        end
  | _, _ => (Status400, data)
  end.

End ApiServer.

(** ** The specification's words, for comparison with the code *)

Module Spec.

(** "Momentum: average of the last 3 pctChange values, clamped to [−2, 2]" *)
Definition momentum (pctChanges : list Q) : Q :=
  let last3 := Js.slice_last 3 pctChanges in
  Qmax (-2) (Qmin 2 (Js.sum_by (fun c => c) last3 / 3)).

Definition count (o : outcome) (trades : list Trade.t) : Z :=
  Z.of_nat (length (filter (fun t => outcome_is (Trade.outcome t) o) trades)).

(** "mean of absolute profit over WIN/LOSS subsets" *)
Definition mean_abs_profit (o : outcome) (trades : list Trade.t) : Q :=
  if (count o trades >? 0)%Z
  then total_abs_profit o trades / inject_Z (count o trades) else 0.

(** "sum of all recorded profit" *)
Definition sum_profit (trades : list Trade.t) : Q :=
  Js.sum_by Trade.profit trades.

(** PerformanceAggregate recomputed from the TradeRecord list alone;
    [sentinel] is the "infinite" value of profitFactor. *)
Definition recompute (sentinel : factor) (trades : list Trade.t) : Perf.t :=
  let total := Z.of_nat (length trades) in
  let rate (n : Z) : Q :=
    if (total >? 0)%Z then inject_Z n / inject_Z total * 100 else 0 in
  Perf.mk total (count WIN trades) (count LOSS trades) (count BREAKEVEN trades)
          (sum_profit trades)
          (rate (count WIN trades))
          (if total_abs_profit LOSS trades >? 0
           then Finite (total_abs_profit WIN trades / total_abs_profit LOSS trades)
           else if total_abs_profit WIN trades >? 0 then sentinel else Finite 0)
          (mean_abs_profit WIN trades)
          (mean_abs_profit LOSS trades)
          (rate (count BREAKEVEN trades)).

Definition factor_equiv (f g : factor) : Prop :=
  match f, g with
  | Finite x, Finite y => x == y
  | Infinity, Infinity => True
  | _, _ => False
  end.

(** Field by field, numbers compared as rationals. *)
Definition perf_equiv (p q : Perf.t) : Prop :=
  Perf.totalTrades p = Perf.totalTrades q
  /\ Perf.winners p = Perf.winners q
  /\ Perf.losers p = Perf.losers q
  /\ Perf.breakevenTrades p = Perf.breakevenTrades q
  /\ Perf.totalProfit p == Perf.totalProfit q
  /\ Perf.winRate p == Perf.winRate q
  /\ factor_equiv (Perf.profitFactor p) (Perf.profitFactor q)
  /\ Perf.avgWin p == Perf.avgWin q
  /\ Perf.avgLoss p == Perf.avgLoss q
  /\ Perf.breakevenRate p == Perf.breakevenRate q.

(** "closes the named asset's active position through the same Outcome
    Recorder path, tagging closedBy = MANUAL": the profit and the
    aggregates such a close would store. *)
Definition recorder_close (data : Blob.t) (a : asset) (setup : Setup.t)
           (o : outcome) (profit exitPrice : Q) (now : Z) : Blob.t :=
  ExitEngine.clearActiveTrade
    (ExitEngine.recordTradeOutcome data a setup o profit exitPrice now) a.

End Spec.

(** ** Predicates of the statements *)

Module Pred.

(** "the outcome is terminal (not ACTIVE/OPEN/unset)" *)
Definition terminal (o : option outcome) : Prop :=
  o = Some WIN \/ o = Some LOSS \/ o = Some BREAKEVEN.

(** A stored record of the same asset and outcome whose entry price is
    within 0.5 of the setup's. *)
Definition matches (a : asset) (setup : Setup.t) (o : outcome) (t : Trade.t) : Prop :=
  Trade.asset t = a
  /\ Qabs (Setup.entryPrice (Trade.setup t) - Setup.entryPrice setup) < 0.5
  /\ Trade.outcome t = Some o.

(** The price has crossed target 2 and the (breakeven) stop at once. *)
Definition simultaneous (trade : Setup.t) (currentPrice : Q) : Prop :=
  match Setup.direction trade with
  | BULLISH => Setup.t2 trade <= currentPrice /\ currentPrice <= Setup.stop trade
  | BEARISH => currentPrice <= Setup.t2 trade /\ Setup.stop trade <= currentPrice
  end.

(** The scan has put a position in the slot of the asset. *)
Definition admitted (st : Engine.state) (a : asset) (currentPrice : Q)
           (i : Engine.scanInputs) : bool :=
  match lookup (Engine.activeTrades (Engine.scanForSignals st a currentPrice i)) a with
  | Some _ => true
  | None => false
  end.

(** The counters and the two averages agree with the list. *)
Definition consistent (p : Perf.t) (trades : list Trade.t) : Prop :=
  Perf.winners p = Spec.count WIN trades
  /\ Perf.losers p = Spec.count LOSS trades
  /\ Perf.breakevenTrades p = Spec.count BREAKEVEN trades
  /\ Perf.avgWin p == Spec.mean_abs_profit WIN trades
  /\ Perf.avgLoss p == Spec.mean_abs_profit LOSS trades.

(** The state a scan leaves when it opens a position. *)
Definition opening (st : Engine.state) (a : asset) (currentPrice : Q)
           (i : Engine.scanInputs) : Engine.state :=
  let momentum := Engine.calculateMomentum st a (Engine.random_momentum i) in
  let st' := Engine.generateAISetup st a currentPrice
               (Engine.confidence_of st momentum (Engine.random_confidence i))
               momentum (Engine.now_setup i) (Engine.utcHour i) in
  Engine.with_lastSignalTime
    st' (assign (Engine.lastSignalTime st') a (Engine.now_signal i)).

End Pred.

(** ** Concrete runs *)

Module Scenario.
Import Engine.

(** A BULLISH position opened on btc at 100 under the conservative
    preset ([initial] has [riskMode = 'conservative']). *)
Definition opened : state := generateAISetup initial btc 100 8 1 1700000000000 12.

(** A price event for btc followed by the exit check of the next scan. *)
Definition tick (st : state) (price : Q) (now : Z) : state * exitLog :=
  updateTradeStatus (updatePrice st btc price 0 now) btc now.

Definition at_100 : state * exitLog := tick opened 100 1700000003000.
Definition at_100_8 : state * exitLog := tick (fst at_100) 100.8 1700000006000.
Definition at_101_3 : state * exitLog := tick (fst at_100_8) 101.3 1700000009000.

(** The same position stopped out before target 1, and stopped at
    breakeven after it. *)
Definition at_99_4 : state * exitLog := tick opened 99.4 1700000003000.
Definition back_at_100 : state * exitLog := tick (fst at_100_8) 100 1700000009000.

(** What a scan reads when the clock is well past the cooldown of a
    fresh engine and the confidence draw is 0. *)
Definition first_scan (random_momentum : Q) : scanInputs :=
  mkScanInputs 1700000000000 1700000000001 1700000000002 12 random_momentum 0.

(** One price event for btc, then nothing else. *)
Definition one_sample : state := updatePrice initial btc 100 0.4 1699999990000.

(** Five events per asset: btc climbs from 100 to 104 with pctChange 3,
    eth stays at 50 with pctChange 0.1. *)
Definition two_markets : state :=
  fold_left (fun st e => updatePrice st (fst (fst e)) (snd (fst e)) (snd e) 1)
            [(btc, 100, 3); (btc, 101, 3); (btc, 102, 3); (btc, 103, 3); (btc, 104, 3);
             (eth, 50, 0.1); (eth, 50, 0.1); (eth, 50, 0.1); (eth, 50, 0.1); (eth, 50, 0.1)]
            initial.

(** Three samples whose [change] is 1. *)
Definition three_ones : state :=
  updatePrice (updatePrice (updatePrice initial btc 100 1 1) btc 100 1 2) btc 100 1 3.

(** The setup object of [opened], and the same object after target 1. *)
Definition opened_setup : Setup.t :=
  let lv := calculateSetupLevels btc 100 BULLISH (RISK_CONFIGS conservative) in
  Setup.mk (l_entry lv) (l_stop lv) (l_t1 lv) (l_t2 lv) 100 8 BULLISH 1700000000000
           false false RANGING NORMAL LONDON None false.

Definition armed : Setup.t :=
  Setup.arm_breakeven opened_setup (entryAvg opened_setup).

(** [armed] in the blob of the exit engine and of the API server, in
    each of the two formats. *)
Definition exit_blob : Blob.t :=
  Blob.mk [] (mkPerAsset (Some (Wrapped armed)) None) Perf.zero.

Definition direct_blob : Blob.t :=
  Blob.mk [] (mkPerAsset (Some (Direct armed)) None) Perf.zero.

(** What [saveToVPS] posts at the end of [recordTradeOutcome] when the
    engine records the WIN at 101.3: the new record is in [trades] and
    the slot still holds the setup, now flagged [recorded]; the slot is
    cleared, and the blob posted again, only after the call returns. *)
Definition recorded_win : state * Setup.t * recordLog :=
  recordTradeOutcome (updatePrice (fst at_100_8) btc 101.3 0 1700000009000)
                     btc armed (Some WIN) 1.25 1700000009000.

Definition saved_by_recorder : Blob.t :=
  Blob.mk (trades (fst (fst recorded_win)))
          (mkPerAsset (Some (Direct (snd (fst recorded_win)))) None)
          (performance (fst (fst recorded_win))).

Definition manual_win : ApiServer.closeRequest :=
  ApiServer.mkCloseRequest "BTC" (Some WIN) (Some 5) (Some 101.3).

(** A stored position whose target 2 and breakeven stop coincide. *)
Definition coincident : Setup.t :=
  Setup.mk (mkBand 99.95 100.05) 100 100 100 100 8 BULLISH 1700000000000
           true false RANGING NORMAL LONDON (Some 99.5) false.

Definition coincident_state : state :=
  mkState conservative RANGING NORMAL (mkPerAsset [] []) (mkPerAsset 100 0)
          (mkPerAsset 0%Z 0%Z) (mkPerAsset (Some coincident) None) [] Perf.zero.

Definition coincident_blob : Blob.t :=
  Blob.mk [] (mkPerAsset (Some (Wrapped coincident)) None) Perf.zero.

(** A second position on btc, opened later at 100.3, after its target 1. *)
Definition second_opened : Setup.t :=
  let lv := calculateSetupLevels btc 100.3 BULLISH (RISK_CONFIGS conservative) in
  Setup.mk (l_entry lv) (l_stop lv) (l_t1 lv) (l_t2 lv) 100.3 9 BULLISH 1700000100000
           false false RANGING NORMAL LONDON None false.

Definition second : Setup.t :=
  Setup.arm_breakeven second_opened (entryAvg second_opened).

(** A position on eth opened at 50, and the engine after two closes in
    this order: the WIN of [armed] on btc, then the LOSS of that eth
    position.  The newest stored record is the one of eth. *)
Definition eth_opened : Setup.t :=
  let lv := calculateSetupLevels eth 50 BULLISH (RISK_CONFIGS conservative) in
  Setup.mk (l_entry lv) (l_stop lv) (l_t1 lv) (l_t2 lv) 50 8 BULLISH 1700000050000
           false false RANGING NORMAL LONDON None false.

Definition after_btc_then_eth : state :=
  let st1 := fst (fst (recordTradeOutcome initial btc armed (Some WIN) 1.25 1)) in
  fst (fst (recordTradeOutcome st1 eth eth_opened (Some LOSS) 0.3 2)).

(** A blob as a process that stores a record at entry leaves it: the
    slot of btc holds [armed], and the list holds a closed record of an
    earlier position followed by two records of [armed] without
    outcome. *)
Definition open_record : Trade.t :=
  Trade.mk btc armed None 0 1700000000000 None None None None None None.

Definition earlier_record : Trade.t :=
  Trade.mk btc second (Some LOSS) (-10) 1700000100000 None None None
           (Some 99.7) (Some 1700000200000%Z) (Some AUTONOMOUS_EXIT_ENGINE).

Definition with_open_records : Blob.t :=
  Blob.mk [earlier_record; open_record; open_record]
          (mkPerAsset (Some (Wrapped armed)) None) Perf.zero.

End Scenario.

(** ** The engine as its main loop drives it *)

Module Run.

(** What reaches the state once [main] has started the feed and the
    scan timer: a ticker message, for which the [message] handler calls
    [updatePrice], or a turn of [adaptiveScan].  A run starts from
    [Engine.initial], the variables as they are declared, which is the
    state of [main] when the store has nothing to load.  A turn is
    taken here as a whole, from its start to its end: that is the run
    in which no turn is still waiting in an [await] when the next
    message or turn comes.  Module [Async] below cuts the turns at
    their [await]s and lets them overlap. *)
Inductive event : Type :=
| Ticker (a : asset) (price change : Q) (now : Z)
| Timer (i : perAsset Engine.scanInputs).

Definition step (st : Engine.state) (e : event) : Engine.state :=
  match e with
  | Ticker a price change now => Engine.updatePrice st a price change now
  | Timer i => Engine.adaptiveScan st i
  end.

Definition run (st : Engine.state) (events : list event) : Engine.state :=
  fold_left step events st.

(** The price of the newest sample of a window, [0] for an empty one. *)
Definition newest (history : list Engine.sample) : Q :=
  Engine.price (last history (Engine.mkSample 0 0 0)).

Definition window_ok (st : Engine.state) (a : asset) : Prop :=
  (length (lookup (Engine.priceHistory st) a) <= 50)%nat
  /\ Forall (fun s => 0 < Engine.price s) (lookup (Engine.priceHistory st) a)
  /\ lookup (Engine.currentPrices st) a = newest (lookup (Engine.priceHistory st) a).

(** A stored record: a terminal outcome, a flagged setup, and an outcome
    on the side of target 1 its rule is on. *)
Definition record_ok (t : Trade.t) : Prop :=
  Setup.recorded (Trade.setup t) = true
  /\ ((Trade.outcome t = Some WIN /\ Setup.reachedTarget1 (Trade.setup t) = true)
      \/ (Trade.outcome t = Some BREAKEVEN /\ Setup.reachedTarget1 (Trade.setup t) = true)
      \/ (Trade.outcome t = Some LOSS /\ Setup.reachedTarget1 (Trade.setup t) = false)).

(** A setup in a slot: not flagged, opened at a positive price, and
    holding an original stop exactly when target 1 has been reached. *)
Definition active_ok (s : Setup.t) : Prop :=
  Setup.recorded s = false
  /\ Setup.reachedTarget2 s = false
  /\ 0 < Setup.entryPrice s
  /\ (Setup.reachedTarget1 s = true <-> Setup.originalStop s <> None).

Definition invariant (st : Engine.state) : Prop :=
  (forall a, window_ok st a)
  /\ Forall record_ok (Engine.trades st)
  /\ Pred.consistent (Engine.performance st) (Engine.trades st)
  /\ Perf.totalTrades (Engine.performance st) = Z.of_nat (length (Engine.trades st))
  /\ (forall a s, lookup (Engine.activeTrades st) a = Some s -> active_ok s)
  /\ Engine.riskMode st = Engine.conservative.

(** Which of the four exit rules a check applied, read off the branch
    it took; the amounts in the log lines are left out (the engine's
    stop-loss line prints a constant, the exit engine's the loss). *)
Inductive rule : Type :=
| NoRule
| Target1Rule
| Target2Rule
| BreakevenStopRule
| StopLossRule.

Definition rule_of_engine (l : Engine.exitLog) : rule :=
  match l with
  | Engine.Nothing => NoRule
  | Engine.Target1Hit => Target1Rule
  | Engine.Target2HitWin _ => Target2Rule
  | Engine.BreakevenStopHit => BreakevenStopRule
  | Engine.StopLossHit _ => StopLossRule
  end.

Definition rule_of_exit_engine (l : ExitEngine.exitLog) : rule :=
  match l with
  | ExitEngine.Nothing | ExitEngine.InvalidTradeStructure | ExitEngine.NoValidPrice => NoRule
  | ExitEngine.Target1Hit => Target1Rule
  | ExitEngine.Target2HitWin _ => Target2Rule
  | ExitEngine.BreakevenStopHit => BreakevenStopRule
  | ExitEngine.StopLossHit _ => StopLossRule
  end.

(** Fifty ticker messages for btc: a full window. *)
Definition fifty_ticks : list event := repeat (Ticker btc 100 0 1) 50.

End Run.

(** ** nexus_exit_engine.js, the price fetcher *)

Module PriceFetcher.

Record t : Type := mk {
  lastPrices : perAsset Q;
  lastUpdate : option Z;
  apiFailures : nat
}.

(** [new PriceFetcher()] *)
Definition new : t := mk (mkPerAsset 0 0) None 0.

(** [prices.btc > 0 && prices.eth > 0] *)
Definition valid (prices : perAsset Q) : bool :=
  (at_btc prices >? 0) && (at_eth prices >? 0).

(** What one call of [getCurrentPrices] reads: the two prices parsed
    from each answer ([None] for a request that throws; a symbol absent
    from the answer compares like [0]) and the clock. *)
Record inputs : Type := mkInputs {
  binance : option (perAsset Q);
  coinbase : option (perAsset Q);
  now_binance : Z;
  now_coinbase : Z;
  now_check : Z
}.

Definition fetchCoinbasePrices (f : t) (i : inputs) : t * option (perAsset Q) :=
  match coinbase i with
  | Some prices =>
      if valid prices then (mk prices (Some (now_coinbase i)) 0, Some prices)
      else (f, None)
  | None => (f, None)
  end.

Definition fetchBinancePrices (f : t) (i : inputs) : t * option (perAsset Q) :=
  let failed :=
    let f' := mk (lastPrices f) (lastUpdate f) (S (apiFailures f)) in
    if (3 <=? apiFailures f')%nat then fetchCoinbasePrices f' i else (f', None) in
  match binance i with
  | Some prices =>
      if valid prices then (mk prices (Some (now_binance i)) 0, Some prices)
      else failed
  | None => failed
  end.

Definition getCurrentPrices (f : t) (i : inputs) : t * option (perAsset Q) :=
  let '(f', prices) := fetchBinancePrices f i in
  match prices with
  | Some p => (f', Some p)
  | None =>
      match lastUpdate f' with
      | Some u =>
          if negb (u =? 0)%Z && (now_check i - u <? 30000)%Z
          then (f', Some (lastPrices f'))
          else (f', None)
      | None => (f', None)
      end
  end.

(** The fetcher after a series of cycles, and what each cycle got. *)
Fixpoint poll (f : t) (calls : list inputs) : t * list (option (perAsset Q)) :=
  match calls with
  | [] => (f, [])
  | i :: rest =>
      let '(f', got) := getCurrentPrices f i in
      let '(f'', gots) := poll f' rest in
      (f'', got :: gots)
  end.

Definition down : inputs := mkInputs None None 0 0 0.

(** Once a fetch has succeeded the prices kept are valid ones. *)
Definition kept_ok (f : t) : Prop :=
  lastUpdate f <> None -> valid (lastPrices f) = true.

End PriceFetcher.

(** ** The CSV cells of [/api/trades/csv] *)

Module Csv.

Definition quote : ascii := "034"%char.
Definition comma : ascii := ","%char.
Definition newline : ascii := "010"%char.

(** The [test] of [escape]: the string holds a quote, a comma or a
    line feed. *)
Fixpoint has_special (s : string) : bool :=
  match s with
  | EmptyString => false
  | String c rest =>
      Ascii.eqb c quote || Ascii.eqb c comma || Ascii.eqb c newline || has_special rest
  end.

(** The [replace] of [escape]: every quote is written twice. *)
Fixpoint double_quotes (s : string) : string :=
  match s with
  | EmptyString => EmptyString
  | String c rest =>
      if Ascii.eqb c quote then String quote (String quote (double_quotes rest))
      else String c (double_quotes rest)
  end.

(** [escape(v)] for [v] absent ([None]) or a string. *)
Definition escape (v : option string) : string :=
  match v with
  | None => EmptyString
  | Some s =>
      if has_special s
      then String quote (double_quotes s ++ String quote EmptyString)
      else s
  end.

(** The number of quote characters of a cell. *)
Fixpoint quotes_in (s : string) : nat :=
  match s with
  | EmptyString => 0
  | String c rest => (if Ascii.eqb c quote then 1 else 0) + quotes_in rest
  end.

End Csv.

(** ** The engine with its turns interleaved *)

Module Async.

(** [setInterval] starts a turn of [adaptiveScan] every 3 seconds and
    the function is [async]: at each [await] the turn gives the thread
    back, and a ticker message, the start of the next turn or the rest
    of an earlier one can run before it goes on.  Between two [await]s
    the code runs undisturbed.  Here a turn is cut at its [await]s: a
    stretch runs to the next [await] and leaves behind the place to go
    on from.  Every [await] counts as such a place, also those on a
    call that returns at once.

    The setup objects are kept in a store, numbered in the order in
    which [generateAISetup] creates them: a slot of [activeTrades] and
    a trade pushed by [recordTradeOutcome] hold the number of the
    object, so what is written to the object through the slot is seen
    through the trade. *)

Record trade : Type := mkTrade {
  held : nat;          (* the setup object of the trade *)
  pushed : Trade.t     (* the other fields, as pushed *)
}.

(** Where a suspended turn goes on. *)
Inductive point : Type :=
| AfterRecord (a : asset)   (* in updateTradeStatus: recordTradeOutcome is done, clear the slot *)
| AfterStatus (a : asset)   (* in adaptiveScan: updateTradeStatus is done, test the slot *)
| AfterSetup (a : asset)    (* in scanForSignals: generateAISetup is done, stamp the clock *)
| AfterScan (a : asset).    (* in adaptiveScan: scanForSignals is done, next asset *)

Record state : Type := mkState {
  riskMode : Engine.mode;
  marketCondition : condition;
  volatilityLevel : volatility;
  priceHistory : perAsset (list Engine.sample);
  currentPrices : perAsset Q;
  lastSignalTime : perAsset Z;
  objects : list Setup.t;
  activeTrades : perAsset (option nat);
  trades : list trade;
  performance : Perf.t;
  suspended : list point
}.

Definition initial : state :=
  mkState Engine.conservative RANGING NORMAL
          (mkPerAsset [] []) (mkPerAsset 0 0) (mkPerAsset 0%Z 0%Z)
          [] (mkPerAsset None None) [] Perf.zero [].

(** What a number that names no object stands for; no slot and no
    trade holds such a number. *)
Definition unset : Setup.t :=
  Setup.mk (mkBand 0 0) 0 0 0 0 0 BULLISH 0 false false RANGING NORMAL OVERLAP None false.

Definition deref (objects : list Setup.t) (r : nat) : Setup.t := nth r objects unset.

(** Assignment to the fields of object [r]. *)
Fixpoint put (objects : list Setup.t) (r : nat) (s : Setup.t) : list Setup.t :=
  match objects, r with
  | [], _ => []
  | _ :: rest, O => s :: rest
  | x :: rest, S r' => x :: put rest r' s
  end.

(** A trade as it reads now: its [setup] is the object in the store. *)
Definition current (objects : list Setup.t) (t : trade) : Trade.t :=
  let p := pushed t in
  Trade.mk (Trade.asset p) (deref objects (held t)) (Trade.outcome p) (Trade.profit p)
           (Trade.timestamp p) (Trade.marketCondition p) (Trade.volatilityLevel p)
           (Trade.sessionActive p) (Trade.exitPrice p) (Trade.exitTime p)
           (Trade.closedBy p).

(** The variables as the functions of module [Engine] read them. *)
Definition view (st : state) : Engine.state :=
  Engine.mkState (riskMode st) (marketCondition st) (volatilityLevel st)
                 (priceHistory st) (currentPrices st) (lastSignalTime st)
                 (mkPerAsset (option_map (deref (objects st)) (at_btc (activeTrades st)))
                             (option_map (deref (objects st)) (at_eth (activeTrades st))))
                 (map (current (objects st)) (trades st))
                 (performance st).

(** The variables that hold no object, taken over from [e]. *)
Definition absorb (st : state) (e : Engine.state) : state :=
  mkState (Engine.riskMode e) (Engine.marketCondition e) (Engine.volatilityLevel e)
          (Engine.priceHistory e) (Engine.currentPrices e) (Engine.lastSignalTime e)
          (objects st) (activeTrades st) (trades st) (Engine.performance e)
          (suspended st).

Definition with_objects (st : state) (o : list Setup.t) : state :=
  mkState (riskMode st) (marketCondition st) (volatilityLevel st)
          (priceHistory st) (currentPrices st) (lastSignalTime st)
          o (activeTrades st) (trades st) (performance st) (suspended st).

Definition with_activeTrades (st : state) (a : perAsset (option nat)) : state :=
  mkState (riskMode st) (marketCondition st) (volatilityLevel st)
          (priceHistory st) (currentPrices st) (lastSignalTime st)
          (objects st) a (trades st) (performance st) (suspended st).

Definition with_lastSignalTime (st : state) (l : perAsset Z) : state :=
  mkState (riskMode st) (marketCondition st) (volatilityLevel st)
          (priceHistory st) (currentPrices st) l
          (objects st) (activeTrades st) (trades st) (performance st) (suspended st).

Definition with_database (st : state) (o : list Setup.t) (ts : list trade) (p : Perf.t)
  : state :=
  mkState (riskMode st) (marketCondition st) (volatilityLevel st)
          (priceHistory st) (currentPrices st) (lastSignalTime st)
          o (activeTrades st) ts p (suspended st).

Definition with_suspended (st : state) (s : list point) : state :=
  mkState (riskMode st) (marketCondition st) (volatilityLevel st)
          (priceHistory st) (currentPrices st) (lastSignalTime st)
          (objects st) (activeTrades st) (trades st) (performance st) s.

(** The handler of a ticker message; it has no [await]. *)
Definition updatePrice (st : state) (a : asset) (price change : Q) (now : Z) : state :=
  absorb st (Engine.updatePrice (view st) a price change now).

Definition detectMarketCondition (st : state) : state :=
  absorb st (Engine.detectMarketCondition (view st)).

(** [recordTradeOutcome(asset, setup, outcome, profit)] up to its
    [await saveToVPS()], for the object [r]. *)
Definition recordTradeOutcome (st : state) (a : asset) (r : nat) (o : outcome)
           (profit : Q) (now : Z) : state :=
  let setup := deref (objects st) r in
  match o with
  | ACTIVE | OPEN => st
  | _ =>
      if Setup.recorded setup then st
      else if existsb (Engine.is_duplicate a setup o)
                      (map (current (objects st)) (trades st)) then st
      else
        let setup' := Setup.mark_recorded setup in
        let objects' := put (objects st) r setup' in
        let trade :=
          mkTrade r
            (Trade.mk a setup' (Some o) (Engine.realizedPnL setup' o)
                      (if (Setup.timestamp setup' =? 0)%Z then now
                       else Setup.timestamp setup')
                      (Some (Setup.marketCondition setup'))
                      (Some (Setup.volatilityLevel setup'))
                      (Some (Setup.sessionActive setup'))
                      None None None) in
        let all := trades st ++ [trade] in
        with_database st objects' all
                      (Engine.update_performance (performance st)
                                                 (map (current objects') all) o)
  end.

(** [updateTradeStatus(asset)] up to its first [await], or to its
    [return] where no rule applies. *)
Definition updateTradeStatus (st : state) (a : asset) (now : Z) : state * point :=
  match lookup (activeTrades st) a with
  | None => (st, AfterStatus a)
  | Some r =>
      let trade := deref (objects st) r in
      let currentPrice := lookup (currentPrices st) a in
      if negb (Js.truthy currentPrice) || (currentPrice <=? 0) then (st, AfterStatus a)
      else
        let d := Setup.direction trade in
        let entryAvg := Engine.entryAvg trade in
        if negb (Setup.reachedTarget1 trade)
           && Engine.crossed_up d currentPrice (Setup.t1 trade) then
          (with_objects st (put (objects st) r (Setup.arm_breakeven trade entryAvg)),
           AfterStatus a)
        else if Setup.reachedTarget1 trade && negb (Setup.reachedTarget2 trade)
                && Engine.crossed_up d currentPrice (Setup.t2 trade) then
          (recordTradeOutcome st a r WIN (Qabs (Setup.t2 trade - entryAvg)) now,
           AfterRecord a)
        else if Setup.reachedTarget1 trade && negb (Setup.reachedTarget2 trade)
                && Engine.crossed_down d currentPrice (Setup.stop trade) then
          (recordTradeOutcome st a r BREAKEVEN 0 now, AfterRecord a)
        else if negb (Setup.reachedTarget1 trade)
                && Engine.crossed_down d currentPrice (Engine.loss_stop trade) then
          (recordTradeOutcome st a r LOSS (Qabs (currentPrice - entryAvg)) now,
           AfterRecord a)
        else (st, AfterStatus a)
  end.

(** [generateAISetup] up to its [await saveToVPS()]: a new object, put
    in the slot. *)
Definition generateAISetup (st : state) (a : asset) (price : Q) (confidence : Z)
           (momentum : Q) (now hour : Z) : state :=
  let d := Engine.direction_of momentum in
  let config := Engine.RISK_CONFIGS (riskMode st) in
  let lv := Engine.calculateSetupLevels a price d config in
  let setup :=
    Setup.mk (Engine.l_entry lv) (Engine.l_stop lv) (Engine.l_t1 lv) (Engine.l_t2 lv)
             price confidence d now false false (marketCondition st) (volatilityLevel st)
             (getCurrentSession hour) None false in
  with_activeTrades (with_objects st (objects st ++ [setup]))
                    (assign (activeTrades st) a (Some (length (objects st)))).

(** [scanForSignals] up to the [await] on [generateAISetup], or to its
    [return]. *)
Definition scanForSignals (st : state) (a : asset) (currentPrice : Q)
           (i : Engine.scanInputs) : state * point :=
  let timeSinceLastSignal := (Engine.now_scan i - lookup (lastSignalTime st) a)%Z in
  if (timeSinceLastSignal <? 60000)%Z then (st, AfterScan a)
  else
    match lookup (activeTrades st) a with
    | Some _ => (st, AfterScan a)
    | None =>
        let momentum := Engine.calculateMomentum (view st) a (Engine.random_momentum i) in
        let config := Engine.RISK_CONFIGS (riskMode st) in
        let confidence :=
          Engine.confidence_of (view st) momentum (Engine.random_confidence i) in
        if (confidence >=? Engine.minConfidence config)%Z then
          (generateAISetup st a currentPrice confidence momentum
                           (Engine.now_setup i) (Engine.utcHour i),
           AfterSetup a)
        else (st, AfterScan a)
    end.

(** The [for] loop of [adaptiveScan] from the assets [todo] on, up to
    its first [await]. *)
Fixpoint start (st : state) (todo : list asset) (i : Engine.scanInputs)
  : state * option point :=
  match todo with
  | [] => (st, None)
  | a :: rest =>
      if lookup (currentPrices st) a >? 0 then
        let '(st', p) := updateTradeStatus st a (Engine.now_scan i) in (st', Some p)
      else start st rest i
  end.

(** The assets of the loop after [a]. *)
Definition remaining (a : asset) : list asset :=
  match a with btc => [eth] | eth => [] end.

(** A suspended turn goes on from [p] to its next [await] or its end.
    [i] is what the stretch reads from the clock and from
    [Math.random()]. *)
Definition resume (st : state) (p : point) (i : Engine.scanInputs) : state * option point :=
  match p with
  | AfterRecord a =>
      (with_activeTrades st (assign (activeTrades st) a None), Some (AfterStatus a))
  | AfterStatus a =>
      match lookup (activeTrades st) a with
      | None =>
          let '(st', p') := scanForSignals st a (lookup (currentPrices st) a) i in
          (st', Some p')
      | Some _ => start st (remaining a) i
      end
  | AfterSetup a =>
      (with_lastSignalTime st (assign (lastSignalTime st) a (Engine.now_signal i)),
       Some (AfterScan a))
  | AfterScan a => start st (remaining a) i
  end.

(** What the event loop runs next: a ticker message, the timer (or the
    first scan of [main]) starting a turn, or the suspended turn number
    [k] going on. *)
Inductive event : Type :=
| Ticker (a : asset) (price change : Q) (now : Z)
| Timer (i : Engine.scanInputs)
| Resume (k : nat) (i : Engine.scanInputs).

Definition suspend (st : state) (p : option point) : state :=
  match p with
  | Some p => with_suspended st (suspended st ++ [p])
  | None => st
  end.

Fixpoint without {A : Type} (k : nat) (l : list A) : list A :=
  match l, k with
  | [], _ => []
  | _ :: rest, O => rest
  | x :: rest, S k' => x :: without k' rest
  end.

Definition step (st : state) (e : event) : state :=
  match e with
  | Ticker a price change now => updatePrice st a price change now
  | Timer i =>
      let '(st', p) := start (detectMarketCondition st) [btc; eth] i in
      suspend st' p
  | Resume k i =>
      match nth_error (suspended st) k with
      | None => st
      | Some p =>
          let '(st', p') := resume (with_suspended st (without k (suspended st))) p i in
          suspend st' p'
      end
  end.

Definition run (st : state) (events : list event) : state :=
  fold_left step events st.

(** *** Predicates *)

(** What a setup object keeps for good, and what can change once: the
    flag [recorded] is only ever set, and so is [reachedTarget1], with
    which [stop] and [originalStop] change. *)
Definition evolves (s s' : Setup.t) : Prop :=
  Setup.entry s' = Setup.entry s
  /\ Setup.t1 s' = Setup.t1 s
  /\ Setup.t2 s' = Setup.t2 s
  /\ Setup.entryPrice s' = Setup.entryPrice s
  /\ Setup.confidence s' = Setup.confidence s
  /\ Setup.direction s' = Setup.direction s
  /\ Setup.timestamp s' = Setup.timestamp s
  /\ Setup.reachedTarget2 s' = Setup.reachedTarget2 s
  /\ Setup.marketCondition s' = Setup.marketCondition s
  /\ Setup.volatilityLevel s' = Setup.volatilityLevel s
  /\ Setup.sessionActive s' = Setup.sessionActive s
  /\ (Setup.recorded s = true -> Setup.recorded s' = true)
  /\ (Setup.reachedTarget1 s = true -> Setup.reachedTarget1 s' = true)
  /\ (Setup.reachedTarget1 s' = Setup.reachedTarget1 s ->
      Setup.stop s' = Setup.stop s /\ Setup.originalStop s' = Setup.originalStop s).

(** The store afterwards has every object of the store before, each
    evolved. *)
Definition grows (objects objects' : list Setup.t) : Prop :=
  (length objects <= length objects')%nat
  /\ forall r, (r < length objects)%nat -> evolves (deref objects r) (deref objects' r).

(** A setup object: opened at a positive price, target 2 never marked,
    and an original stop exactly when target 1 has been reached. *)
Definition object_ok (s : Setup.t) : Prop :=
  0 < Setup.entryPrice s
  /\ Setup.reachedTarget2 s = false
  /\ (Setup.reachedTarget1 s = true <-> Setup.originalStop s <> None).

(** A stored trade: its object is in the store and flagged; its outcome
    is WIN with a profit of 0 or more, BREAKEVEN with profit 0, both on
    an object that has reached target 1, or LOSS with the risk capital
    as loss. *)
Definition trade_ok (objects : list Setup.t) (t : trade) : Prop :=
  (held t < length objects)%nat
  /\ Setup.recorded (deref objects (held t)) = true
  /\ ((Trade.outcome (pushed t) = Some WIN
       /\ 0 <= Trade.profit (pushed t)
       /\ Setup.reachedTarget1 (deref objects (held t)) = true)
      \/ (Trade.outcome (pushed t) = Some BREAKEVEN
          /\ Trade.profit (pushed t) == 0
          /\ Setup.reachedTarget1 (deref objects (held t)) = true)
      \/ (Trade.outcome (pushed t) = Some LOSS
          /\ Trade.profit (pushed t) == - Engine.RISK_PER_TRADE)).

(** A turn suspended inside the work on an asset has seen a positive
    price for it. *)
Definition point_ok (st : state) (p : point) : Prop :=
  match p with
  | AfterRecord a | AfterStatus a => 0 < lookup (currentPrices st) a
  | AfterSetup _ | AfterScan _ => True
  end.

Definition invariant (st : state) : Prop :=
  (forall a r, lookup (activeTrades st) a = Some r -> (r < length (objects st))%nat)
  /\ Forall object_ok (objects st)
  /\ Forall (trade_ok (objects st)) (trades st)
  /\ Forall (point_ok st) (suspended st)
  /\ riskMode st = Engine.conservative.

(** What a stretch reads at the time [now] when the momentum draw is
    0.9 and the confidence draw 0. *)
Definition at_time (now : Z) : Engine.scanInputs :=
  Engine.mkScanInputs now now now 12 0.9 0.

(** A turn that opens a position on btc at 100 and runs to its end
    before anything else happens. *)
Definition opening_turn : list event :=
  [Ticker btc 100 0.4 1700000000000;
   Timer (at_time 1700000001000);
   Resume 0 (at_time 1700000001000);
   Resume 0 (at_time 1700000001000);
   Resume 0 (at_time 1700000001000)].

(** Two turns on that position.  The price falls through the stop: the
    turn of second 4 records the LOSS and is suspended in [saveToVPS]
    before it clears the slot.  The price then rises beyond target 1,
    and three seconds after the first the timer starts the next turn,
    which finds the recorded position still in the slot. *)
Definition overlapping_turns : list event :=
  opening_turn
  ++ [Ticker btc 99.4 0 1700000002000;
      Timer (at_time 1700000004000);
      Ticker btc 100.8 0 1700000005000;
      Timer (at_time 1700000007000)].

(** The same messages with each turn run to its end before the next
    event, as module [Run] takes them: the position is stopped out and
    a new one is opened 61 seconds after the first. *)
Definition turns_in_sequence : list event :=
  opening_turn
  ++ [Ticker btc 99.4 0 1700000002000;
      Timer (at_time 1700000004000);
      Resume 0 (at_time 1700000004000);
      Resume 0 (at_time 1700000004000);
      Resume 0 (at_time 1700000004000);
      Ticker btc 100.8 0 1700000005000;
      Timer (at_time 1700000062000);
      Resume 0 (at_time 1700000062000);
      Resume 0 (at_time 1700000062000);
      Resume 0 (at_time 1700000062000)].

Definition the_same_in_sequence : list Run.event :=
  [Run.Ticker btc 100 0.4 1700000000000;
   Run.Timer (mkPerAsset (at_time 1700000001000) (at_time 1700000001000));
   Run.Ticker btc 99.4 0 1700000002000;
   Run.Timer (mkPerAsset (at_time 1700000004000) (at_time 1700000004000));
   Run.Ticker btc 100.8 0 1700000005000;
   Run.Timer (mkPerAsset (at_time 1700000062000) (at_time 1700000062000))].

End Async.

(** ** The data file behind the manual close *)

Module DataFile.

(** One request to [POST /api/trades/close] against the data file.
    [loadTradeData] reads the file, the handler changes what it read
    and hands it to [saveTradeData], which catches a failed write, logs
    it and returns [false].  The handler does not read that result: it
    answers as after a write that went through.  [written] tells
    whether the write went through; the result is the answer and the
    content of the file afterwards. *)
Definition close_request (file : Blob.t) (req : ApiServer.closeRequest) (now : Z)
           (written : bool) : ApiServer.response * Blob.t :=
  let '(answer, data) := ApiServer.post_trades_close file req now in
  (answer, if written then data else file).

End DataFile.

#[local] Set Warnings "-inexact-float".

(** ** The exit path in IEEE doubles

    The functions of the end-to-end run once more, on binary64 values
    with the operations of the processor, to replay that run with the
    rounding of a JavaScript engine. *)

Module Binary64.
Import PrimFloat.
Local Open Scope float_scope.

(** ['BULLISH'] or ['BEARISH'] *)
Definition side : Type := direction.

Record setup : Type := mkSetup {
  entry_min : float;
  entry_max : float;
  stop : float;
  t1 : float;
  t2 : float;
  entryPrice : float;
  direction : side;
  reachedTarget1 : bool;
  reachedTarget2 : bool;
  originalStop : option float
}.

(** a number is falsy when it is [0], [-0] or [NaN] *)
Definition truthy (x : float) : bool := negb (is_zero x || is_nan x).

Definition or_else (x y : float) : float := if truthy x then x else y.

Definition calculateSetupLevels (price : float) (d : side)
           (stopPct target1 target2 : float) : setup :=
  let entry_min := price * (match d with BULLISH => 0.9995 | BEARISH => 1.0005 end) in
  let entry_max := price * (match d with BULLISH => 1.0005 | BEARISH => 0.9995 end) in
  match d with
  | BULLISH =>
      mkSetup entry_min entry_max
              (price * (1 - stopPct))
              (price * (1 + stopPct * target1))
              (price * (1 + stopPct * target2))
              price d false false None
  | BEARISH =>
      mkSetup entry_min entry_max
              (price * (1 + stopPct))
              (price * (1 - stopPct * target1))
              (price * (1 - stopPct * target2))
              price d false false None
  end.

Definition entryAvg (trade : setup) : float :=
  or_else ((entry_min trade + entry_max trade) / 2) (entryPrice trade).

Definition realizedPnL (s : setup) (o : outcome) : float :=
  let RISK_PER_TRADE := 10 in
  let pnl :=
    match o with
    | WIN =>
        let stopDistancePercent := abs ((stop s - entryPrice s) / entryPrice s) in
        let targetDistancePercent := abs ((t2 s - entryPrice s) / entryPrice s) in
        if (0 <? stopDistancePercent) && (0 <? targetDistancePercent) then
          let positionValueAtRisk := RISK_PER_TRADE / stopDistancePercent in
          positionValueAtRisk * targetDistancePercent
        else RISK_PER_TRADE * 3
    | LOSS => - RISK_PER_TRADE
    | _ => 0
    end in
  if is_nan pnl || is_infinity pnl then 0 else pnl.

Inductive step : Type :=
| Hold (s : setup)
| Armed (s : setup)
| Closed (o : outcome) (profit pnl : float).

(** [reachedTarget1 = true; originalStop = stop; stop = entryAvg] *)
Definition arm_breakeven (trade : setup) : setup :=
  mkSetup (entry_min trade) (entry_max trade) (entryAvg trade) (t1 trade) (t2 trade)
          (entryPrice trade) (direction trade) true (reachedTarget2 trade)
          (Some (stop trade)).

(** The four rules of [updateTradeStatus] for a positive price. *)
Definition updateTradeStatus (trade : setup) (currentPrice : float) : step :=
  let up level :=
    match direction trade with
    | BULLISH => level <=? currentPrice
    | BEARISH => currentPrice <=? level
    end in
  let down level :=
    match direction trade with
    | BULLISH => currentPrice <=? level
    | BEARISH => level <=? currentPrice
    end in
  if negb (reachedTarget1 trade) && up (t1 trade) then Armed (arm_breakeven trade)
  else if reachedTarget1 trade && negb (reachedTarget2 trade) && up (t2 trade) then
    Closed WIN (abs (t2 trade - entryAvg trade)) (realizedPnL trade WIN)
  else if reachedTarget1 trade && negb (reachedTarget2 trade) && down (stop trade) then
    Closed BREAKEVEN 0 (realizedPnL trade BREAKEVEN)
  else if negb (reachedTarget1 trade)
          && down (match originalStop trade with
                   | Some s => or_else s (stop trade)
                   | None => stop trade
                   end) then
    Closed LOSS (abs (currentPrice - entryAvg trade)) (realizedPnL trade LOSS)
  else Hold trade.

Definition opened : setup := calculateSetupLevels 100 BULLISH 0.005 1.5 2.5.

Definition armed : setup := arm_breakeven opened.

(** A position opened at 2047.49, after target 1. *)
Definition armed_at_2047_49 : setup :=
  arm_breakeven (calculateSetupLevels 2047.49 BULLISH 0.005 1.5 2.5).

End Binary64.

(** * Properties *)

(** ** Comparisons and falsy values *)

Lemma ltb_true (x y : Q) : (x <? y) = true <-> x < y.
Proof.
  unfold Js.ltb. rewrite negb_true_iff, <- not_true_iff_false, Qle_bool_iff.
  split; [apply Qnot_le_lt | apply Qlt_not_le].
Qed.

Lemma ltb_false (x y : Q) : (x <? y) = false <-> y <= x.
Proof.
  unfold Js.ltb. rewrite negb_false_iff. apply Qle_bool_iff.
Qed.

Lemma leb_true (x y : Q) : (x <=? y) = true <-> x <= y.
Proof. apply Qle_bool_iff. Qed.

Lemma gtb_true (x y : Q) : (x >? y) = true <-> y < x.
Proof. apply ltb_true. Qed.

Lemma gtb_false (x y : Q) : (x >? y) = false <-> x <= y.
Proof. apply ltb_false. Qed.

Lemma or_else_zero (x : Q) : Js.or_else x 0 == x.
Proof.
  unfold Js.or_else, Js.truthy.
  destruct (Qeq_bool x 0) eqn:E; simpl; [|reflexivity].
  apply Qeq_bool_iff in E. symmetry. exact E.
Qed.

Lemma asset_eqb_refl (a : asset) : asset_eqb a a = true.
Proof. destruct a; reflexivity. Qed.

Lemma outcome_eqb_refl (o : outcome) : outcome_eqb o o = true.
Proof. destruct o; reflexivity. Qed.

Lemma outcome_eqb_eq (a b : outcome) : outcome_eqb a b = true <-> a = b.
Proof. destruct a, b; simpl; split; congruence. Qed.

Lemma lookup_assign_same {A : Type} (m : perAsset A) (a : asset) (v : A) :
  lookup (assign m a v) a = v.
Proof. destruct a; reflexivity. Qed.

Lemma lookup_assign_other {A : Type} (m : perAsset A) (a b : asset) (v : A) :
  a <> b -> lookup (assign m a v) b = lookup m b.
Proof. destruct a, b; simpl; congruence. Qed.

(** The list after [find]-and-assign: the first element satisfying the
    predicate is replaced in place. *)
Lemma update_first_some {A : Type} (p : A -> bool) (f : A -> A) (l l' : list A) :
  update_first p f l = Some l' ->
  exists pre x post, l = pre ++ x :: post /\ p x = true /\ l' = pre ++ f x :: post.
Proof.
  revert l'. induction l as [|y rest IH]; simpl; intros l' H; [discriminate|].
  destruct (p y) eqn:Ey.
  - inversion H; subst. exists [], y, rest. repeat split; trivial.
  - destruct (update_first p f rest) as [rest'|]; [|discriminate].
    inversion H; subst.
    destruct (IH rest' eq_refl) as (pre & x & post & -> & Hx & ->).
    exists (y :: pre), x, post. repeat split; trivial.
Qed.

(** ** End to end under the conservative preset *)

Module EndToEnd.
Import Engine Scenario.

Lemma opened_holds_setup : lookup (activeTrades opened) btc = Some opened_setup.
Proof. reflexivity. Qed.

Lemma armed_after_target1 : lookup (activeTrades (fst at_100_8)) btc = Some armed.
Proof. vm_compute. reflexivity. Qed.

(** The WIN formula with the stop the position was opened with. *)
Lemma win_formula_with_opening_stop : realizedPnL opened_setup WIN == 25.
Proof. vm_compute. reflexivity. Qed.

(** C1, evaluated.  The position opened at 100 has stop 99.5, target1
    100.75 and target2 101.25; the price 100 changes nothing, 100.8
    arms breakeven (stop 100, original stop 99.5) and 101.3 closes the
    position as WIN with logged profit 1.25.  The stored realizedPnL is
    30, the degenerate-distance fallback, and not 25: the WIN formula
    reads [setup.stop], which target 1 has moved to the entry price,
    so stopDistancePercent is 0. *)
Theorem end_to_end_win_stores_fallback_pnl :
  Setup.direction opened_setup = BULLISH
  /\ Setup.stop opened_setup == 99.5
  /\ Setup.t1 opened_setup == 100.75
  /\ Setup.t2 opened_setup == 101.25
  /\ snd at_100 = Nothing
  /\ lookup (activeTrades (fst at_100)) btc = Some opened_setup
  /\ snd at_100_8 = Target1Hit
  /\ Setup.stop armed == 100
  /\ Setup.originalStop armed = Some (Setup.stop opened_setup)
  /\ Setup.reachedTarget1 armed = true
  /\ (exists profit record,
        snd at_101_3 = Target2HitWin profit
        /\ profit == 1.25
        /\ trades (fst at_101_3) = [record]
        /\ Trade.outcome record = Some WIN
        /\ Trade.setup record = Setup.mark_recorded armed
        /\ Trade.profit record == 30
        /\ ~ Trade.profit record == 25)
  /\ lookup (activeTrades (fst at_101_3)) btc = None.
Proof.
  repeat split; try (vm_compute; reflexivity).
  eexists. eexists. repeat split; try (vm_compute; reflexivity).
  vm_compute. discriminate.
Qed.

End EndToEnd.

(** ** The same run in IEEE doubles *)

Module Binary64Run.
Import Binary64.
Local Open Scope float_scope.

(** With binary64 rounding the levels are the doubles 99.5, 100.75 and
    101.25, the breakeven stop is exactly 100, and the WIN close stores
    30: the exact-rational embedding and the doubles agree on this run. *)
Lemma end_to_end_in_doubles :
  PrimFloat.eqb (stop opened) 99.5 = true
  /\ PrimFloat.eqb (t1 opened) 100.75 = true
  /\ PrimFloat.eqb (t2 opened) 101.25 = true
  /\ updateTradeStatus opened 100 = Hold opened
  /\ updateTradeStatus opened 100.8 = Armed armed
  /\ PrimFloat.eqb (stop armed) 100 = true
  /\ updateTradeStatus armed 101.3 = Closed WIN 1.25 30.
Proof. repeat split; vm_compute; reflexivity. Qed.

(** Where the midpoint of the entry band does not round to the entry
    price the moved stop is one unit in the last place away from it:
    the distance read by the WIN formula is then about 1e-16 instead of
    0, and the stored realizedPnL of a position opened at 2047.49 is
    above 1e15. *)
Lemma win_after_rounded_breakeven :
  PrimFloat.eqb (entryPrice armed_at_2047_49) 2047.49 = true
  /\ PrimFloat.eqb (stop armed_at_2047_49) 2047.49 = false
  /\ PrimFloat.ltb (abs (stop armed_at_2047_49 - 2047.49)) 1e-12 = true
  /\ PrimFloat.ltb 1e15 (realizedPnL armed_at_2047_49 WIN) = true.
Proof. repeat split; vm_compute; reflexivity. Qed.

End Binary64Run.

(** ** The outcome recorder of the engine *)

Module Recorder.
Import Engine Pred.

Lemma asset_eqb_eq (a b : asset) : asset_eqb a b = true <-> a = b.
Proof. destruct a, b; simpl; split; congruence. Qed.

Lemma outcome_is_eq (stored : option outcome) (o : outcome) :
  outcome_is stored o = true <-> stored = Some o.
Proof.
  destruct stored as [x|]; simpl.
  - rewrite outcome_eqb_eq. split; congruence.
  - split; discriminate.
Qed.

Lemma is_duplicate_matches (a : asset) (setup : Setup.t) (o : outcome) (t : Trade.t) :
  is_duplicate a setup o t = true <-> matches a setup o t.
Proof.
  unfold is_duplicate, matches.
  rewrite !andb_true_iff, asset_eqb_eq, outcome_is_eq, ltb_true.
  rewrite !or_else_zero. tauto.
Qed.

Lemma duplicate_found (a : asset) (setup : Setup.t) (o : outcome) (ts : list Trade.t) :
  existsb (is_duplicate a setup o) ts = true <-> exists t, In t ts /\ matches a setup o t.
Proof.
  rewrite existsb_exists. split; intros [t [Hin H]]; exists t; split; trivial;
    apply is_duplicate_matches; exact H.
Qed.

Lemma near_self (x : Q) : Qabs (x - x) < 0.5.
Proof.
  setoid_replace (x - x) with 0 by ring. reflexivity.
Qed.

(** Each of the three guards returns before anything is written. *)
Lemma guard_nonterminal (st : state) (a : asset) (setup : Setup.t)
      (o : option outcome) (profit : Q) (now : Z) :
  o = None \/ o = Some ACTIVE \/ o = Some OPEN ->
  recordTradeOutcome st a setup o profit now = (st, setup, NotRecordingStillActive).
Proof. intros [-> | [-> | ->]]; reflexivity. Qed.

Lemma guard_recorded (st : state) (a : asset) (setup : Setup.t)
      (o : option outcome) (profit : Q) (now : Z) :
  terminal o -> Setup.recorded setup = true ->
  recordTradeOutcome st a setup o profit now = (st, setup, AlreadyRecorded).
Proof.
  intros [-> | [-> | ->]] H; unfold recordTradeOutcome; rewrite H; reflexivity.
Qed.

Lemma guard_duplicate (st : state) (a : asset) (setup : Setup.t)
      (o : outcome) (profit : Q) (now : Z) :
  terminal (Some o) -> Setup.recorded setup = false ->
  (exists t, In t (trades st) /\ matches a setup o t) ->
  recordTradeOutcome st a setup (Some o) profit now = (st, setup, DuplicateDetected).
Proof.
  intros Ht Hr Hd. apply duplicate_found in Hd.
  unfold recordTradeOutcome. rewrite Hr, Hd.
  destruct Ht as [E | [E | E]]; inversion E; reflexivity.
Qed.

(** Together: a call whose outcome is not terminal, or whose setup is
    flagged, or for which a matching record is stored, changes neither
    the list, nor the aggregates, nor the setup. *)
Lemma guards_are_noops (st : state) (a : asset) (setup : Setup.t)
      (o : option outcome) (profit : Q) (now : Z) :
  ~ terminal o
  \/ Setup.recorded setup = true
  \/ (exists o' t, o = Some o' /\ In t (trades st) /\ matches a setup o' t) ->
  fst (recordTradeOutcome st a setup o profit now) = (st, setup).
Proof.
  intros [Hn | [Hr | (o' & t & -> & Hin & Hm)]].
  - rewrite guard_nonterminal; [reflexivity|].
    destruct o as [[| | | |]|]; auto; exfalso; apply Hn; unfold terminal; auto.
  - destruct o as [[| | | |]|]; try reflexivity;
      (rewrite guard_recorded; [reflexivity | unfold terminal; auto | exact Hr]).
  - destruct (Setup.recorded setup) eqn:Hr.
    + destruct o'; try reflexivity;
        (rewrite guard_recorded; [reflexivity | unfold terminal; auto | exact Hr]).
    + destruct o'; try reflexivity;
        (rewrite guard_duplicate;
         [reflexivity | unfold terminal; auto | exact Hr | exists t; auto]).
Qed.

(** When no guard fires the setup is flagged and one record is appended. *)
Lemma records_when_clear (st : state) (a : asset) (setup : Setup.t)
      (o : outcome) (profit : Q) (now : Z) :
  terminal (Some o) -> Setup.recorded setup = false ->
  existsb (is_duplicate a setup o) (trades st) = false ->
  exists t,
    recordTradeOutcome st a setup (Some o) profit now
    = (with_database st (trades st ++ [t])
                     (update_performance (performance st) (trades st ++ [t]) o),
       Setup.mark_recorded setup, Recording)
    /\ Trade.asset t = a
    /\ Trade.setup t = Setup.mark_recorded setup
    /\ Trade.outcome t = Some o
    /\ Trade.profit t = realizedPnL (Setup.mark_recorded setup) o.
Proof.
  intros Ht Hr Hd. unfold recordTradeOutcome. rewrite Hr, Hd.
  destruct Ht as [E | [E | E]]; inversion E; subst;
    eexists; repeat split; reflexivity.
Qed.

(** The log line tells whether the call wrote. *)
Lemma recording_inv (st st' : state) (a : asset) (setup setup' : Setup.t)
      (o : option outcome) (profit : Q) (now : Z) :
  recordTradeOutcome st a setup o profit now = (st', setup', Recording) ->
  exists o' t,
    o = Some o' /\ terminal o
    /\ Setup.recorded setup = false
    /\ setup' = Setup.mark_recorded setup
    /\ trades st' = trades st ++ [t]
    /\ Trade.asset t = a /\ Trade.setup t = setup' /\ Trade.outcome t = Some o'.
Proof.
  unfold recordTradeOutcome, terminal.
  destruct o as [[| | | |]|]; try discriminate;
    destruct (Setup.recorded setup); try discriminate;
    match goal with
    | |- context [existsb ?f ?l] => destruct (existsb f l); try discriminate
    end;
    intros H; inversion H; subst; clear H;
    eexists; eexists; repeat split; eauto.
Qed.

Lemma not_recording_inv (st st' : state) (a : asset) (setup setup' : Setup.t)
      (o : option outcome) (profit : Q) (now : Z) (l : recordLog) :
  recordTradeOutcome st a setup o profit now = (st', setup', l) ->
  l <> Recording -> st' = st /\ setup' = setup.
Proof.
  unfold recordTradeOutcome.
  destruct o as [[| | | |]|];
    try (intros H; inversion H; subst; tauto);
    destruct (Setup.recorded setup);
    try (intros H; inversion H; subst; tauto);
    match goal with
    | |- context [existsb ?f ?l] => destruct (existsb f l)
    end;
    intros H; inversion H; subst; tauto.
Qed.

(** Which branch runs depends neither on [profit] nor on the clock. *)
Lemma log_independent (st : state) (a : asset) (setup : Setup.t)
      (o : option outcome) (p p' : Q) (now now' : Z) :
  snd (recordTradeOutcome st a setup o p now)
  = snd (recordTradeOutcome st a setup o p' now').
Proof.
  unfold recordTradeOutcome.
  destruct o as [[| | | |]|]; trivial;
    destruct (Setup.recorded setup); trivial;
    match goal with
    | |- context [existsb ?f ?l] => destruct (existsb f l); trivial
    end.
Qed.

End Recorder.

(** ** Recording a close twice, and two closes that look alike *)

Module Idempotence.
Import Engine Pred Recorder.

(** In the engine a second call for the same close writes nothing,
    whether it is given the setup object the first call left (the
    [recorded] flag stops it) or an equal copy without the flag (the
    stored record stops it). *)
Lemma engine_second_call_is_noop (st st1 : state) (a : asset) (setup setup1 again : Setup.t)
      (o : outcome) (p p' : Q) (now now' : Z) (l : recordLog) :
  terminal (Some o) ->
  recordTradeOutcome st a setup (Some o) p now = (st1, setup1, l) ->
  again = setup1 \/ again = setup ->
  fst (fst (recordTradeOutcome st1 a again (Some o) p' now')) = st1.
Proof.
  intros Ht H1 Hagain.
  destruct (recordTradeOutcome st1 a again (Some o) p' now') as [[st2 s2] l2] eqn:H2.
  simpl. destruct l2;
    try (eapply not_recording_inv; [exact H2 | discriminate]).
  exfalso.
  destruct (recording_inv _ _ _ _ _ _ _ _ H2) as (o2 & t2 & Eo & _ & Hr2 & _).
  assert (Hsame : forall s, snd (recordTradeOutcome st a s (Some o) p' now')
                            = snd (recordTradeOutcome st a s (Some o) p now))
    by (intro s; apply log_independent).
  destruct l;
    try (destruct (not_recording_inv _ _ _ _ _ _ _ _ _ H1) as [-> ->]; [discriminate|];
         assert (again = setup) by tauto; subst again;
         specialize (Hsame setup); rewrite H1, H2 in Hsame; discriminate).
  - destruct (recording_inv _ _ _ _ _ _ _ _ H1)
      as (o1 & t1 & Eo1 & _ & Hr1 & Es1 & Etr & Ea & Es & Eout).
    inversion Eo1; subst o1.
    destruct Hagain as [-> | ->].
    + subst setup1. simpl in Hr2. discriminate.
    + rewrite (guard_duplicate st1 a setup o p' now' Ht Hr1) in H2; [discriminate|].
      exists t1. split.
      * rewrite Etr. apply in_or_app. right. left. reflexivity.
      * unfold matches. rewrite Es, Es1.
        split; [exact Ea | split; [exact (near_self (Setup.entryPrice setup)) | exact Eout]].
Qed.

(** C10.  Once the close of a position is stored, the close of another
    position on that asset with the same outcome and an entry price less
    than 0.5 away is dropped by the duplicate check, in every state
    whose list holds that record, wherever in the list it stands and
    whatever has been recorded since: the call returns the state as it
    was, appends no record and leaves [second.recorded] false; the exit
    check that made the call then clears the slot, so no later call
    records the position either. *)
Theorem second_close_within_half_unit_is_dropped
        (st : state) (a : asset) (first : Trade.t) (second : Setup.t)
        (o : outcome) (p : Q) (now : Z) :
  terminal (Some o) ->
  In first (trades st) ->
  Trade.asset first = a ->
  Trade.outcome first = Some o ->
  Qabs (Setup.entryPrice (Trade.setup first) - Setup.entryPrice second) < 0.5 ->
  Setup.recorded second = false ->
  recordTradeOutcome st a second (Some o) p now = (st, second, DuplicateDetected)
  /\ Setup.recorded (snd (fst (recordTradeOutcome st a second (Some o) p now))) = false
  /\ trades (close st a second o p now) = trades st
  /\ performance (close st a second o p now) = performance st
  /\ lookup (activeTrades (close st a second o p now)) a = None.
Proof.
  intros Ht Hin Ha Ho Hnear Hr.
  assert (Hdrop : recordTradeOutcome st a second (Some o) p now
                  = (st, second, DuplicateDetected)).
  { apply guard_duplicate; trivial.
    exists first. split; [exact Hin|].
    unfold matches. split; [exact Ha | split; [exact Hnear | exact Ho]]. }
  split; [exact Hdrop|].
  unfold close. rewrite Hdrop. cbn [fst snd].
  split; [exact Hr|].
  repeat split. apply lookup_assign_same.
Qed.

(** The case of one close right after the other: the state the first
    call returns holds the first record. *)
Lemma second_close_right_after_the_first
      (st st1 : state) (a : asset) (first first' second : Setup.t)
      (o : outcome) (p1 p2 : Q) (now1 now2 : Z) :
  recordTradeOutcome st a first (Some o) p1 now1 = (st1, first', Recording) ->
  Setup.recorded second = false ->
  Qabs (Setup.entryPrice first - Setup.entryPrice second) < 0.5 ->
  recordTradeOutcome st1 a second (Some o) p2 now2 = (st1, second, DuplicateDetected).
Proof.
  intros H1 Hr Hnear.
  destruct (recording_inv _ _ _ _ _ _ _ _ H1)
    as (o1 & t1 & Eo1 & Ht & _ & Es1 & Etr & Ea & Es & Eout).
  inversion Eo1; subst o1.
  apply guard_duplicate; trivial.
  exists t1. split.
  - rewrite Etr. apply in_or_app. right. left. reflexivity.
  - unfold matches. rewrite Es, Es1.
    split; [exact Ea | split; [exact Hnear | exact Eout]].
Qed.

(** After the WIN of the position opened at 100 on btc and a LOSS on
    eth, the WIN close of the position opened at 100.3 on btc is
    dropped: the stored btc record is not the newest one. *)
Lemma second_close_within_half_unit_is_dropped_witness :
  let st := Scenario.after_btc_then_eth in
  map Trade.asset (trades st) = [btc; eth]
  /\ recordTradeOutcome st btc Scenario.second (Some WIN) 1.25 3
     = (st, Scenario.second, DuplicateDetected)
  /\ trades (close st btc Scenario.second WIN 1.25 3) = trades st
  /\ lookup (activeTrades (close st btc Scenario.second WIN 1.25 3)) btc = None.
Proof.
  intro st. split; [reflexivity|].
  destruct (second_close_within_half_unit_is_dropped
              st btc (hd (Trade.mk eth Scenario.second None 0 0 None None None None None None)
                         (trades st))
              Scenario.second WIN 1.25 3)
    as (H1 & _ & H2 & _ & H3).
  - left. reflexivity.
  - left. reflexivity.
  - reflexivity.
  - reflexivity.
  - unfold Qlt. vm_compute. reflexivity.
  - reflexivity.
  - split; [exact H1 | split; [exact H2 | exact H3]].
Defined.

(** C4, evaluated.  In the engine a second call for the WIN close of the
    end-to-end run is stopped by the [recorded] flag and leaves one
    record.  The recorder of the exit engine has none of the three
    checks: called twice with that close it appends two records for the
    same asset, entry price and outcome and counts two winners; and on
    the blob the engine posts while it records that close, the exit
    check at the same price records the close a second time although
    the setup is flagged [recorded] and its record is in the list. *)
Theorem same_close_twice :
  (let '(st1, setup1, _) :=
     recordTradeOutcome initial btc Scenario.armed (Some WIN) 1.25 1 in
   let '(st2, _, log2) := recordTradeOutcome st1 btc setup1 (Some WIN) 1.25 2 in
   length (trades st1) = 1%nat /\ st2 = st1 /\ log2 = AlreadyRecorded)
  /\ (let d1 := ExitEngine.recordTradeOutcome Blob.empty btc Scenario.armed WIN 1.25 101.3 1 in
      let d2 := ExitEngine.recordTradeOutcome d1 btc Scenario.armed WIN 1.25 101.3 2 in
      length (Blob.trades d1) = 1%nat
      /\ length (Blob.trades d2) = 2%nat
      /\ map Trade.asset (Blob.trades d2) = [btc; btc]
      /\ map Trade.outcome (Blob.trades d2) = [Some WIN; Some WIN]
      /\ map (fun t => Setup.entryPrice (Trade.setup t)) (Blob.trades d2) = [100; 100]
      /\ Perf.winners (Blob.performance d1) = 1%Z
      /\ Perf.winners (Blob.performance d2) = 2%Z)
  /\ (let d := fst (ExitEngine.check_asset Scenario.saved_by_recorder btc 101.3 2) in
      snd (Scenario.recorded_win) = Recording
      /\ map Trade.outcome (Blob.trades Scenario.saved_by_recorder) = [Some WIN]
      /\ option_map (fun held => Setup.recorded (setup_of held))
                    (lookup (Blob.activeTrades Scenario.saved_by_recorder) btc)
         = Some true
      /\ map Trade.asset (Blob.trades d) = [btc; btc]
      /\ map Trade.outcome (Blob.trades d) = [Some WIN; Some WIN]
      /\ map (fun t => Setup.entryPrice (Trade.setup t)) (Blob.trades d) = [100; 100]
      /\ Perf.winners (Blob.performance d) = 2%Z).
Proof.
  split; [|split].
  - vm_compute. repeat split.
  - repeat split; vm_compute; reflexivity.
  - repeat split; vm_compute; reflexivity.
Qed.

End Idempotence.

(** ** Priority of target 2 over the breakeven stop *)

Module Priority.
Import Engine Pred.

Lemma positive_price_passes (p : Q) :
  0 < p -> negb (Js.truthy p) || (p <=? 0) = false.
Proof.
  intro H. unfold Js.truthy. rewrite negb_involutive.
  apply orb_false_iff. split.
  - apply not_true_iff_false. rewrite Qeq_bool_iff. intro E. rewrite E in H.
    exact (Qlt_irrefl 0 H).
  - apply not_true_iff_false. rewrite leb_true. apply Qlt_not_le. exact H.
Qed.

Lemma simultaneous_crosses_target2 (trade : Setup.t) (p : Q) :
  simultaneous trade p -> crossed_up (Setup.direction trade) p (Setup.t2 trade) = true.
Proof.
  unfold simultaneous, crossed_up, Js.geb.
  destruct (Setup.direction trade); intros [H1 H2]; apply leb_true; assumption.
Qed.

Lemma simultaneous_crosses_stop (trade : Setup.t) (p : Q) :
  simultaneous trade p -> crossed_down (Setup.direction trade) p (Setup.stop trade) = true.
Proof.
  unfold simultaneous, crossed_down, Js.geb.
  destruct (Setup.direction trade); intros [H1 H2]; apply leb_true; assumption.
Qed.

Lemma count_app_one (o : outcome) (ts : list Trade.t) (t : Trade.t) :
  Spec.count o (ts ++ [t])
  = (Spec.count o ts + (if outcome_is (Trade.outcome t) o then 1 else 0))%Z.
Proof.
  unfold Spec.count. rewrite filter_app, length_app. simpl.
  destruct (outcome_is (Trade.outcome t) o); simpl; lia.
Qed.

(** What a call of the engine's recorder can do to the list. *)
Lemma record_appends_at_most_one (st : state) (a : asset) (s : Setup.t)
      (o : outcome) (p : Q) (now : Z) :
  let st' := fst (fst (recordTradeOutcome st a s (Some o) p now)) in
  (st' = st)
  \/ (exists t, trades st' = trades st ++ [t]
                /\ Trade.outcome t = Some o
                /\ performance st' = update_performance (performance st) (trades st ++ [t]) o).
Proof.
  unfold recordTradeOutcome.
  destruct o; simpl; try (left; reflexivity);
    destruct (Setup.recorded s); simpl; try (left; reflexivity);
    match goal with
    | |- context [existsb ?f ?l] => destruct (existsb f l); simpl
    end; try (left; reflexivity);
    right; eexists; repeat split.
Qed.

Lemma win_close_keeps_breakeven (st : state) (a : asset) (s : Setup.t) (p : Q) (now : Z) :
  let st' := close st a s WIN p now in
  lookup (activeTrades st') a = None
  /\ Spec.count BREAKEVEN (trades st') = Spec.count BREAKEVEN (trades st)
  /\ Perf.breakevenTrades (performance st') = Perf.breakevenTrades (performance st)
  /\ (trades st' = trades st
      \/ exists t, trades st' = trades st ++ [t] /\ Trade.outcome t = Some WIN).
Proof.
  unfold close. simpl.
  split; [apply lookup_assign_same|].
  destruct (record_appends_at_most_one st a s WIN p now) as [E | (t & Et & Eo & Ep)].
  - simpl in E. rewrite E. repeat split. left. reflexivity.
  - simpl in Et, Ep. rewrite Et, Ep. repeat split.
    + rewrite count_app_one, Eo. simpl. lia.
    + right. exists t. split; trivial.
Qed.

Lemma count_replace (o : outcome) (pre post : list Trade.t) (x y : Trade.t) :
  outcome_is (Trade.outcome x) o = false ->
  outcome_is (Trade.outcome y) o = false ->
  Spec.count o (pre ++ y :: post) = Spec.count o (pre ++ x :: post).
Proof.
  intros Hx Hy. unfold Spec.count. rewrite !filter_app. simpl. rewrite Hx, Hy. reflexivity.
Qed.

Lemma exit_win_keeps_breakeven (data : Blob.t) (a : asset) (s : Setup.t)
      (p exitPrice : Q) (now : Z) :
  let data' :=
    ExitEngine.clearActiveTrade (ExitEngine.recordTradeOutcome data a s WIN p exitPrice now) a in
  lookup (Blob.activeTrades data') a = None
  /\ Spec.count BREAKEVEN (Blob.trades data') = Spec.count BREAKEVEN (Blob.trades data)
  /\ Perf.breakevenTrades (Blob.performance data')
     = Perf.breakevenTrades (Blob.performance data).
Proof.
  simpl. split; [apply lookup_assign_same|]. split; [|reflexivity].
  destruct (update_first _ _ (Blob.trades data)) as [updated|] eqn:E.
  - apply update_first_some in E. destruct E as (pre & x & post & -> & Hx & ->).
    apply count_replace; [|reflexivity].
    unfold ExitEngine.is_open_record in Hx. apply andb_true_iff in Hx.
    destruct Hx as [_ Hx]. destruct (Trade.outcome x); [discriminate | reflexivity].
  - rewrite count_app_one. simpl. lia.
Qed.

(** C3.  An active position with reachedTarget1 and without
    reachedTarget2 whose tick price has crossed target 2 and the
    breakeven stop at once is closed by the target-2 rule, in the engine
    and in the exit engine alike: the log line is the WIN one, the
    recorder is called with WIN, the slot is cleared, and neither the
    number of BREAKEVEN records nor the breakevenTrades counter moves. *)
Theorem target2_wins_over_breakeven_stop :
  (forall (st : state) (a : asset) (trade : Setup.t) (now : Z),
      lookup (activeTrades st) a = Some trade ->
      Setup.reachedTarget1 trade = true ->
      Setup.reachedTarget2 trade = false ->
      0 < lookup (currentPrices st) a ->
      simultaneous trade (lookup (currentPrices st) a) ->
      let profit := Qabs (Setup.t2 trade - entryAvg trade) in
      let st' := fst (updateTradeStatus st a now) in
      updateTradeStatus st a now = (close st a trade WIN profit now, Target2HitWin profit)
      /\ lookup (activeTrades st') a = None
      /\ Spec.count BREAKEVEN (trades st') = Spec.count BREAKEVEN (trades st)
      /\ Perf.breakevenTrades (performance st') = Perf.breakevenTrades (performance st)
      /\ (trades st' = trades st
          \/ exists t, trades st' = trades st ++ [t] /\ Trade.outcome t = Some WIN))
  /\ (forall (data : Blob.t) (a : asset) (held : position) (currentPrice : Q) (now : Z),
         lookup (Blob.activeTrades data) a = Some held ->
         Setup.reachedTarget1 (setup_of held) = true ->
         Setup.reachedTarget2 (setup_of held) = false ->
         ~ Setup.entryPrice (setup_of held) == 0 ->
         0 < currentPrice ->
         simultaneous (setup_of held) currentPrice ->
         let setup := setup_of held in
         let profit :=
           Qabs (Setup.t2 setup - (min (Setup.entry setup) + max (Setup.entry setup)) / 2) in
         let data' := fst (ExitEngine.check_asset data a currentPrice now) in
         ExitEngine.check_asset data a currentPrice now
         = (ExitEngine.clearActiveTrade
              (ExitEngine.recordTradeOutcome data a setup WIN profit currentPrice now) a,
            ExitEngine.Target2HitWin profit)
         /\ lookup (Blob.activeTrades data') a = None
         /\ Spec.count BREAKEVEN (Blob.trades data') = Spec.count BREAKEVEN (Blob.trades data)
         /\ Perf.breakevenTrades (Blob.performance data')
            = Perf.breakevenTrades (Blob.performance data)).
Proof.
  split.
  - intros st a trade now Hl H1 H2 Hp Hs profit st'.
    assert (E : updateTradeStatus st a now
                = (close st a trade WIN profit now, Target2HitWin profit)).
    { unfold updateTradeStatus. rewrite Hl, (positive_price_passes _ Hp), H1, H2.
      rewrite (simultaneous_crosses_target2 _ _ Hs). reflexivity. }
    split; [exact E|]. subst st'. rewrite E.
    apply win_close_keeps_breakeven.
  - intros data a held p now Hl H1 H2 Hentry Hp Hs setup profit data'.
    assert (E : ExitEngine.check_asset data a p now
                = (ExitEngine.clearActiveTrade
                     (ExitEngine.recordTradeOutcome data a setup WIN profit p now) a,
                   ExitEngine.Target2HitWin profit)).
    { unfold ExitEngine.check_asset. rewrite Hl. fold setup.
      assert (Ht : negb (Js.truthy (Setup.entryPrice setup)) = false).
      { unfold Js.truthy. rewrite negb_involutive. apply not_true_iff_false.
        rewrite Qeq_bool_iff. exact Hentry. }
      rewrite Ht, (positive_price_passes _ Hp). unfold setup in *. rewrite H1, H2.
      pose proof (simultaneous_crosses_target2 _ _ Hs) as Hup.
      unfold crossed_up in Hup. unfold ExitEngine.hit_up. rewrite Hup. reflexivity. }
    split; [exact E|]. subst data'. rewrite E.
    apply exit_win_keeps_breakeven.
Qed.

Lemma target2_wins_over_breakeven_stop_witness :
  (exists profit,
      snd (updateTradeStatus Scenario.coincident_state btc 5) = Target2HitWin profit)
  /\ map Trade.outcome (trades (fst (updateTradeStatus Scenario.coincident_state btc 5)))
     = [Some WIN]
  /\ (exists profit,
         snd (ExitEngine.check_asset Scenario.coincident_blob btc 100 5)
         = ExitEngine.Target2HitWin profit)
  /\ map Trade.outcome
         (Blob.trades (fst (ExitEngine.check_asset Scenario.coincident_blob btc 100 5)))
     = [Some WIN].
Proof.
  assert (Hs : simultaneous Scenario.coincident 100)
    by (split; apply Qle_refl).
  assert (Hne : ~ Setup.entryPrice (setup_of (Wrapped Scenario.coincident)) == 0)
    by (intro E; discriminate E).
  assert (Hengine :=
            proj1 target2_wins_over_breakeven_stop
                  Scenario.coincident_state btc Scenario.coincident 5%Z
                  eq_refl eq_refl eq_refl eq_refl Hs).
  assert (Hexit :=
            proj2 target2_wins_over_breakeven_stop
                  Scenario.coincident_blob btc (Wrapped Scenario.coincident) 100 5%Z
                  eq_refl eq_refl eq_refl
                  Hne eq_refl Hs).
  simpl in Hengine, Hexit.
  destruct Hengine as [E1 _]. destruct Hexit as [E2 _].
  rewrite E1, E2.
  repeat split; try (eexists; reflexivity); vm_compute; reflexivity.
Defined.

End Priority.

(** ** Momentum, confidence and admission *)

Module Signal.
Import Engine Pred.

Lemma slice_last_app {A : Type} (n : nat) (pre suffix : list A) :
  length suffix = n -> Js.slice_last n (pre ++ suffix) = suffix.
Proof.
  intro H. unfold Js.slice_last. rewrite length_app, H.
  replace (length pre + n - n)%nat with (length pre) by lia.
  rewrite skipn_app, skipn_all, Nat.sub_diag. reflexivity.
Qed.

Lemma momentum_short_history (st : state) (a : asset) (random : Q) :
  (length (lookup (priceHistory st) a) < 3)%nat ->
  calculateMomentum st a random = if random >? 0.5 then 1 else -1.
Proof.
  intro H. unfold calculateMomentum.
  apply Nat.ltb_lt in H. rewrite H. reflexivity.
Qed.

Lemma momentum_of_last_three (st : state) (a : asset) (random : Q)
      (pre : list sample) (x y z : sample) :
  lookup (priceHistory st) a = pre ++ [x; y; z] ->
  calculateMomentum st a random
  == Qmax (-2) (Qmin 2 ((change x + change y + change z) / 3 / 2)).
Proof.
  intro H. unfold calculateMomentum. rewrite H.
  assert (L : (length (pre ++ [x; y; z]) <? 3)%nat = false).
  { apply Nat.ltb_ge. rewrite length_app. simpl. lia. }
  rewrite L, slice_last_app by reflexivity.
  unfold Js.sum_by, Js.len. simpl.
  apply Q.max_compat; [reflexivity|]. apply Q.min_compat; [reflexivity|].
  rewrite !or_else_zero. field.
Qed.

Lemma clamp_bounds (x : Q) : -2 <= Qmax (-2) (Qmin 2 x) <= 2.
Proof.
  split; [apply Q.le_max_l|].
  apply Q.max_lub; [lra | apply Q.le_min_l].
Qed.

Lemma floor_of_draw (random : Q) :
  0 <= random -> random < 1 -> (0 <= Qfloor (random * 8) <= 7)%Z.
Proof.
  intros H0 H1. split.
  - change 0%Z with (Qfloor 0). apply Qfloor_resp_le. lra.
  - assert (H : inject_Z (Qfloor (random * 8)) < inject_Z 8).
    { apply Qle_lt_trans with (random * 8); [apply Qfloor_le|].
      change (inject_Z 8) with 8. lra. }
    rewrite <- Zlt_Qlt in H. lia.
Qed.

(** The regime and volatility terms only add to the base value. *)
Lemma confidence_at_least_base (st : state) (momentum random : Q) :
  (8 + Qfloor (random * 8) <= confidence_of st momentum random)%Z.
Proof.
  unfold confidence_of.
  repeat match goal with
         | |- context [if ?c then _ else _] => destruct c
         end; lia.
Qed.

Lemma preset_minimum_at_most_8 (m : mode) : (minConfidence (RISK_CONFIGS m) <= 8)%Z.
Proof. destruct m; simpl; lia. Qed.

Lemma scan_opens (st : state) (a : asset) (currentPrice : Q) (i : scanInputs) :
  lookup (activeTrades st) a = None ->
  (60000 <= now_scan i - lookup (lastSignalTime st) a)%Z ->
  0 <= random_confidence i ->
  scanForSignals st a currentPrice i = opening st a currentPrice i.
Proof.
  intros Hnone Hcool Hr. unfold scanForSignals, opening.
  assert (E1 : (now_scan i - lookup (lastSignalTime st) a <? 60000)%Z = false)
    by (apply Z.ltb_ge; exact Hcool).
  rewrite E1, Hnone.
  assert (E2 : (confidence_of st (calculateMomentum st a (random_momentum i))
                              (random_confidence i)
                >=? minConfidence (RISK_CONFIGS (riskMode st)))%Z = true).
  { apply Z.geb_le.
    pose proof (confidence_at_least_base
                  st (calculateMomentum st a (random_momentum i)) (random_confidence i)).
    pose proof (preset_minimum_at_most_8 (riskMode st)).
    assert (0 <= Qfloor (random_confidence i * 8))%Z
      by (change 0%Z with (Qfloor 0); apply Qfloor_resp_le; lra).
    lia. }
  rewrite E2. reflexivity.
Qed.

Lemma opening_slot (st : state) (a : asset) (currentPrice : Q) (i : scanInputs) :
  exists setup,
    lookup (activeTrades (opening st a currentPrice i)) a = Some setup
    /\ Setup.entryPrice setup = currentPrice
    /\ Setup.direction setup = direction_of (calculateMomentum st a (random_momentum i))
    /\ Setup.confidence setup
       = confidence_of st (calculateMomentum st a (random_momentum i)) (random_confidence i)
    /\ Setup.marketCondition setup = marketCondition st
    /\ Setup.volatilityLevel setup = volatilityLevel st.
Proof.
  unfold opening, generateAISetup. simpl. rewrite lookup_assign_same.
  eexists. repeat split.
Qed.

(** C8.  Under the conservative preset a scan for an asset with no
    active position and at least 60 seconds since its last signal always
    opens a position: for every draw in [0,1) the base confidence
    8 + floor(random * 8) lies in 8..15, the regime and volatility terms
    only add to it, and 8 is the preset's minConfidence.  So any two
    such scans agree on the decision, whatever their draws, regime,
    volatility, history or price. *)
Theorem conservative_scan_always_admits
        (st : state) (a : asset) (currentPrice : Q) (i : scanInputs) :
  riskMode st = conservative ->
  lookup (activeTrades st) a = None ->
  (60000 <= now_scan i - lookup (lastSignalTime st) a)%Z ->
  0 <= random_confidence i -> random_confidence i < 1 ->
  (8 <= 8 + Qfloor (random_confidence i * 8) <= 15)%Z
  /\ (minConfidence (RISK_CONFIGS (riskMode st))
      <= confidence_of st (calculateMomentum st a (random_momentum i))
                       (random_confidence i))%Z
  /\ scanForSignals st a currentPrice i = opening st a currentPrice i
  /\ admitted st a currentPrice i = true
  /\ lookup (lastSignalTime (scanForSignals st a currentPrice i)) a = now_signal i
  /\ (forall (st' : state) (a' : asset) (currentPrice' : Q) (i' : scanInputs),
         riskMode st' = conservative ->
         lookup (activeTrades st') a' = None ->
         (60000 <= now_scan i' - lookup (lastSignalTime st') a')%Z ->
         0 <= random_confidence i' -> random_confidence i' < 1 ->
         admitted st' a' currentPrice' i' = admitted st a currentPrice i).
Proof.
  intros Hmode Hnone Hcool H0 H1.
  pose proof (floor_of_draw _ H0 H1) as Hfloor.
  assert (Hadm : forall st' a' p' i',
             lookup (activeTrades st') a' = None ->
             (60000 <= now_scan i' - lookup (lastSignalTime st') a')%Z ->
             0 <= random_confidence i' ->
             admitted st' a' p' i' = true).
  { intros st' a' p' i' Hn Hc Hr. unfold admitted.
    rewrite (scan_opens st' a' p' i' Hn Hc Hr).
    destruct (opening_slot st' a' p' i') as (setup & -> & _). reflexivity. }
  split; [lia|]. split.
  - rewrite Hmode. simpl.
    pose proof (confidence_at_least_base
                  st (calculateMomentum st a (random_momentum i)) (random_confidence i)).
    lia.
  - split; [apply scan_opens; assumption|].
    split; [apply Hadm; assumption|]. split.
    + rewrite scan_opens by assumption. unfold opening. simpl.
      apply lookup_assign_same.
    + intros st' a' p' i' _ Hn Hc Hr _.
      rewrite (Hadm st a currentPrice i), (Hadm st' a' p' i'); trivial.
Qed.

Lemma conservative_scan_always_admits_witness :
  admitted Scenario.one_sample btc 100 (Scenario.first_scan 0.9) = true
  /\ admitted Scenario.three_ones btc 100 (Scenario.first_scan 0.1) = true.
Proof.
  split.
  - refine (proj1 (proj2 (proj2 (proj2
              (conservative_scan_always_admits
                 Scenario.one_sample btc 100 (Scenario.first_scan 0.9)
                 eq_refl eq_refl _ _ _))))).
    + vm_compute. discriminate.
    + vm_compute. discriminate.
    + reflexivity.
  - refine (proj1 (proj2 (proj2 (proj2
              (conservative_scan_always_admits
                 Scenario.three_ones btc 100 (Scenario.first_scan 0.1)
                 eq_refl eq_refl _ _ _))))).
    + vm_compute. discriminate.
    + vm_compute. discriminate.
    + reflexivity.
Defined.

(** C2 fails on the code: with a single sample in the history the scan
    opens a position, BULLISH or BEARISH by the draw alone. *)
Lemma short_history_is_admitted :
  length (lookup (priceHistory Scenario.one_sample) btc) = 1%nat
  /\ calculateMomentum Scenario.one_sample btc 0.9 = 1
  /\ calculateMomentum Scenario.one_sample btc 0.1 = -1
  /\ admitted Scenario.one_sample btc 100 (Scenario.first_scan 0.9) = true
  /\ option_map Setup.direction
        (lookup (activeTrades (scanForSignals Scenario.one_sample btc 100
                                              (Scenario.first_scan 0.9))) btc)
     = Some BULLISH
  /\ option_map Setup.direction
        (lookup (activeTrades (scanForSignals Scenario.one_sample btc 100
                                              (Scenario.first_scan 0.1))) btc)
     = Some BEARISH.
Proof. repeat split; vm_compute; reflexivity. Qed.

(** C2, amended.  With fewer than 3 samples calculateMomentum is 1 when
    the draw exceeds 0.5 and -1 otherwise, whatever the samples are; the
    asset stays eligible, and a scan with no active position and an
    elapsed cooldown opens a position at the current price whose
    direction is BULLISH for a draw above 0.5 and BEARISH otherwise. *)
Theorem short_history_direction_is_drawn
        (st : state) (a : asset) (currentPrice : Q) (i : scanInputs) :
  (length (lookup (priceHistory st) a) < 3)%nat ->
  lookup (activeTrades st) a = None ->
  (60000 <= now_scan i - lookup (lastSignalTime st) a)%Z ->
  0 <= random_confidence i ->
  calculateMomentum st a (random_momentum i)
  = (if random_momentum i >? 0.5 then 1 else -1)
  /\ exists setup,
       lookup (activeTrades (scanForSignals st a currentPrice i)) a = Some setup
       /\ Setup.entryPrice setup = currentPrice
       /\ Setup.direction setup
          = (if random_momentum i >? 0.5 then BULLISH else BEARISH).
Proof.
  intros Hshort Hnone Hcool Hr.
  pose proof (momentum_short_history st a (random_momentum i) Hshort) as Hm.
  split; [exact Hm|].
  rewrite scan_opens by assumption.
  destruct (opening_slot st a currentPrice i) as (setup & Hs & Hp & Hd & _).
  exists setup. repeat split; trivial.
  rewrite Hd, Hm. destruct (random_momentum i >? 0.5); reflexivity.
Qed.

Lemma short_history_direction_is_drawn_witness :
  calculateMomentum Scenario.one_sample btc 0.9 = 1
  /\ exists setup,
       lookup (activeTrades (scanForSignals Scenario.one_sample btc 100
                                            (Scenario.first_scan 0.9))) btc
       = Some setup
       /\ Setup.entryPrice setup = 100
       /\ Setup.direction setup = BULLISH.
Proof.
  apply (short_history_direction_is_drawn
           Scenario.one_sample btc 100 (Scenario.first_scan 0.9)).
  - simpl. lia.
  - reflexivity.
  - vm_compute. discriminate.
  - vm_compute. discriminate.
Defined.

(** C6 fails on the code: three samples with pctChange 1 have mean 1,
    within [-2, 2], and the momentum the scan uses is 1/2. *)
Lemma momentum_is_not_the_clamped_mean :
  map change (lookup (priceHistory Scenario.three_ones) btc) = [1; 1; 1]
  /\ Spec.momentum [1; 1; 1] == 1
  /\ calculateMomentum Scenario.three_ones btc 0 == 0.5
  /\ ~ calculateMomentum Scenario.three_ones btc 0 == Spec.momentum [1; 1; 1].
Proof.
  repeat split; try (vm_compute; reflexivity).
  vm_compute. discriminate.
Qed.

(** C6, amended.  For an asset whose history ends with the samples
    x, y, z the momentum is half the arithmetic mean of their three
    pctChange values, clamped to [-2, 2]. *)
Theorem momentum_is_clamped_half_mean
        (st : state) (a : asset) (random : Q) (pre : list sample) (x y z : sample) :
  lookup (priceHistory st) a = pre ++ [x; y; z] ->
  calculateMomentum st a random
  == Qmax (-2) (Qmin 2 ((change x + change y + change z) / 3 / 2))
  /\ -2 <= calculateMomentum st a random <= 2.
Proof.
  intro H. pose proof (momentum_of_last_three st a random pre x y z H) as E.
  split; [exact E|]. rewrite E. apply clamp_bounds.
Qed.

Lemma momentum_is_clamped_half_mean_witness :
  calculateMomentum Scenario.three_ones btc 0
  == Qmax (-2) (Qmin 2 ((1 + 1 + 1) / 3 / 2))
  /\ -2 <= calculateMomentum Scenario.three_ones btc 0 <= 2.
Proof.
  apply (momentum_is_clamped_half_mean
           Scenario.three_ones btc 0 []
           (mkSample 100 1 1) (mkSample 100 1 2) (mkSample 100 1 3)).
  reflexivity.
Defined.

End Signal.

(** ** One regime for both assets *)

Module Regime.
Import Engine.

Lemma detect_asset_classifies (st : state) (a : asset) :
  (5 <= length (lookup (priceHistory st) a))%nat ->
  detect_asset st a
  = with_regime st
      (classify_trend (Js.slice_last 5 (lookup (priceHistory st) a))
                      (lookup (currentPrices st) a))
      (classify_volatility (Js.slice_last 5 (lookup (priceHistory st) a))).
Proof.
  intro H. unfold detect_asset. apply Nat.leb_le in H. rewrite H. reflexivity.
Qed.

(** The callback writes nothing but the two regime variables. *)
Lemma detect_asset_keeps_prices (st : state) (a : asset) :
  priceHistory (detect_asset st a) = priceHistory st
  /\ currentPrices (detect_asset st a) = currentPrices st.
Proof.
  unfold detect_asset.
  destruct (5 <=? length (lookup (priceHistory st) a))%nat; split; reflexivity.
Qed.

(** C9.  When btc and eth both have at least 5 samples, btc's
    classification is stored first and overwritten by eth's in the same
    pass: after detectMarketCondition the stored marketCondition and
    volatilityLevel are the classification of eth's last 5 samples
    against eth's price, and a position opened on btc after it carries
    that regime as its snapshot. *)
Theorem regime_is_eths_classification (st : state) :
  (5 <= length (lookup (priceHistory st) btc))%nat ->
  (5 <= length (lookup (priceHistory st) eth))%nat ->
  let recent_btc := Js.slice_last 5 (lookup (priceHistory st) btc) in
  let recent_eth := Js.slice_last 5 (lookup (priceHistory st) eth) in
  let st' := detectMarketCondition st in
  marketCondition (detect_asset st btc)
  = classify_trend recent_btc (lookup (currentPrices st) btc)
  /\ volatilityLevel (detect_asset st btc) = classify_volatility recent_btc
  /\ marketCondition st' = classify_trend recent_eth (lookup (currentPrices st) eth)
  /\ volatilityLevel st' = classify_volatility recent_eth
  /\ forall (price : Q) (confidence : Z) (momentum : Q) (now hour : Z),
       exists setup,
         lookup (activeTrades (generateAISetup st' btc price confidence momentum now hour)) btc
         = Some setup
         /\ Setup.marketCondition setup
            = classify_trend recent_eth (lookup (currentPrices st) eth)
         /\ Setup.volatilityLevel setup = classify_volatility recent_eth.
Proof.
  intros Hb He recent_btc recent_eth st'.
  assert (E : st' = with_regime (detect_asset st btc)
                      (classify_trend recent_eth (lookup (currentPrices st) eth))
                      (classify_volatility recent_eth)).
  { unfold st', detectMarketCondition. simpl.
    destruct (detect_asset_keeps_prices st btc) as [Hh Hp].
    rewrite detect_asset_classifies by (rewrite Hh; exact He).
    rewrite Hh, Hp. reflexivity. }
  rewrite (detect_asset_classifies st btc Hb). simpl.
  split; [reflexivity|]. split; [reflexivity|].
  rewrite E. simpl. split; [reflexivity|]. split; [reflexivity|].
  intros price confidence momentum now hour.
  eexists. unfold generateAISetup. simpl. repeat split.
Qed.

Lemma regime_is_eths_classification_witness :
  classify_trend (Js.slice_last 5 (lookup (priceHistory Scenario.two_markets) btc))
                 (lookup (currentPrices Scenario.two_markets) btc) = TRENDING_UP
  /\ classify_volatility (Js.slice_last 5 (lookup (priceHistory Scenario.two_markets) btc))
     = EXTREME
  /\ marketCondition (detectMarketCondition Scenario.two_markets) = RANGING
  /\ volatilityLevel (detectMarketCondition Scenario.two_markets) = LOW
  /\ exists setup,
       lookup (activeTrades
                 (generateAISetup (detectMarketCondition Scenario.two_markets)
                                  btc 104 8 1 2 12)) btc = Some setup
       /\ Setup.marketCondition setup = RANGING
       /\ Setup.volatilityLevel setup = LOW.
Proof.
  assert (Hb : (5 <= length (lookup (priceHistory Scenario.two_markets) btc))%nat)
    by (vm_compute; lia).
  assert (He : (5 <= length (lookup (priceHistory Scenario.two_markets) eth))%nat)
    by (vm_compute; lia).
  destruct (regime_is_eths_classification Scenario.two_markets Hb He)
    as (_ & _ & Hc & Hv & Hopen).
  split; [vm_compute; reflexivity|]. split; [vm_compute; reflexivity|].
  split; [rewrite Hc; vm_compute; reflexivity|].
  split; [rewrite Hv; vm_compute; reflexivity|].
  destruct (Hopen 104 8%Z 1 2%Z 12%Z) as (setup & Hs & Hsc & Hsv).
  exists setup. split; [exact Hs|].
  split; [rewrite Hsc | rewrite Hsv]; vm_compute; reflexivity.
Defined.

End Regime.

(** ** Performance aggregates against a full replay *)

Module Aggregates.
Import Engine Pred.

(** The engine's recorder never assigns [totalProfit] or [breakevenRate]. *)
Lemma engine_never_writes_two_fields (st : state) (a : asset) (setup : Setup.t)
      (o : option outcome) (profit : Q) (now : Z) :
  let st' := fst (fst (recordTradeOutcome st a setup o profit now)) in
  Perf.totalProfit (performance st') = Perf.totalProfit (performance st)
  /\ Perf.breakevenRate (performance st') = Perf.breakevenRate (performance st).
Proof.
  unfold recordTradeOutcome.
  destruct o as [[| | | |]|]; simpl; try (split; reflexivity);
    destruct (Setup.recorded setup); simpl; try (split; reflexivity);
    match goal with
    | |- context [existsb ?f ?l] => destruct (existsb f l); simpl
    end; split; reflexivity.
Qed.

(** C5, evaluated on the engine from its initial state.  The position
    opened at 100 is stopped out at 99.4: the LOSS is recorded with
    profit -10 and the call succeeds, yet totalProfit is still 0 where
    the sum of recorded profit is -10.  The same position stopped at
    breakeven after target 1 is recorded as the only trade, counted in
    breakevenTrades, and breakevenRate is still 0 where
    breakevenTrades / totalTrades * 100 is 100.  The recorder of the
    exit engine assigns both fields on the same closes. *)
Theorem engine_aggregates_differ_from_replay :
  ((exists loss, snd Scenario.at_99_4 = StopLossHit loss /\ loss == 0.6)
   /\ map Trade.outcome (trades (fst Scenario.at_99_4)) = [Some LOSS]
   /\ map Trade.profit (trades (fst Scenario.at_99_4)) = [-10]
   /\ Perf.totalTrades (performance (fst Scenario.at_99_4)) = 1%Z
   /\ Perf.losers (performance (fst Scenario.at_99_4)) = 1%Z
   /\ Perf.totalProfit (performance (fst Scenario.at_99_4)) = 0
   /\ Spec.sum_profit (trades (fst Scenario.at_99_4)) == -10
   /\ ~ Spec.perf_equiv (performance (fst Scenario.at_99_4))
                        (Spec.recompute Infinity (trades (fst Scenario.at_99_4))))
  /\ (snd Scenario.back_at_100 = BreakevenStopHit
      /\ map Trade.outcome (trades (fst Scenario.back_at_100)) = [Some BREAKEVEN]
      /\ Perf.totalTrades (performance (fst Scenario.back_at_100)) = 1%Z
      /\ Perf.breakevenTrades (performance (fst Scenario.back_at_100)) = 1%Z
      /\ Perf.breakevenRate (performance (fst Scenario.back_at_100)) = 0
      /\ Perf.breakevenRate (Spec.recompute Infinity (trades (fst Scenario.back_at_100)))
         == 100
      /\ ~ Spec.perf_equiv (performance (fst Scenario.back_at_100))
                           (Spec.recompute Infinity (trades (fst Scenario.back_at_100))))
  /\ (let d := ExitEngine.recordTradeOutcome Blob.empty btc Scenario.opened_setup
                                             LOSS 0.6 99.4 1 in
      Perf.totalProfit (Blob.performance d) == -10)
  /\ (let d := ExitEngine.recordTradeOutcome Blob.empty btc Scenario.armed
                                             BREAKEVEN 0 100 1 in
      Perf.breakevenRate (Blob.performance d) == 100).
Proof.
  split; [|split; [|split]].
  - split; [eexists; split; vm_compute; reflexivity|].
    repeat split; try (vm_compute; reflexivity).
    intros (_ & _ & _ & _ & H & _). vm_compute in H. discriminate H.
  - repeat split; try (vm_compute; reflexivity).
    intros (_ & _ & _ & _ & _ & _ & _ & _ & _ & H). vm_compute in H. discriminate H.
  - vm_compute. reflexivity.
  - vm_compute. reflexivity.
Qed.

(** *** The recorder of the exit engine against the replay *)

Lemma sum_by_acc {A : Type} (f g : A -> Q) (l : list A) (x y : Q) :
  (forall t, f t == g t) -> x == y ->
  fold_left (fun sum t => sum + f t) l x == fold_left (fun sum t => sum + g t) l y.
Proof.
  intro Hfg. revert x y. induction l as [|t rest IH]; simpl; intros x y Hxy.
  - exact Hxy.
  - apply IH. rewrite Hxy, (Hfg t). reflexivity.
Qed.

Lemma sum_by_ext {A : Type} (f g : A -> Q) (l : list A) :
  (forall t, f t == g t) -> Js.sum_by f l == Js.sum_by g l.
Proof. intro H. apply sum_by_acc; [exact H | reflexivity]. Qed.

Lemma factor_equiv_refl (f : factor) : Spec.factor_equiv f f.
Proof. destruct f; simpl; [reflexivity | exact I]. Qed.

Lemma outcome_eqb_other (o o' : outcome) : o' <> o -> outcome_eqb o o' = false.
Proof.
  intro H. apply not_true_iff_false. rewrite outcome_eqb_eq. congruence.
Qed.

(** What one call does to the list, seen through the filters: the
    records of every other outcome are the same, in the same order, and
    there is one more record of the outcome recorded. *)
Lemma exit_record_filters (data : Blob.t) (a : asset) (setup : Setup.t)
      (o : outcome) (p e : Q) (now : Z) :
  let all := Blob.trades (ExitEngine.recordTradeOutcome data a setup o p e now) in
  (forall o', o' <> o ->
              filter (fun t => outcome_is (Trade.outcome t) o') all
              = filter (fun t => outcome_is (Trade.outcome t) o') (Blob.trades data))
  /\ Spec.count o all = (Spec.count o (Blob.trades data) + 1)%Z.
Proof.
  simpl. destruct (update_first _ _ (Blob.trades data)) as [updated|] eqn:E.
  - apply update_first_some in E. destruct E as (pre & x & post & -> & Hx & ->).
    assert (Hnone : Trade.outcome x = None).
    { unfold ExitEngine.is_open_record in Hx. apply andb_true_iff in Hx.
      destruct Hx as [_ Hx]. destruct (Trade.outcome x); [discriminate | reflexivity]. }
    split.
    + intros o' Ho'. rewrite !filter_app. simpl.
      rewrite Hnone, (outcome_eqb_other o o' Ho'). reflexivity.
    + unfold Spec.count. rewrite !filter_app, !length_app. simpl.
      rewrite Hnone, outcome_eqb_refl. simpl. lia.
  - split.
    + intros o' Ho'. rewrite filter_app. simpl.
      rewrite (outcome_eqb_other o o' Ho'). apply app_nil_r.
    + rewrite Priority.count_app_one. simpl. rewrite outcome_eqb_refl. reflexivity.
Qed.

Lemma same_filter_same_mean (o : outcome) (l l' : list Trade.t) :
  filter (fun t => outcome_is (Trade.outcome t) o) l'
  = filter (fun t => outcome_is (Trade.outcome t) o) l ->
  Spec.count o l' = Spec.count o l
  /\ Spec.mean_abs_profit o l' = Spec.mean_abs_profit o l.
Proof.
  intro H. unfold Spec.mean_abs_profit, Spec.count, total_abs_profit.
  rewrite H. split; reflexivity.
Qed.

(** From counters and averages that agree with the list, one call of
    the exit engine's recorder with a terminal outcome leaves every
    field of the aggregate equal to its value recomputed from the list,
    999 standing for the infinite profit factor. *)
Theorem exit_engine_aggregates_match_replay
        (data : Blob.t) (a : asset) (setup : Setup.t) (o : outcome) (p e : Q) (now : Z) :
  terminal (Some o) ->
  consistent (Blob.performance data) (Blob.trades data) ->
  let data' := ExitEngine.recordTradeOutcome data a setup o p e now in
  Spec.perf_equiv (Blob.performance data') (Spec.recompute (Finite 999) (Blob.trades data')).
Proof.
  intros Ht (Hw & Hl & Hb & Haw & Hal) data'.
  destruct (exit_record_filters data a setup o p e now) as [Hother Hone].
  fold data' in Hother, Hone.
  assert (Hsum : Js.sum_by (fun t => Js.or_else (Trade.profit t) 0) (Blob.trades data')
                 == Spec.sum_profit (Blob.trades data'))
    by (apply sum_by_ext; intro t; apply or_else_zero).
  unfold Spec.perf_equiv, Spec.recompute.
  change (Blob.performance data')
    with (ExitEngine.update_performance (Blob.performance data) (Blob.trades data') o).
  unfold ExitEngine.update_performance.
  destruct Ht as [E | [E | E]]; inversion E; subst o; simpl;
    [ destruct (same_filter_same_mean LOSS _ _ (Hother LOSS ltac:(discriminate)))
        as [C1 M1];
      destruct (same_filter_same_mean BREAKEVEN _ _ (Hother BREAKEVEN ltac:(discriminate)))
        as [C2 M2]
    | destruct (same_filter_same_mean WIN _ _ (Hother WIN ltac:(discriminate)))
        as [C1 M1];
      destruct (same_filter_same_mean BREAKEVEN _ _ (Hother BREAKEVEN ltac:(discriminate)))
        as [C2 M2]
    | destruct (same_filter_same_mean WIN _ _ (Hother WIN ltac:(discriminate)))
        as [C1 M1];
      destruct (same_filter_same_mean LOSS _ _ (Hother LOSS ltac:(discriminate)))
        as [C2 M2] ];
    rewrite ?Hw, ?Hl, ?Hb, ?Haw, ?Hal, <- ?Hone, <- ?C1, <- ?C2, <- ?M1, <- ?M2;
    repeat split; trivial; try reflexivity; try apply factor_equiv_refl.
Qed.

(** The agreement is kept from one call to the next. *)
Lemma replayed_is_consistent (sentinel : factor) (p : Perf.t) (ts : list Trade.t) :
  Spec.perf_equiv p (Spec.recompute sentinel ts) -> consistent p ts.
Proof.
  intros (_ & Hw & Hl & Hb & _ & _ & _ & Haw & Hal & _).
  repeat split; assumption.
Qed.

Lemma exit_engine_keeps_consistent
      (data : Blob.t) (a : asset) (setup : Setup.t) (o : outcome) (p e : Q) (now : Z) :
  terminal (Some o) ->
  consistent (Blob.performance data) (Blob.trades data) ->
  let data' := ExitEngine.recordTradeOutcome data a setup o p e now in
  consistent (Blob.performance data') (Blob.trades data').
Proof.
  intros Ht Hc data'. apply (replayed_is_consistent (Finite 999)).
  apply exit_engine_aggregates_match_replay; assumption.
Qed.

Lemma exit_engine_aggregates_match_replay_example :
  Spec.perf_equiv
    (Blob.performance
       (ExitEngine.recordTradeOutcome Blob.empty btc Scenario.armed WIN 1.25 101.3 1))
    (Spec.recompute (Finite 999)
       (Blob.trades
          (ExitEngine.recordTradeOutcome Blob.empty btc Scenario.armed WIN 1.25 101.3 1))).
Proof.
  apply exit_engine_aggregates_match_replay.
  - left. reflexivity.
  - repeat split; reflexivity.
Qed.

(** *** The recorder of the engine against the replay *)

Lemma append_filters (ts : list Trade.t) (t : Trade.t) (o : outcome) :
  Trade.outcome t = Some o ->
  (forall o', o' <> o ->
              filter (fun t => outcome_is (Trade.outcome t) o') (ts ++ [t])
              = filter (fun t => outcome_is (Trade.outcome t) o') ts)
  /\ Spec.count o (ts ++ [t]) = (Spec.count o ts + 1)%Z.
Proof.
  intro Ho. split.
  - intros o' Ho'. rewrite filter_app. simpl.
    rewrite Ho. simpl. rewrite (outcome_eqb_other o o' Ho'). apply app_nil_r.
  - rewrite Priority.count_app_one, Ho. simpl. rewrite outcome_eqb_refl. reflexivity.
Qed.

(** From counters and averages that agree with the list, a call of the
    engine's recorder that records leaves the eight fields it assigns
    equal to their replayed values, Infinity being the sentinel. *)
Theorem engine_assigned_fields_match_replay
        (st st' : state) (a : asset) (setup setup' : Setup.t)
        (o : option outcome) (profit : Q) (now : Z) :
  consistent (performance st) (trades st) ->
  recordTradeOutcome st a setup o profit now = (st', setup', Recording) ->
  let got := performance st' in
  let replay := Spec.recompute Infinity (trades st') in
  Perf.totalTrades got = Perf.totalTrades replay
  /\ Perf.winners got = Perf.winners replay
  /\ Perf.losers got = Perf.losers replay
  /\ Perf.breakevenTrades got = Perf.breakevenTrades replay
  /\ Perf.winRate got == Perf.winRate replay
  /\ Spec.factor_equiv (Perf.profitFactor got) (Perf.profitFactor replay)
  /\ Perf.avgWin got == Perf.avgWin replay
  /\ Perf.avgLoss got == Perf.avgLoss replay.
Proof.
  intros (Hw & Hl & Hb & Haw & Hal) H got replay.
  destruct (Recorder.recording_inv _ _ _ _ _ _ _ _ H)
    as (o' & t & -> & Ht & Hr & _ & Etr & _ & _ & Eout).
  assert (Ep : performance st'
               = update_performance (performance st) (trades st ++ [t]) o').
  { destruct (Priority.record_appends_at_most_one st a setup o' profit now)
      as [E | (t' & Et' & _ & Ep')]; rewrite H in *; simpl in *.
    - subst st'. exfalso. apply (f_equal (@length _)) in Etr.
      rewrite length_app in Etr. simpl in Etr. lia.
    - rewrite Etr in Et'. apply app_inv_head in Et'. inversion Et'. subst t'. exact Ep'. }
  destruct (append_filters (trades st) t o' Eout) as [Hother Hone].
  subst got replay. rewrite Ep, Etr.
  unfold Spec.recompute, update_performance.
  destruct Ht as [E | [E | E]]; inversion E; subst o'; simpl;
    [ destruct (same_filter_same_mean LOSS _ _ (Hother LOSS ltac:(discriminate)))
        as [C1 M1];
      destruct (same_filter_same_mean BREAKEVEN _ _ (Hother BREAKEVEN ltac:(discriminate)))
        as [C2 M2]
    | destruct (same_filter_same_mean WIN _ _ (Hother WIN ltac:(discriminate)))
        as [C1 M1];
      destruct (same_filter_same_mean BREAKEVEN _ _ (Hother BREAKEVEN ltac:(discriminate)))
        as [C2 M2]
    | destruct (same_filter_same_mean WIN _ _ (Hother WIN ltac:(discriminate)))
        as [C1 M1];
      destruct (same_filter_same_mean LOSS _ _ (Hother LOSS ltac:(discriminate)))
        as [C2 M2] ];
    rewrite ?Hw, ?Hl, ?Hb, ?Haw, ?Hal, <- ?Hone, <- ?C1, <- ?C2, <- ?M1, <- ?M2;
    repeat split; trivial; try reflexivity; try apply factor_equiv_refl.
Qed.

End Aggregates.

(** ** The manual close *)

Module ManualClose.
Import ApiServer.

(** C7 fails on the code: on a blob holding the armed position of the
    end-to-end run, a manual WIN close with profit 5 stores profit 5 and
    leaves winRate and totalProfit at 0, where the recorder that
    automatic closes go through stores its own realizedPnL (30) and
    recomputes winRate (100) and totalProfit (30). *)
Lemma manual_close_is_not_the_recorder_path :
  let manual := post_trades_close Scenario.exit_blob Scenario.manual_win 1 in
  let automatic := Spec.recorder_close Scenario.exit_blob btc Scenario.armed WIN 5 101.3 1 in
  fst manual = Success
  /\ lookup (Blob.activeTrades (snd manual)) btc = None
  /\ map Trade.closedBy (Blob.trades (snd manual)) = [Some MANUAL_API]
  /\ map Trade.profit (Blob.trades (snd manual)) = [5]
  /\ map Trade.profit (Blob.trades automatic) = [30]
  /\ Perf.winRate (Blob.performance (snd manual)) = 0
  /\ Perf.winRate (Blob.performance automatic) == 100
  /\ Perf.totalProfit (Blob.performance (snd manual)) = 0
  /\ Perf.totalProfit (Blob.performance automatic) == 30
  /\ map Trade.profit
         (Engine.trades
            (fst (fst (Engine.recordTradeOutcome Engine.initial btc Scenario.armed
                                                 (Some WIN) 5 1)))) = [30].
Proof. repeat split; vm_compute; reflexivity. Qed.

(** The handler finds no position in a slot that holds the setup object
    itself, which is how the engine stores it. *)
Lemma manual_close_of_direct_position :
  post_trades_close Scenario.direct_blob Scenario.manual_win 1
  = (Status404, Scenario.direct_blob).
Proof. reflexivity. Qed.

Lemma update_first_or_append_has (p : Trade.t -> bool) (f : Trade.t -> Trade.t)
      (ts : list Trade.t) (fresh : Trade.t) (P : Trade.t -> Prop) :
  (forall t, P (f t)) -> P fresh ->
  exists t,
    In t (match update_first p f ts with Some updated => updated | None => ts ++ [fresh] end)
    /\ P t.
Proof.
  intros Hf Hfresh. destruct (update_first p f ts) as [updated|] eqn:E.
  - apply update_first_some in E. destruct E as (pre & x & post & _ & _ & ->).
    exists (f x). split; [|apply Hf]. apply in_or_app. right. left. reflexivity.
  - exists fresh. split; [|exact Hfresh]. apply in_or_app. right. left. reflexivity.
Qed.

(** C7, amended.  Given asset, outcome and exitPrice, for an asset whose
    slot holds a position in the wrapped format, the manual close
    answers success, clears that slot and no other, and stores a record
    tagged MANUAL_API with the requested outcome and exit price and with
    the requested profit (0 when absent).  It does so on a path of its
    own: totalTrades and the counter of the outcome are updated, every
    other aggregate is left as it was. *)
Theorem manual_close_is_a_path_of_its_own
        (data : Blob.t) (req : closeRequest) (now : Z)
        (a : asset) (setup : Setup.t) (o : outcome) (exitPrice : Q) :
  req_asset req <> EmptyString ->
  asset_of_key (toLowerCase (req_asset req)) = Some a ->
  req_outcome req = Some o ->
  req_exitPrice req = Some exitPrice ->
  ~ exitPrice == 0 ->
  lookup (Blob.activeTrades data) a = Some (Wrapped setup) ->
  let profit := match req_profit req with Some p => p | None => 0 end in
  let data' := snd (post_trades_close data req now) in
  let before := Blob.performance data in
  let after := Blob.performance data' in
  fst (post_trades_close data req now) = Success
  /\ lookup (Blob.activeTrades data') a = None
  /\ (forall b, a <> b -> lookup (Blob.activeTrades data') b = lookup (Blob.activeTrades data) b)
  /\ (exists t,
         In t (Blob.trades data')
         /\ Trade.outcome t = Some o
         /\ Trade.profit t = profit
         /\ Trade.exitPrice t = Some exitPrice
         /\ Trade.closedBy t = Some MANUAL_API)
  /\ Perf.totalTrades after = Z.of_nat (length (Blob.trades data'))
  /\ Perf.winners after = (Perf.winners before + if outcome_eqb o WIN then 1 else 0)%Z
  /\ Perf.losers after = (Perf.losers before + if outcome_eqb o LOSS then 1 else 0)%Z
  /\ Perf.breakevenTrades after
     = (Perf.breakevenTrades before + if outcome_eqb o BREAKEVEN then 1 else 0)%Z
  /\ Perf.totalProfit after = Perf.totalProfit before
  /\ Perf.winRate after = Perf.winRate before
  /\ Perf.profitFactor after = Perf.profitFactor before
  /\ Perf.avgWin after = Perf.avgWin before
  /\ Perf.avgLoss after = Perf.avgLoss before
  /\ Perf.breakevenRate after = Perf.breakevenRate before.
Proof.
  intros Hasset Hkey Hout Hexit Hnz Hslot profit data' before after.
  assert (E : post_trades_close data req now
              = (Success,
                 Blob.mk
                   (match update_first (is_open_record a setup)
                            (ExitEngine.close_record o profit exitPrice now MANUAL_API)
                            (Blob.trades data) with
                    | Some updated => updated
                    | None =>
                        Blob.trades data ++
                        [Trade.mk a setup (Some o) profit (Setup.timestamp setup)
                                  None None None
                                  (Some exitPrice) (Some now) (Some MANUAL_API)]
                    end)
                   (assign (Blob.activeTrades data) a None)
                   (update_performance
                      (Blob.performance data)
                      (match update_first (is_open_record a setup)
                               (ExitEngine.close_record o profit exitPrice now MANUAL_API)
                               (Blob.trades data) with
                       | Some updated => updated
                       | None =>
                           Blob.trades data ++
                           [Trade.mk a setup (Some o) profit (Setup.timestamp setup)
                                     None None None
                                     (Some exitPrice) (Some now) (Some MANUAL_API)]
                       end) o))).
  { unfold post_trades_close. rewrite Hout, Hexit, Hkey, Hslot.
    assert (E1 : String.eqb (req_asset req) "" = false)
      by (apply String.eqb_neq; exact Hasset).
    assert (E2 : missing (Some exitPrice) = false).
    { unfold missing, Js.truthy. rewrite negb_involutive.
      apply not_true_iff_false. rewrite Qeq_bool_iff. exact Hnz. }
    rewrite E1, E2. reflexivity. }
  subst data' after. rewrite E. simpl.
  split; [reflexivity|]. split; [apply lookup_assign_same|].
  split; [intros b Hb; apply lookup_assign_other; exact Hb|].
  split.
  - apply (update_first_or_append_has
             _ _ _ _
             (fun t => Trade.outcome t = Some o /\ Trade.profit t = profit
                       /\ Trade.exitPrice t = Some exitPrice
                       /\ Trade.closedBy t = Some MANUAL_API)).
    + intro t. simpl. repeat split.
    + simpl. repeat split.
  - split; [reflexivity|]. subst before.
    destruct o; simpl; repeat split; lia.
Qed.

Lemma manual_close_is_a_path_of_its_own_witness :
  fst (post_trades_close Scenario.exit_blob Scenario.manual_win 1) = Success
  /\ lookup (Blob.activeTrades (snd (post_trades_close Scenario.exit_blob
                                                       Scenario.manual_win 1))) btc = None
  /\ Perf.winRate (Blob.performance (snd (post_trades_close Scenario.exit_blob
                                                            Scenario.manual_win 1)))
     = Perf.winRate (Blob.performance Scenario.exit_blob).
Proof.
  assert (Hnz : ~ 101.3 == 0) by (intro E; discriminate E).
  assert (Hasset : req_asset Scenario.manual_win <> EmptyString) by discriminate.
  pose proof (manual_close_is_a_path_of_its_own
                Scenario.exit_blob Scenario.manual_win 1 btc Scenario.armed WIN 101.3
                Hasset eq_refl eq_refl eq_refl Hnz eq_refl) as H.
  simpl in H.
  destruct H as (H1 & H2 & _ & _ & _ & _ & _ & _ & _ & H3 & _).
  split; [exact H1|]. split; [exact H2 | exact H3].
Defined.

End ManualClose.

(** ** Sessions and setup levels *)

Module Levels.
Import Engine.

(** The four windows of getCurrentSession overlap in the source and the
    order of the tests decides: SYDNEY from 22 to 6, TOKYO for 7 and 8,
    LONDON from 9 to 16, NEW_YORK from 17 to 21; OVERLAP is returned for
    no hour. *)
Theorem session_by_hour (hour : Z) :
  getCurrentSession hour
  = (if ((hour <? 7) || (22 <=? hour))%Z then SYDNEY
     else if (hour <? 9)%Z then TOKYO
     else if (hour <? 17)%Z then LONDON
     else NEW_YORK)
  /\ getCurrentSession hour <> OVERLAP.
Proof.
  unfold getCurrentSession.
  destruct (hour <? 7)%Z eqn:E7; destruct (22 <=? hour)%Z eqn:E22;
    destruct (hour <? 9)%Z eqn:E9; destruct (hour <? 17)%Z eqn:E17;
    destruct (hour >=? 22)%Z eqn:F22; destruct (hour >=? 0)%Z eqn:F0;
    destruct (hour >=? 8)%Z eqn:F8; destruct (hour >=? 13)%Z eqn:F13;
    destruct (hour <? 22)%Z eqn:G22;
    simpl; try (split; [reflexivity | discriminate]); exfalso; lia.
Qed.

(** In exact arithmetic, that is for the levels as the formulas of
    calculateSetupLevels give them before they are rounded to binary64,
    a positive price and either preset give strictly ordered levels:
    stop, band, target 1, target 2 upwards for BULLISH and downwards
    for BEARISH, with the price inside the band.  For BEARISH the field
    [min] of the band is its upper edge.  [order_is_lost_at_the_ends_of_binary64]
    below shows where rounding ends this. *)
Theorem levels_are_ordered (a : asset) (price : Q) (m : mode) :
  0 < price ->
  (let lv := calculateSetupLevels a price BULLISH (RISK_CONFIGS m) in
   l_stop lv < min (l_entry lv) /\ min (l_entry lv) < price
   /\ price < max (l_entry lv) /\ max (l_entry lv) < l_t1 lv /\ l_t1 lv < l_t2 lv)
  /\ (let lv := calculateSetupLevels a price BEARISH (RISK_CONFIGS m) in
      l_t2 lv < l_t1 lv /\ l_t1 lv < max (l_entry lv) /\ max (l_entry lv) < price
      /\ price < min (l_entry lv) /\ min (l_entry lv) < l_stop lv).
Proof.
  intro H. destruct m; simpl; repeat split; lra.
Qed.

Lemma levels_are_ordered_witness :
  (let lv := calculateSetupLevels btc 100 BULLISH (RISK_CONFIGS aggressive) in
   l_stop lv < min (l_entry lv) /\ min (l_entry lv) < 100
   /\ 100 < max (l_entry lv) /\ max (l_entry lv) < l_t1 lv /\ l_t1 lv < l_t2 lv)
  /\ (let lv := calculateSetupLevels btc 100 BEARISH (RISK_CONFIGS aggressive) in
      l_t2 lv < l_t1 lv /\ l_t1 lv < max (l_entry lv) /\ max (l_entry lv) < 100
      /\ 100 < min (l_entry lv) /\ min (l_entry lv) < l_stop lv).
Proof.
  apply (levels_are_ordered btc 100 aggressive). reflexivity.
Defined.

(** The same formulas on doubles.  At 100 and at 2047.49 the rounded
    levels are in the order above.  At the smallest positive double
    every level rounds to the price itself, and at the largest one both
    targets are infinite: the order holds for the exact levels, and in
    binary64 only away from the two ends of the range. *)
Lemma order_is_lost_at_the_ends_of_binary64 :
  let ordered (price : float) :=
    let lv := Binary64.calculateSetupLevels price BULLISH 0.005 1.5 2.5 in
    (PrimFloat.ltb (Binary64.stop lv) (Binary64.entry_min lv)
     && PrimFloat.ltb (Binary64.entry_min lv) price
     && PrimFloat.ltb price (Binary64.entry_max lv)
     && PrimFloat.ltb (Binary64.entry_max lv) (Binary64.t1 lv)
     && PrimFloat.ltb (Binary64.t1 lv) (Binary64.t2 lv))%bool in
  let tiny := 5e-324%float in
  let huge := 1.7976931348623157e308%float in
  ordered 100%float = true
  /\ ordered 2047.49%float = true
  /\ PrimFloat.ltb 0 tiny = true
  /\ PrimFloat.eqb (PrimFloat.next_down tiny) 0 = true
  /\ PrimFloat.eqb (PrimFloat.next_up huge) PrimFloat.infinity = true
  /\ ordered tiny = false
  /\ PrimFloat.eqb (Binary64.t1 (Binary64.calculateSetupLevels tiny BULLISH 0.005 1.5 2.5))
                   tiny = true
  /\ PrimFloat.eqb (Binary64.stop (Binary64.calculateSetupLevels tiny BULLISH 0.005 1.5 2.5))
                   tiny = true
  /\ ordered huge = false
  /\ PrimFloat.eqb (Binary64.t1 (Binary64.calculateSetupLevels huge BULLISH 0.005 1.5 2.5))
                   PrimFloat.infinity = true
  /\ PrimFloat.eqb (Binary64.t2 (Binary64.calculateSetupLevels huge BULLISH 0.005 1.5 2.5))
                   PrimFloat.infinity = true.
Proof. repeat split; vm_compute; reflexivity. Qed.

End Levels.

(** ** The life of a position in the engine *)

Module Lifecycle.
Import Engine Pred.

(** What [recordTradeOutcome] followed by the clearing of the slot does. *)
Lemma close_effect (st : state) (a : asset) (trade : Setup.t) (o : outcome)
      (p : Q) (now : Z) :
  terminal (Some o) ->
  let st' := close st a trade o p now in
  lookup (activeTrades st') a = None
  /\ (forall b, a <> b -> lookup (activeTrades st') b = lookup (activeTrades st) b)
  /\ priceHistory st' = priceHistory st
  /\ currentPrices st' = currentPrices st
  /\ lastSignalTime st' = lastSignalTime st
  /\ marketCondition st' = marketCondition st
  /\ volatilityLevel st' = volatilityLevel st
  /\ riskMode st' = riskMode st
  /\ ((trades st' = trades st /\ performance st' = performance st)
      \/ (exists t,
             recordTradeOutcome st a trade (Some o) p now
             = (with_database st (trades st ++ [t])
                              (update_performance (performance st) (trades st ++ [t]) o),
                Setup.mark_recorded trade, Recording)
             /\ trades st' = trades st ++ [t]
             /\ Trade.asset t = a
             /\ Trade.setup t = Setup.mark_recorded trade
             /\ Trade.outcome t = Some o
             /\ Trade.profit t = realizedPnL (Setup.mark_recorded trade) o
             /\ Setup.recorded trade = false)).
Proof.
  intros Ht st'. subst st'. unfold close.
  destruct (Setup.recorded trade) eqn:Hr.
  - rewrite (Recorder.guard_recorded st a trade (Some o) p now Ht Hr). simpl.
    split; [apply lookup_assign_same|].
    split; [intros b Hb; apply lookup_assign_other; exact Hb|].
    repeat split. left. split; reflexivity.
  - destruct (existsb (is_duplicate a trade o) (trades st)) eqn:Hd.
    + rewrite (Recorder.guard_duplicate st a trade o p now Ht Hr)
        by (apply Recorder.duplicate_found; exact Hd).
      simpl. split; [apply lookup_assign_same|].
      split; [intros b Hb; apply lookup_assign_other; exact Hb|].
      repeat split. left. split; reflexivity.
    + destruct (Recorder.records_when_clear st a trade o p now Ht Hr Hd)
        as (t & E & Ha & Hs & Ho & Hp).
      rewrite E. simpl.
      split; [apply lookup_assign_same|].
      split; [intros b Hb; apply lookup_assign_other; exact Hb|].
      repeat split. right. exists t. repeat split; trivial.
Qed.

(** The branch [updateTradeStatus] takes for a position in the slot. *)
Lemma status_cases (st : state) (a : asset) (now : Z) (trade : Setup.t) :
  lookup (activeTrades st) a = Some trade ->
  updateTradeStatus st a now = (st, Nothing)
  \/ (Setup.reachedTarget1 trade = false
      /\ crossed_up (Setup.direction trade) (lookup (currentPrices st) a) (Setup.t1 trade)
         = true
      /\ updateTradeStatus st a now
         = (with_activeTrades st
              (assign (activeTrades st) a
                      (Some (Setup.arm_breakeven trade (entryAvg trade)))),
            Target1Hit))
  \/ (Setup.reachedTarget1 trade = true
      /\ updateTradeStatus st a now
         = (close st a trade WIN (Qabs (Setup.t2 trade - entryAvg trade)) now,
            Target2HitWin (Qabs (Setup.t2 trade - entryAvg trade))))
  \/ (Setup.reachedTarget1 trade = true
      /\ updateTradeStatus st a now
         = (close st a trade BREAKEVEN 0 now, BreakevenStopHit))
  \/ (Setup.reachedTarget1 trade = false
      /\ updateTradeStatus st a now
         = (close st a trade LOSS
                  (Qabs (lookup (currentPrices st) a - entryAvg trade)) now,
            StopLossHit (Qabs (lookup (currentPrices st) a - entryAvg trade)))).
Proof.
  intro Hl. unfold updateTradeStatus. rewrite Hl.
  destruct (negb (Js.truthy (lookup (currentPrices st) a))
            || (lookup (currentPrices st) a <=? 0)); [left; reflexivity|].
  destruct (Setup.reachedTarget1 trade) eqn:H1; simpl.
  - destruct (negb (Setup.reachedTarget2 trade)); simpl; [|left; reflexivity].
    destruct (crossed_up _ _ (Setup.t2 trade)).
    + right. right. left. split; reflexivity.
    + destruct (crossed_down _ _ (Setup.stop trade)).
      * right. right. right. left. split; reflexivity.
      * left. reflexivity.
  - destruct (crossed_up _ _ (Setup.t1 trade)) eqn:Hup.
    + right. left. repeat split.
    + destruct (crossed_down _ _ (loss_stop trade)).
      * right. right. right. right. split; reflexivity.
      * left. reflexivity.
Qed.

(** An exit check works on one slot and only moves it forward: it
    leaves prices, history, regime, cooldown clock and the slot of the
    other asset as they were, it never puts a position into an empty
    slot, and a position still in the slot afterwards is the one that
    was there, unchanged or, if target 1 had not been reached, with the
    stop moved to breakeven. *)
Theorem exit_check_moves_one_slot_forward (st : state) (a : asset) (now : Z) :
  let st' := fst (updateTradeStatus st a now) in
  (forall b, a <> b -> lookup (activeTrades st') b = lookup (activeTrades st) b)
  /\ priceHistory st' = priceHistory st
  /\ currentPrices st' = currentPrices st
  /\ lastSignalTime st' = lastSignalTime st
  /\ marketCondition st' = marketCondition st
  /\ volatilityLevel st' = volatilityLevel st
  /\ (forall trade',
         lookup (activeTrades st') a = Some trade' ->
         exists trade,
           lookup (activeTrades st) a = Some trade
           /\ (trade' = trade
               \/ (Setup.reachedTarget1 trade = false
                   /\ trade' = Setup.arm_breakeven trade (entryAvg trade)))).
Proof.
  intro st'. subst st'.
  destruct (lookup (activeTrades st) a) as [trade|] eqn:Hl.
  - destruct (status_cases st a now trade Hl)
      as [E | [(H1 & _ & E) | [(H1 & E) | [(H1 & E) | (H1 & E)]]]];
      rewrite E; cbn [fst].
    + repeat split; trivial. intros t' Ht'. exists trade.
      rewrite Hl in Ht'. inversion Ht'. auto.
    + simpl. split; [intros b Hb; apply lookup_assign_other; exact Hb|]. repeat split.
      intros t' Ht'. rewrite lookup_assign_same in Ht'. inversion Ht'.
      exists trade. auto.
    + destruct (close_effect st a trade WIN (Qabs (Setup.t2 trade - entryAvg trade)) now)
        as (Hn & Ho & Hh & Hp & Hs & Hm & Hv & _); [left; reflexivity|].
      repeat split; trivial. intros t' Ht'. rewrite Hn in Ht'. discriminate.
    + destruct (close_effect st a trade BREAKEVEN 0 now)
        as (Hn & Ho & Hh & Hp & Hs & Hm & Hv & _); [right; right; reflexivity|].
      repeat split; trivial. intros t' Ht'. rewrite Hn in Ht'. discriminate.
    + destruct (close_effect st a trade LOSS
                             (Qabs (lookup (currentPrices st) a - entryAvg trade)) now)
        as (Hn & Ho & Hh & Hp & Hs & Hm & Hv & _); [right; left; reflexivity|].
      repeat split; trivial. intros t' Ht'. rewrite Hn in Ht'. discriminate.
  - unfold updateTradeStatus. rewrite Hl. simpl. repeat split.
    intros t' Ht'. rewrite Hl in Ht'. discriminate.
Qed.

End Lifecycle.

(** ** What a close pays *)

Module Payout.
Import Engine.

Lemma abs_zero_iff (x : Q) : Qabs x == 0 <-> x == 0.
Proof.
  split.
  - apply (Qabs_case x (fun y => y == 0 -> x == 0)); intros; lra.
  - intro H. rewrite H. reflexivity.
Qed.

Lemma abs_positive (x : Q) : ~ x == 0 -> 0 < Qabs x.
Proof.
  intro H. pose proof (Qabs_nonneg x) as Hn.
  destruct (Qlt_le_dec 0 (Qabs x)) as [Hp | Hle]; [exact Hp|].
  exfalso. apply H. apply abs_zero_iff. lra.
Qed.

Lemma abs_quotient (x y : Q) : Qabs (x / y) == Qabs x / Qabs y.
Proof.
  unfold Qdiv. rewrite Qabs_Qmult, Qabs_Qinv. reflexivity.
Qed.

Lemma quotient_positive (x y : Q) : 0 < x -> 0 < y -> 0 < x / y.
Proof.
  intros Hx Hy. unfold Qdiv.
  pose proof (Qinv_lt_0_compat y Hy) as Hi. nra.
Qed.

Lemma quotient_zero (x y : Q) : x == 0 -> x / y == 0.
Proof. intro H. rewrite H. unfold Qdiv. ring. Qed.

(** A distance as the WIN formula reads it. *)
Lemma distance_positive (level e : Q) :
  ~ e == 0 -> ~ level == e -> (Qabs ((level - e) / e) >? 0) = true.
Proof.
  intros He Hl. apply gtb_true. rewrite abs_quotient.
  apply quotient_positive; apply abs_positive; trivial.
  intro H. apply Hl. lra.
Qed.

Lemma distance_zero (level e : Q) :
  level == e -> (Qabs ((level - e) / e) >? 0) = false.
Proof.
  intro H. apply gtb_false.
  assert (E : (level - e) / e == 0) by (apply quotient_zero; lra).
  rewrite E. apply Qle_refl.
Qed.

(** A WIN pays the risk capital times the ratio of the target-2
    distance to the stop distance, whatever the entry price and the
    direction, as long as the entry price is not 0 and neither level
    lies on it; when the stop or target 2 equals the entry price it
    pays three times the risk capital. *)
Theorem win_pays_risk_times_reward_ratio (setup : Setup.t) :
  (~ Setup.entryPrice setup == 0 ->
   ~ Setup.stop setup == Setup.entryPrice setup ->
   ~ Setup.t2 setup == Setup.entryPrice setup ->
   realizedPnL setup WIN
   == RISK_PER_TRADE * (Qabs (Setup.t2 setup - Setup.entryPrice setup)
                        / Qabs (Setup.stop setup - Setup.entryPrice setup)))
  /\ (Setup.stop setup == Setup.entryPrice setup
      \/ Setup.t2 setup == Setup.entryPrice setup ->
      realizedPnL setup WIN == RISK_PER_TRADE * 3).
Proof.
  split.
  - intros He Hs Ht. unfold realizedPnL.
    assert (E0 : Qeq_bool (Setup.entryPrice setup) 0 = false)
      by (apply not_true_iff_false; rewrite Qeq_bool_iff; exact He).
    rewrite E0, (distance_positive _ _ He Hs), (distance_positive _ _ He Ht).
    cbn [andb]. rewrite !abs_quotient.
    assert (0 < Qabs (Setup.entryPrice setup)) by (apply abs_positive; exact He).
    assert (0 < Qabs (Setup.stop setup - Setup.entryPrice setup))
      by (apply abs_positive; intro H'; apply Hs; lra).
    field. split; lra.
  - intros Hdeg. unfold realizedPnL.
    destruct (Qeq_bool (Setup.entryPrice setup) 0) eqn:E0.
    + apply Qeq_bool_iff in E0.
      assert (E : Qeq_bool (Setup.stop setup) 0 || Qeq_bool (Setup.t2 setup) 0 = true).
      { apply orb_true_iff.
        destruct Hdeg as [H | H]; [left | right]; apply Qeq_bool_iff; lra. }
      rewrite E. reflexivity.
    + destruct Hdeg as [H | H].
      * rewrite (distance_zero _ _ H). reflexivity.
      * rewrite (distance_zero _ _ H), andb_false_r. reflexivity.
Qed.

Lemma win_pays_risk_times_reward_ratio_witness :
  realizedPnL Scenario.opened_setup WIN
  == RISK_PER_TRADE * (Qabs (Setup.t2 Scenario.opened_setup - 100)
                       / Qabs (Setup.stop Scenario.opened_setup - 100))
  /\ realizedPnL Scenario.armed WIN == RISK_PER_TRADE * 3.
Proof.
  split.
  - apply (proj1 (win_pays_risk_times_reward_ratio Scenario.opened_setup));
      intro E; vm_compute in E; discriminate E.
  - apply (proj2 (win_pays_risk_times_reward_ratio Scenario.armed)).
    left. vm_compute. reflexivity.
Defined.

(** No WIN is stored with a negative profit. *)
Lemma win_is_not_negative (setup : Setup.t) : 0 <= realizedPnL setup WIN.
Proof.
  unfold realizedPnL.
  destruct (Qeq_bool (Setup.entryPrice setup) 0).
  - destruct (Qeq_bool (Setup.stop setup) 0 || Qeq_bool (Setup.t2 setup) 0);
      vm_compute; discriminate.
  - destruct (Qabs ((Setup.stop setup - Setup.entryPrice setup)
                    / Setup.entryPrice setup) >? 0) eqn:Es; cbn [andb].
    + destruct (Qabs ((Setup.t2 setup - Setup.entryPrice setup)
                      / Setup.entryPrice setup) >? 0) eqn:Et.
      * apply gtb_true in Es. apply gtb_true in Et.
        apply Qlt_le_weak. apply Qmult_lt_0_compat; [|exact Et].
        apply quotient_positive; [reflexivity | exact Es].
      * vm_compute; discriminate.
    + vm_compute; discriminate.
Qed.

End Payout.

(** ** Single ticks *)

Module Ticks.
Import Engine Pred.

(** A tick price that has crossed target 1 of a position not yet armed
    only arms it, however far the price has gone: the stop moves to
    breakeven, the position stays in the slot, and nothing is recorded
    in that tick even when the price is beyond target 2 as well. *)
Theorem crossing_target1_only_arms (st : state) (a : asset) (now : Z) (trade : Setup.t) :
  lookup (activeTrades st) a = Some trade ->
  Setup.reachedTarget1 trade = false ->
  0 < lookup (currentPrices st) a ->
  match Setup.direction trade with
  | BULLISH => Setup.t1 trade <= lookup (currentPrices st) a
  | BEARISH => lookup (currentPrices st) a <= Setup.t1 trade
  end ->
  let st' := fst (updateTradeStatus st a now) in
  snd (updateTradeStatus st a now) = Target1Hit
  /\ lookup (activeTrades st') a = Some (Setup.arm_breakeven trade (entryAvg trade))
  /\ trades st' = trades st
  /\ performance st' = performance st.
Proof.
  intros Hl H1 Hp Hc st'.
  assert (Hup : crossed_up (Setup.direction trade) (lookup (currentPrices st) a)
                           (Setup.t1 trade) = true).
  { unfold crossed_up, Js.geb. destruct (Setup.direction trade); apply leb_true; exact Hc. }
  assert (E : updateTradeStatus st a now
              = (with_activeTrades st
                   (assign (activeTrades st) a
                           (Some (Setup.arm_breakeven trade (entryAvg trade)))),
                 Target1Hit)).
  { unfold updateTradeStatus.
    rewrite Hl, (Priority.positive_price_passes _ Hp), H1, Hup. reflexivity. }
  subst st'. rewrite E. simpl. rewrite lookup_assign_same. repeat split.
Qed.

Lemma crossing_target1_only_arms_witness :
  snd (updateTradeStatus (updatePrice Scenario.opened btc 105 0 7) btc 7) = Target1Hit
  /\ trades (fst (updateTradeStatus (updatePrice Scenario.opened btc 105 0 7) btc 7)) = [].
Proof.
  destruct (crossing_target1_only_arms
              (updatePrice Scenario.opened btc 105 0 7) btc 7 Scenario.opened_setup
              eq_refl eq_refl eq_refl)
    as (H1 & _ & H2 & _).
  - vm_compute. discriminate.
  - split; [exact H1 | exact H2].
Defined.

(** In exact arithmetic, that is with the levels as the formulas give
    them before rounding to binary64, a position just opened by
    generateAISetup at the current price is left alone by an exit check
    at that price, for every positive price, either direction and
    either preset: the price lies strictly between its stop and its
    target 1.  [opening_price_in_binary64] below has the same check on
    doubles. *)
Theorem opening_price_triggers_nothing
        (st : state) (a : asset) (confidence : Z) (momentum : Q) (now hour now' : Z) :
  0 < lookup (currentPrices st) a ->
  let opened :=
    generateAISetup st a (lookup (currentPrices st) a) confidence momentum now hour in
  updateTradeStatus opened a now' = (opened, Nothing).
Proof.
  intros Hp opened. subst opened.
  unfold updateTradeStatus, generateAISetup.
  cbn [activeTrades currentPrices with_activeTrades].
  rewrite lookup_assign_same, (Priority.positive_price_passes _ Hp).
  cbn [Setup.reachedTarget1 Setup.reachedTarget2 Setup.direction Setup.t1 Setup.t2
       Setup.stop negb andb loss_stop Setup.originalStop].
  set (p := lookup (currentPrices st) a) in *.
  assert (U : crossed_up (direction_of momentum) p
                (l_t1 (calculateSetupLevels a p (direction_of momentum)
                                            (RISK_CONFIGS (riskMode st)))) = false).
  { unfold crossed_up, Js.geb.
    destruct (direction_of momentum), (riskMode st); simpl;
      apply not_true_iff_false; rewrite leb_true; lra. }
  assert (D : crossed_down (direction_of momentum) p
                (l_stop (calculateSetupLevels a p (direction_of momentum)
                                              (RISK_CONFIGS (riskMode st)))) = false).
  { unfold crossed_down, Js.geb.
    destruct (direction_of momentum), (riskMode st); simpl;
      apply not_true_iff_false; rewrite leb_true; lra. }
  rewrite U, D. reflexivity.
Qed.

Lemma opening_price_triggers_nothing_witness :
  updateTradeStatus
    (generateAISetup Scenario.one_sample btc 100 8 1 1700000000000 12) btc 1700000000001
  = (generateAISetup Scenario.one_sample btc 100 8 1 1700000000000 12, Nothing).
Proof.
  apply (opening_price_triggers_nothing Scenario.one_sample btc 8 1 1700000000000 12
                                        1700000000001).
  reflexivity.
Defined.

(** The same check on doubles: at 100 and at 2047.49 the opening price
    triggers nothing, in either direction; at the smallest positive
    double target 1 rounds to the price and the opening price arms the
    position at once. *)
Lemma opening_price_in_binary64 :
  let opened (price : float) (d : direction) :=
    Binary64.calculateSetupLevels price d 0.005 1.5 2.5 in
  let held (price : float) (d : direction) :=
    match Binary64.updateTradeStatus (opened price d) price with
    | Binary64.Hold _ => true
    | _ => false
    end in
  held 100%float BULLISH = true /\ held 100%float BEARISH = true
  /\ held 2047.49%float BULLISH = true /\ held 2047.49%float BEARISH = true
  /\ Binary64.updateTradeStatus (opened 5e-324%float BULLISH) 5e-324%float
     = Binary64.Armed (Binary64.arm_breakeven (opened 5e-324%float BULLISH)).
Proof. repeat split; vm_compute; reflexivity. Qed.

End Ticks.

(** ** The admission decision *)

Module Admission.
Import Engine Pred.

(** What an exit check leaves untouched. *)
Lemma status_frame (st : state) (a : asset) (now : Z) :
  let st' := fst (updateTradeStatus st a now) in
  priceHistory st' = priceHistory st
  /\ currentPrices st' = currentPrices st
  /\ lastSignalTime st' = lastSignalTime st
  /\ marketCondition st' = marketCondition st
  /\ volatilityLevel st' = volatilityLevel st
  /\ riskMode st' = riskMode st
  /\ (forall b, a <> b -> lookup (activeTrades st') b = lookup (activeTrades st) b).
Proof.
  intro st'. subst st'.
  destruct (lookup (activeTrades st) a) as [trade|] eqn:Hl.
  - destruct (Lifecycle.status_cases st a now trade Hl)
      as [E | [(H1 & _ & E) | [(H1 & E) | [(H1 & E) | (H1 & E)]]]];
      rewrite E; cbn [fst].
    + repeat split.
    + simpl. repeat split. intros b Hb. apply lookup_assign_other. exact Hb.
    + destruct (Lifecycle.close_effect st a trade WIN
                  (Qabs (Setup.t2 trade - entryAvg trade)) now)
        as (_ & Ho & Hh & Hp & Hs & Hm & Hv & Hr & _); [left; reflexivity|].
      repeat split; trivial.
    + destruct (Lifecycle.close_effect st a trade BREAKEVEN 0 now)
        as (_ & Ho & Hh & Hp & Hs & Hm & Hv & Hr & _); [right; right; reflexivity|].
      repeat split; trivial.
    + destruct (Lifecycle.close_effect st a trade LOSS
                  (Qabs (lookup (currentPrices st) a - entryAvg trade)) now)
        as (_ & Ho & Hh & Hp & Hs & Hm & Hv & Hr & _); [right; left; reflexivity|].
      repeat split; trivial.
  - unfold updateTradeStatus. rewrite Hl. simpl. repeat split.
Qed.

(** Under either preset, whether a scan opens a position depends on
    two things only: the 60 seconds since the asset's last signal and
    the emptiness of its slot.  Momentum, regime, volatility and the
    confidence draw never make it decline. *)
Theorem scan_decides_by_cooldown_and_slot
        (st : state) (a : asset) (currentPrice : Q) (i : scanInputs) :
  0 <= random_confidence i ->
  scanForSignals st a currentPrice i
  = (if (60000 <=? now_scan i - lookup (lastSignalTime st) a)%Z
        && match lookup (activeTrades st) a with None => true | Some _ => false end
     then opening st a currentPrice i
     else st)
  /\ lookup (activeTrades (opening st a currentPrice i)) a <> None.
Proof.
  intro Hr. split.
  - destruct (60000 <=? now_scan i - lookup (lastSignalTime st) a)%Z eqn:Hc.
    + destruct (lookup (activeTrades st) a) as [s|] eqn:Hs; cbn [andb].
      * unfold scanForSignals. rewrite Hs.
        destruct (now_scan i - lookup (lastSignalTime st) a <? 60000)%Z; reflexivity.
      * apply Signal.scan_opens; trivial. apply Z.leb_le. exact Hc.
    + cbn [andb]. unfold scanForSignals.
      assert (E : (now_scan i - lookup (lastSignalTime st) a <? 60000)%Z = true).
      { apply Z.ltb_lt. apply Z.leb_gt in Hc. exact Hc. }
      rewrite E. reflexivity.
  - destruct (Signal.opening_slot st a currentPrice i) as (s & Hs & _).
    rewrite Hs. discriminate.
Qed.

Lemma scan_decides_by_cooldown_and_slot_witness :
  scanForSignals Scenario.opened btc 100 (Scenario.first_scan 0.9) = Scenario.opened.
Proof.
  apply (proj1 (scan_decides_by_cooldown_and_slot
                  Scenario.opened btc 100 (Scenario.first_scan 0.9)
                  ltac:(vm_compute; discriminate))).
Defined.

(** For a draw in [0,1) the confidence given to a new position is the
    base 8 + floor(8 * draw), between 8 and 15, plus 2 when the regime
    is a trend and the momentum points the same way (the two trend
    tests exclude each other, so 2 is added at most once), plus 3 when
    the volatility is HIGH or EXTREME.  It lies between 8 and 20, and
    both ends are reached. *)
Theorem confidence_is_between_8_and_20 (st : state) (momentum random : Q) :
  0 <= random -> random < 1 ->
  let base := (8 + Qfloor (random * 8))%Z in
  let trend :=
    match marketCondition st with
    | TRENDING_UP => if momentum >? 0 then 2%Z else 0%Z
    | TRENDING_DOWN => if momentum <? 0 then 2%Z else 0%Z
    | RANGING => 0%Z
    end in
  let vol :=
    match volatilityLevel st with
    | HIGH | EXTREME => 3%Z
    | LOW | NORMAL => 0%Z
    end in
  (8 <= base <= 15)%Z
  /\ confidence_of st momentum random = (base + trend + vol)%Z
  /\ (8 <= confidence_of st momentum random <= 20)%Z.
Proof.
  intros H0 H1. pose proof (Signal.floor_of_draw random H0 H1) as Hf.
  cbv zeta. split; [lia|].
  unfold confidence_of.
  destruct (marketCondition st), (volatilityLevel st); cbn [andb];
    repeat match goal with
           | |- context [if ?c then _ else _] => destruct c
           end; split; lia.
Qed.

Lemma confidence_is_between_8_and_20_witness :
  confidence_of (with_regime initial TRENDING_UP HIGH) 1 0.99 = 20%Z
  /\ confidence_of (with_regime initial TRENDING_DOWN EXTREME) (-1) 0.99 = 20%Z
  /\ confidence_of (with_regime initial TRENDING_UP HIGH) (-1) 0.99 = 18%Z
  /\ confidence_of (with_regime initial RANGING LOW) 1 0 = 8%Z.
Proof.
  assert (H0 : 0 <= 0.99) by (vm_compute; discriminate).
  assert (H1 : 0.99 < 1) by reflexivity.
  assert (Z0 : 0 <= 0) by (vm_compute; discriminate).
  assert (Z1 : 0 < 1) by reflexivity.
  split; [|split; [|split]].
  - rewrite (proj1 (proj2 (confidence_is_between_8_and_20
                             (with_regime initial TRENDING_UP HIGH) 1 0.99 H0 H1))).
    reflexivity.
  - rewrite (proj1 (proj2 (confidence_is_between_8_and_20
                             (with_regime initial TRENDING_DOWN EXTREME) (-1) 0.99 H0 H1))).
    reflexivity.
  - rewrite (proj1 (proj2 (confidence_is_between_8_and_20
                             (with_regime initial TRENDING_UP HIGH) (-1) 0.99 H0 H1))).
    reflexivity.
  - rewrite (proj1 (proj2 (confidence_is_between_8_and_20
                             (with_regime initial RANGING LOW) 1 0 Z0 Z1))).
    reflexivity.
Defined.

(** Exits come first and the slot is refilled at once: when the exit
    check of a scan leaves the asset's slot empty, by closing a position
    or because it was empty, and the cooldown has elapsed, the same
    scan opens a new position at the current price, not armed and not
    flagged, and restarts the cooldown. *)
Theorem empty_slot_is_refilled_in_the_same_scan (st : state) (a : asset) (i : scanInputs) :
  0 < lookup (currentPrices st) a ->
  lookup (activeTrades (fst (updateTradeStatus st a (now_scan i)))) a = None ->
  (60000 <= now_scan i - lookup (lastSignalTime st) a)%Z ->
  0 <= random_confidence i ->
  exists setup,
    lookup (activeTrades (scan_asset st a i)) a = Some setup
    /\ Setup.entryPrice setup = lookup (currentPrices st) a
    /\ Setup.reachedTarget1 setup = false
    /\ Setup.recorded setup = false
    /\ Setup.timestamp setup = now_setup i
    /\ lookup (lastSignalTime (scan_asset st a i)) a = now_signal i
    /\ trades (scan_asset st a i) = trades (fst (updateTradeStatus st a (now_scan i))).
Proof.
  intros Hp Hnone Hcool Hr.
  destruct (status_frame st a (now_scan i)) as (_ & Hcp & Hls & _).
  unfold scan_asset.
  assert (G : (lookup (currentPrices st) a >? 0) = true) by (apply gtb_true; exact Hp).
  rewrite G. cbv zeta. rewrite Hnone.
  rewrite Signal.scan_opens; trivial; [|rewrite Hls; exact Hcool].
  rewrite Hcp. unfold opening, generateAISetup. simpl.
  rewrite !lookup_assign_same. eexists. repeat split.
Qed.

Lemma empty_slot_is_refilled_in_the_same_scan_witness :
  let st := updatePrice (fst Scenario.at_100_8) btc 101.3 0 1700000009000 in
  option_map Setup.reachedTarget1 (lookup (activeTrades st) btc) = Some true
  /\ exists setup,
       lookup (activeTrades (scan_asset st btc (Scenario.first_scan 0.9))) btc = Some setup
       /\ Setup.entryPrice setup = 101.3
       /\ Setup.reachedTarget1 setup = false.
Proof.
  intro st. split; [vm_compute; reflexivity|].
  destruct (empty_slot_is_refilled_in_the_same_scan st btc (Scenario.first_scan 0.9))
    as (setup & Hs & He & H1 & _).
  - reflexivity.
  - vm_compute. reflexivity.
  - vm_compute. discriminate.
  - vm_compute. discriminate.
  - exists setup. split; [exact Hs | split; [exact He | exact H1]].
Defined.

End Admission.

(** ** The regime with short windows *)

Module RegimeCases.
Import Engine.

Lemma detect_asset_frame (st : state) (a : asset) :
  riskMode (detect_asset st a) = riskMode st
  /\ priceHistory (detect_asset st a) = priceHistory st
  /\ currentPrices (detect_asset st a) = currentPrices st
  /\ lastSignalTime (detect_asset st a) = lastSignalTime st
  /\ activeTrades (detect_asset st a) = activeTrades st
  /\ trades (detect_asset st a) = trades st
  /\ performance (detect_asset st a) = performance st.
Proof.
  unfold detect_asset.
  destruct (5 <=? length (lookup (priceHistory st) a))%nat; repeat split.
Qed.

Lemma detect_frame (st : state) :
  riskMode (detectMarketCondition st) = riskMode st
  /\ priceHistory (detectMarketCondition st) = priceHistory st
  /\ currentPrices (detectMarketCondition st) = currentPrices st
  /\ lastSignalTime (detectMarketCondition st) = lastSignalTime st
  /\ activeTrades (detectMarketCondition st) = activeTrades st
  /\ trades (detectMarketCondition st) = trades st
  /\ performance (detectMarketCondition st) = performance st.
Proof.
  unfold detectMarketCondition. simpl.
  destruct (detect_asset_frame st btc) as (A1 & A2 & A3 & A4 & A5 & A6 & A7).
  destruct (detect_asset_frame (detect_asset st btc) eth)
    as (B1 & B2 & B3 & B4 & B5 & B6 & B7).
  repeat split; congruence.
Qed.

(** detectMarketCondition gives the regime of the last of btc, eth
    that has at least 5 samples, classified on its newest 5, and keeps
    the previous regime when neither has; it changes nothing else. *)
Theorem regime_is_of_the_last_asset_with_5_samples (st : state) :
  let st' := detectMarketCondition st in
  let regime_of a :=
    (classify_trend (Js.slice_last 5 (lookup (priceHistory st) a))
                    (lookup (currentPrices st) a),
     classify_volatility (Js.slice_last 5 (lookup (priceHistory st) a))) in
  (marketCondition st', volatilityLevel st')
  = (if (5 <=? length (lookup (priceHistory st) eth))%nat then regime_of eth
     else if (5 <=? length (lookup (priceHistory st) btc))%nat then regime_of btc
     else (marketCondition st, volatilityLevel st))
  /\ priceHistory st' = priceHistory st
  /\ currentPrices st' = currentPrices st
  /\ activeTrades st' = activeTrades st
  /\ trades st' = trades st
  /\ performance st' = performance st.
Proof.
  intros st' regime_of.
  destruct (detect_frame st) as (_ & Hh & Hp & _ & Ha & Ht & Hperf).
  split; [|repeat split; assumption].
  subst st' regime_of. unfold detectMarketCondition.
  change (fold_left detect_asset [btc; eth] st)
    with (detect_asset (detect_asset st btc) eth).
  destruct (detect_asset_frame st btc) as (_ & Hh1 & Hp1 & _).
  destruct (5 <=? length (lookup (priceHistory st) eth))%nat eqn:Ee.
  - unfold detect_asset at 1 3. rewrite Hh1, Hp1, Ee. reflexivity.
  - unfold detect_asset at 1 3. rewrite Hh1, Ee.
    unfold detect_asset.
    destruct (5 <=? length (lookup (priceHistory st) btc))%nat; reflexivity.
Qed.

End RegimeCases.

(** ** What every run of the engine keeps *)

Module Invariants.
Import Engine Pred Run.

Lemma accepted_price_is_positive (p : Q) :
  negb (Js.truthy p) || (p <=? 0) = false -> 0 < p.
Proof.
  intro H. apply orb_false_iff in H. destruct H as [_ H].
  apply not_true_iff_false in H. rewrite leb_true in H.
  apply Qnot_le_lt. exact H.
Qed.

Lemma last_app_one {A : Type} (l : list A) (x d : A) : last (l ++ [x]) d = x.
Proof.
  induction l as [|y l IH]; [reflexivity|].
  simpl. destruct (l ++ [x]) eqn:E; [destruct l; discriminate | exact IH].
Qed.

Lemma last_tl {A : Type} (l : list A) (d : A) :
  (2 <= length l)%nat -> last (tl l) d = last l d.
Proof.
  destruct l as [|x [|y l]]; simpl; intro H; try lia. reflexivity.
Qed.

Lemma Forall_tl {A : Type} (P : A -> Prop) (l : list A) : Forall P l -> Forall P (tl l).
Proof. intro H. destruct l; [exact H | inversion H; assumption]. Qed.

Lemma updatePrice_window (st : state) (a b : asset) (p c : Q) (now : Z) :
  window_ok st b -> window_ok (updatePrice st a p c now) b.
Proof.
  intros (Hlen & Hall & Hcur). unfold updatePrice, window_ok.
  destruct (negb (Js.truthy p) || (p <=? 0)) eqn:Hrej; [repeat split; assumption|].
  apply accepted_price_is_positive in Hrej.
  destruct a, b; simpl in *; try (repeat split; assumption).
  - set (old := at_btc (priceHistory st)) in *.
    assert (Hpushed : Forall (fun s => 0 < price s) (old ++ [mkSample p c now])).
    { apply Forall_app. split; [exact Hall|]. constructor; [exact Hrej | constructor]. }
    destruct (50 <? length (old ++ [mkSample p c now]))%nat eqn:E.
    + apply Nat.ltb_lt in E. rewrite length_app in E. simpl in E.
      unfold Js.shift. repeat split.
      * destruct (old ++ [mkSample p c now]) eqn:El; simpl.
        -- lia.
        -- apply (f_equal (@length _)) in El. rewrite length_app in El.
           simpl in El. lia.
      * apply Forall_tl. exact Hpushed.
      * unfold newest. rewrite last_tl, last_app_one; [reflexivity|].
        rewrite length_app. simpl. lia.
    + apply Nat.ltb_ge in E. repeat split; trivial.
      unfold newest. rewrite last_app_one. reflexivity.
  - set (old := at_eth (priceHistory st)) in *.
    assert (Hpushed : Forall (fun s => 0 < price s) (old ++ [mkSample p c now])).
    { apply Forall_app. split; [exact Hall|]. constructor; [exact Hrej | constructor]. }
    destruct (50 <? length (old ++ [mkSample p c now]))%nat eqn:E.
    + apply Nat.ltb_lt in E. rewrite length_app in E. simpl in E.
      unfold Js.shift. repeat split.
      * destruct (old ++ [mkSample p c now]) eqn:El; simpl.
        -- lia.
        -- apply (f_equal (@length _)) in El. rewrite length_app in El.
           simpl in El. lia.
      * apply Forall_tl. exact Hpushed.
      * unfold newest. rewrite last_tl, last_app_one; [reflexivity|].
        rewrite length_app. simpl. lia.
    + apply Nat.ltb_ge in E. repeat split; trivial.
      unfold newest. rewrite last_app_one. reflexivity.
Qed.

Lemma updatePrice_frame (st : state) (a : asset) (p c : Q) (now : Z) :
  trades (updatePrice st a p c now) = trades st
  /\ performance (updatePrice st a p c now) = performance st
  /\ activeTrades (updatePrice st a p c now) = activeTrades st
  /\ riskMode (updatePrice st a p c now) = riskMode st.
Proof.
  unfold updatePrice.
  destruct (negb (Js.truthy p) || (p <=? 0)); repeat split.
Qed.

Lemma updatePrice_invariant (st : state) (a : asset) (p c : Q) (now : Z) :
  invariant st -> invariant (updatePrice st a p c now).
Proof.
  intros (Hw & Hr & Hc & Ht & Ha & Hm).
  destruct (updatePrice_frame st a p c now) as (E1 & E2 & E3 & E4).
  unfold invariant. rewrite E1, E2, E3, E4.
  refine (conj _ (conj Hr (conj Hc (conj Ht (conj Ha Hm))))).
  intro b. apply updatePrice_window. apply Hw.
Qed.

Lemma window_ok_frame (st st' : state) (a : asset) :
  priceHistory st' = priceHistory st -> currentPrices st' = currentPrices st ->
  window_ok st a -> window_ok st' a.
Proof. unfold window_ok. intros -> ->. trivial. Qed.

Lemma detect_invariant (st : state) : invariant st -> invariant (detectMarketCondition st).
Proof.
  intros (Hw & Hr & Hc & Ht & Ha & Hm).
  destruct (RegimeCases.detect_frame st) as (E1 & E2 & E3 & _ & E5 & E6 & E7).
  unfold invariant. rewrite E1, E5, E6, E7.
  refine (conj _ (conj Hr (conj Hc (conj Ht (conj Ha Hm))))).
  intro b. apply (window_ok_frame st); trivial.
Qed.

Lemma armed_is_ok (s : Setup.t) (avg : Q) :
  active_ok s -> active_ok (Setup.arm_breakeven s avg).
Proof.
  intros (H1 & H2 & H3 & H4). unfold active_ok. simpl.
  repeat split; trivial; discriminate.
Qed.

Lemma assign_all {A : Type} (P : A -> Prop) (m : perAsset (option A)) (a : asset)
      (v : option A) :
  (forall b s, lookup m b = Some s -> P s) ->
  (forall s, v = Some s -> P s) ->
  forall b s, lookup (assign m a v) b = Some s -> P s.
Proof.
  intros Hm Hv b s. destruct a, b; simpl; intro H;
    try (apply Hv; exact H);
    try (apply (Hm btc); exact H); try (apply (Hm eth); exact H).
Qed.

Lemma initial_invariant : invariant initial.
Proof.
  unfold invariant, window_ok. simpl.
  split; [intros [|]; simpl; (split; [lia | split; [constructor | reflexivity]])|].
  split; [constructor|].
  split; [repeat split; reflexivity|].
  split; [reflexivity|].
  split; [intros [|] s H; discriminate | reflexivity].
Qed.

Lemma slots_after_clearing (st st' : state) (a : asset) :
  lookup (activeTrades st') a = None ->
  (forall b, a <> b -> lookup (activeTrades st') b = lookup (activeTrades st) b) ->
  (forall b s, lookup (activeTrades st) b = Some s -> active_ok s) ->
  forall b s, lookup (activeTrades st') b = Some s -> active_ok s.
Proof.
  intros Hn Ho Hok b s H.
  destruct a, b;
    try (rewrite Hn in H; discriminate);
    (rewrite Ho in H by discriminate; apply Hok in H; exact H).
Qed.

(** Closing the position of a slot with the outcome its rule gives. *)
Lemma close_invariant (st : state) (a : asset) (trade : Setup.t) (o : outcome)
      (p : Q) (now : Z) :
  invariant st ->
  (o = WIN /\ Setup.reachedTarget1 trade = true)
  \/ (o = BREAKEVEN /\ Setup.reachedTarget1 trade = true)
  \/ (o = LOSS /\ Setup.reachedTarget1 trade = false) ->
  invariant (close st a trade o p now).
Proof.
  intros (Hw & Hr & Hc & Ht & Ha & Hm) Hrule.
  assert (Hterm : terminal (Some o)).
  { unfold terminal. destruct Hrule as [[-> _] | [[-> _] | [-> _]]]; auto. }
  destruct (Lifecycle.close_effect st a trade o p now Hterm)
    as (Hn & Ho & Hh & Hp & _ & _ & _ & Hmode & Hdb).
  assert (Hslots : forall b s,
             lookup (activeTrades (close st a trade o p now)) b = Some s -> active_ok s)
    by (apply (slots_after_clearing st _ a); assumption).
  assert (Hwin : forall b, window_ok (close st a trade o p now) b)
    by (intro b; apply (window_ok_frame st); trivial).
  unfold invariant. rewrite Hmode.
  destruct Hdb as [[Etr Eperf] | (t & Erec & Etr & Hasset & Hsetup & Hout & _ & _)].
  - rewrite Etr, Eperf.
    exact (conj Hwin (conj Hr (conj Hc (conj Ht (conj Hslots Hm))))).
  - assert (Eperf : performance (close st a trade o p now)
                    = update_performance (performance st) (trades st ++ [t]) o)
      by (unfold close; rewrite Erec; reflexivity).
    pose proof (Aggregates.engine_assigned_fields_match_replay
                  st _ a trade _ (Some o) p now Hc Erec) as Hfields.
    cbn [performance trades with_database] in Hfields.
    destruct Hfields as (F1 & F2 & F3 & F4 & _ & _ & F7 & F8).
    rewrite Etr, Eperf.
    refine (conj Hwin (conj _ (conj _ (conj F1 (conj _ Hm))))).
    + apply Forall_app. split; [exact Hr|]. constructor; [|constructor].
      unfold record_ok. rewrite Hsetup, Hout. simpl. split; [reflexivity|].
      destruct Hrule as [[-> H1] | [[-> H1] | [-> H1]]]; auto.
    + unfold consistent. repeat split; assumption.
    + exact Hslots.
Qed.

Lemma status_invariant (st : state) (a : asset) (now : Z) :
  invariant st -> invariant (fst (updateTradeStatus st a now)).
Proof.
  intro Hinv.
  destruct (lookup (activeTrades st) a) as [trade|] eqn:Hl.
  - destruct (Lifecycle.status_cases st a now trade Hl)
      as [E | [(H1 & _ & E) | [(H1 & E) | [(H1 & E) | (H1 & E)]]]];
      rewrite E; cbn [fst].
    + exact Hinv.
    + destruct Hinv as (Hw & Hr & Hc & Ht & Ha & Hm).
      refine (conj Hw (conj Hr (conj Hc (conj Ht (conj _ Hm))))).
      cbn [activeTrades with_activeTrades].
      apply assign_all; [exact Ha|].
      intros s Hs. inversion Hs. apply armed_is_ok. apply (Ha a). exact Hl.
    + apply close_invariant; auto.
    + apply close_invariant; auto.
    + apply close_invariant; auto.
  - unfold updateTradeStatus. rewrite Hl. exact Hinv.
Qed.

Lemma scan_cases (st : state) (a : asset) (p : Q) (i : scanInputs) :
  scanForSignals st a p i = st \/ scanForSignals st a p i = opening st a p i.
Proof.
  unfold scanForSignals, opening.
  destruct (now_scan i - lookup (lastSignalTime st) a <? 60000)%Z; [left; reflexivity|].
  destruct (lookup (activeTrades st) a); [left; reflexivity|].
  match goal with
  | |- context [if ?c then _ else _] => destruct c
  end; [right | left]; reflexivity.
Qed.

Lemma opening_invariant (st : state) (a : asset) (p : Q) (i : scanInputs) :
  invariant st -> 0 < p -> invariant (opening st a p i).
Proof.
  intros (Hw & Hr & Hc & Ht & Ha & Hm) Hp.
  unfold opening, generateAISetup.
  refine (conj Hw (conj Hr (conj Hc (conj Ht (conj _ Hm))))).
  cbn [activeTrades with_activeTrades with_lastSignalTime].
  apply assign_all; [exact Ha|].
  intros s Hs. inversion Hs. unfold active_ok. simpl.
  repeat split; trivial; try discriminate. intro H. exfalso. apply H. reflexivity.
Qed.

Lemma scan_asset_invariant (st : state) (a : asset) (i : scanInputs) :
  invariant st -> invariant (scan_asset st a i).
Proof.
  intro Hinv. unfold scan_asset.
  destruct (lookup (currentPrices st) a >? 0) eqn:Hp; [|exact Hinv].
  apply gtb_true in Hp. cbv zeta.
  pose proof (status_invariant st a (now_scan i) Hinv) as H1.
  destruct (Admission.status_frame st a (now_scan i)) as (_ & Hcp & _).
  destruct (lookup (activeTrades (fst (updateTradeStatus st a (now_scan i)))) a);
    [exact H1|].
  destruct (scan_cases (fst (updateTradeStatus st a (now_scan i))) a
                       (lookup (currentPrices (fst (updateTradeStatus st a (now_scan i)))) a)
                       i) as [E | E]; rewrite E; [exact H1|].
  apply opening_invariant; [exact H1|]. rewrite Hcp. exact Hp.
Qed.

Lemma adaptiveScan_invariant (st : state) (i : perAsset scanInputs) :
  invariant st -> invariant (adaptiveScan st i).
Proof.
  intro H. unfold adaptiveScan. simpl.
  apply scan_asset_invariant, scan_asset_invariant, detect_invariant. exact H.
Qed.

Lemma run_invariant (events : list event) (st : state) :
  invariant st -> invariant (run st events).
Proof.
  revert st. induction events as [|e rest IH]; intros st H; [exact H|].
  unfold run. simpl. apply IH. destruct e; simpl.
  - apply updatePrice_invariant. exact H.
  - apply adaptiveScan_invariant. exact H.
Qed.

Lemma terminal_counts (ts : list Trade.t) :
  Forall record_ok ts ->
  (Spec.count WIN ts + Spec.count LOSS ts + Spec.count BREAKEVEN ts)%Z
  = Z.of_nat (length ts).
Proof.
  induction 1 as [|t rest Ht _ IH]; [reflexivity|].
  unfold Spec.count in *. cbn [filter length].
  destruct Ht as (_ & [[Ho _] | [[Ho _] | [Ho _]]]); rewrite Ho;
    cbn [outcome_is outcome_eqb length]; rewrite !Nat2Z.inj_succ; lia.
Qed.

(** In every run from the initial state, whatever the ticker sends and
    whenever the scans fall, each asset's window holds at most 50
    samples, all with a positive price, and currentPrices holds the
    price of the newest one (0 before the first). *)
Theorem window_is_bounded_and_current (events : list event) (a : asset) :
  let st := run initial events in
  (length (lookup (priceHistory st) a) <= 50)%nat
  /\ Forall (fun s => 0 < price s) (lookup (priceHistory st) a)
  /\ lookup (currentPrices st) a = newest (lookup (priceHistory st) a).
Proof.
  destruct (run_invariant events initial initial_invariant) as (Hw & _).
  exact (Hw a).
Qed.

(** In every run from the initial state the three counters are the
    numbers of WIN, LOSS and BREAKEVEN records, they add up to
    totalTrades, and totalTrades is the length of the list. *)
Theorem counters_add_up (events : list event) :
  let st := run initial events in
  let p := performance st in
  Perf.winners p = Spec.count WIN (trades st)
  /\ Perf.losers p = Spec.count LOSS (trades st)
  /\ Perf.breakevenTrades p = Spec.count BREAKEVEN (trades st)
  /\ (Perf.winners p + Perf.losers p + Perf.breakevenTrades p)%Z = Perf.totalTrades p
  /\ Perf.totalTrades p = Z.of_nat (length (trades st)).
Proof.
  destruct (run_invariant events initial initial_invariant)
    as (_ & Hr & (Hw & Hl & Hb & _) & Ht & _).
  cbv zeta. rewrite Hw, Hl, Hb, Ht. repeat split.
  apply terminal_counts. exact Hr.
Qed.

End Invariants.

(** ** The exit engine beside the engine *)

Module ExitChecks.
Import Pred Run.

(** The branch the loop body of [checkTradeExits] takes. *)
Lemma check_cases (data : Blob.t) (a : asset) (p : Q) (now : Z) :
  let r := ExitEngine.check_asset data a p now in
  fst r = data
  \/ (exists held,
         lookup (Blob.activeTrades data) a = Some held
         /\ Blob.trades (fst r) = Blob.trades data
         /\ Blob.performance (fst r) = Blob.performance data
         /\ lookup (Blob.activeTrades (fst r)) a <> None
         /\ snd r = ExitEngine.Target1Hit)
  \/ (exists held o profit,
         lookup (Blob.activeTrades data) a = Some held
         /\ terminal (Some o)
         /\ fst r = ExitEngine.clearActiveTrade
                      (ExitEngine.recordTradeOutcome data a (setup_of held) o profit p now) a).
Proof.
  unfold ExitEngine.check_asset.
  destruct (lookup (Blob.activeTrades data) a) as [held|]; [|left; reflexivity].
  cbv zeta.
  destruct (negb (Js.truthy (Setup.entryPrice (setup_of held)))); [left; reflexivity|].
  destruct (negb (Js.truthy p) || (p <=? 0)); [left; reflexivity|].
  repeat match goal with
         | |- context [if ?c then _ else _] => destruct c
         end;
    first [ solve [left; reflexivity]
          | solve [right; left; exists held; repeat split;
                   cbn [fst Blob.activeTrades]; rewrite lookup_assign_same; discriminate]
          | right; right; exists held; unfold terminal;
            do 2 eexists; split; [reflexivity | split; [|reflexivity]]; auto ].
Qed.

(** On the same position and the same positive price the exit engine
    applies the rule the engine applies (none, target 1, target 2,
    breakeven stop or stop loss), prints the same profit in the line of
    a WIN, and leaves the same setup in the slot, provided the setup
    has a nonzero entry price and a nonzero band midpoint (the two
    places where the sources differ: the engine falls back to the entry
    price for a zero midpoint, the exit engine skips a setup with a
    zero entry price). *)
Theorem exit_engine_takes_the_rule_of_the_engine
        (st : Engine.state) (data : Blob.t) (a : asset) (held : position) (now : Z) :
  lookup (Engine.activeTrades st) a = Some (setup_of held) ->
  lookup (Blob.activeTrades data) a = Some held ->
  0 < lookup (Engine.currentPrices st) a ->
  ~ Setup.entryPrice (setup_of held) == 0 ->
  ~ (min (Setup.entry (setup_of held)) + max (Setup.entry (setup_of held))) / 2 == 0 ->
  let ours := Engine.updateTradeStatus st a now in
  let theirs := ExitEngine.check_asset data a (lookup (Engine.currentPrices st) a) now in
  rule_of_exit_engine (snd theirs) = rule_of_engine (snd ours)
  /\ (forall profit, snd ours = Engine.Target2HitWin profit ->
                     snd theirs = ExitEngine.Target2HitWin profit)
  /\ option_map setup_of (lookup (Blob.activeTrades (fst theirs)) a)
     = lookup (Engine.activeTrades (fst ours)) a.
Proof.
  intros Hs Hd Hp He Hmid ours theirs. subst ours theirs.
  unfold Engine.updateTradeStatus, ExitEngine.check_asset.
  rewrite Hs, Hd, (Priority.positive_price_passes _ Hp). cbv zeta.
  assert (Ht : negb (Js.truthy (Setup.entryPrice (setup_of held))) = false).
  { unfold Js.truthy. rewrite negb_involutive. apply not_true_iff_false.
    rewrite Qeq_bool_iff. exact He. }
  rewrite Ht.
  assert (Eavg : Engine.entryAvg (setup_of held)
                 = (min (Setup.entry (setup_of held))
                    + max (Setup.entry (setup_of held))) / 2).
  { unfold Engine.entryAvg, Js.or_else, Js.truthy.
    assert (E : Qeq_bool ((min (Setup.entry (setup_of held))
                           + max (Setup.entry (setup_of held))) / 2) 0 = false)
      by (apply not_true_iff_false; rewrite Qeq_bool_iff; exact Hmid).
    rewrite E. reflexivity. }
  rewrite Eavg.
  change (ExitEngine.hit_up) with (Engine.crossed_up).
  change (ExitEngine.hit_down) with (Engine.crossed_down).
  change (ExitEngine.stopPrice (setup_of held)) with (Engine.loss_stop (setup_of held)).
  repeat match goal with
         | |- context [if ?c then _ else _] => destruct c
         end;
    cbn [fst snd rule_of_engine rule_of_exit_engine];
    (split; [reflexivity|]);
    (split; [intros profit E; first [discriminate E | inversion E; reflexivity]|]);
    try reflexivity;
    try (unfold Engine.close, ExitEngine.clearActiveTrade;
         cbn [Engine.activeTrades Engine.with_activeTrades Blob.activeTrades];
         rewrite !lookup_assign_same; reflexivity);
    try (cbn [Engine.activeTrades Engine.with_activeTrades Blob.activeTrades];
         rewrite !lookup_assign_same; destruct held; reflexivity);
    try (rewrite Hs, Hd; reflexivity).
Qed.

Lemma exit_engine_takes_the_rule_of_the_engine_witness :
  rule_of_exit_engine (snd (ExitEngine.check_asset Scenario.coincident_blob btc 100 5))
  = Target2Rule
  /\ rule_of_engine (snd (Engine.updateTradeStatus Scenario.coincident_state btc 5))
     = Target2Rule.
Proof.
  split; [|reflexivity].
  exact (proj1 (exit_engine_takes_the_rule_of_the_engine
                  Scenario.coincident_state Scenario.coincident_blob btc
                  (Wrapped Scenario.coincident) 5
                  eq_refl eq_refl eq_refl
                  ltac:(intro E; discriminate E)
                  ltac:(intro E; vm_compute in E; discriminate E))).
Defined.

End ExitChecks.

(** ** The recorder of the exit engine *)

Module ExitRecorder.
Import Pred.

Lemma update_first_none {A : Type} (p : A -> bool) (f : A -> A) (l : list A) :
  update_first p f l = None <-> existsb p l = false.
Proof.
  induction l as [|x rest IH]; simpl; [tauto|].
  destruct (p x); simpl; [split; discriminate|].
  destruct (update_first p f rest); rewrite <- IH; split; congruence.
Qed.

Lemma is_open_record_iff (a : asset) (setup : Setup.t) (t : Trade.t) :
  ExitEngine.is_open_record a setup t = true
  <-> Trade.asset t = a
      /\ Setup.timestamp (Trade.setup t) = Setup.timestamp setup
      /\ Trade.outcome t = None.
Proof.
  unfold ExitEngine.is_open_record.
  rewrite !andb_true_iff, Recorder.asset_eqb_eq, Z.eqb_eq.
  destruct (Trade.outcome t); intuition congruence.
Qed.

(** [find] returns the first match: no element before it satisfies the
    predicate. *)
Lemma update_first_is_first {A : Type} (p : A -> bool) (f : A -> A) (l l' : list A) :
  update_first p f l = Some l' ->
  exists pre x post,
    l = pre ++ x :: post /\ (forall y, In y pre -> p y = false)
    /\ p x = true /\ l' = pre ++ f x :: post.
Proof.
  revert l'. induction l as [|y rest IH]; simpl; intros l' H; [discriminate|].
  destruct (p y) eqn:Ey.
  - inversion H; subst. exists [], y, rest. repeat split; trivial.
    intros z [].
  - destruct (update_first p f rest) as [rest'|]; [|discriminate].
    inversion H; subst.
    destruct (IH rest' eq_refl) as (pre & x & post & -> & Hpre & Hx & ->).
    exists (y :: pre), x, post. repeat split; trivial.
    intros z [<- | Hz]; [exact Ey | apply Hpre; exact Hz].
Qed.

(** For a setup with a nonzero entry price, the only kind the exit
    check passes on, the exit engine's recorder does one of two things.
    If the list holds a record of the asset with the setup's timestamp
    and no outcome, the first such record is closed in place: it keeps
    its position in the list and its asset, setup, timestamp and regime
    fields, and gets the outcome, the computed profit, the exit price,
    the exit time and the tag AUTONOMOUS_EXIT_ENGINE; every other
    record, open or closed, stays as and where it was.  If the list
    holds none, one closed record is appended and the list before is
    kept.  The slots are not touched, and totalTrades is the length of
    the list afterwards. *)
Theorem exit_recorder_finds_or_creates
        (data : Blob.t) (a : asset) (setup : Setup.t) (o : outcome) (p e : Q) (now : Z) :
  ~ Setup.entryPrice setup == 0 ->
  let data' := ExitEngine.recordTradeOutcome data a setup o p e now in
  let is_open (t : Trade.t) :=
    Trade.asset t = a
    /\ Setup.timestamp (Trade.setup t) = Setup.timestamp setup
    /\ Trade.outcome t = None in
  ((exists before t after,
       Blob.trades data = before ++ t :: after
       /\ (forall x, In x before -> ~ is_open x)
       /\ is_open t
       /\ Blob.trades data'
          = before
            ++ Trade.mk (Trade.asset t) (Trade.setup t) (Some o)
                        (ExitEngine.realizedPnL setup o) (Trade.timestamp t)
                        (Trade.marketCondition t) (Trade.volatilityLevel t)
                        (Trade.sessionActive t)
                        (Some e) (Some now) (Some AUTONOMOUS_EXIT_ENGINE)
            :: after)
   \/ ((forall x, In x (Blob.trades data) -> ~ is_open x)
       /\ Blob.trades data'
          = Blob.trades data
            ++ [Trade.mk a setup (Some o) (ExitEngine.realizedPnL setup o)
                         (Setup.timestamp setup)
                         (Some (Setup.marketCondition setup))
                         (Some (Setup.volatilityLevel setup))
                         (Some (Setup.sessionActive setup))
                         (Some e) (Some now) (Some AUTONOMOUS_EXIT_ENGINE)]))
  /\ Blob.activeTrades data' = Blob.activeTrades data
  /\ Perf.totalTrades (Blob.performance data') = Z.of_nat (length (Blob.trades data')).
Proof.
  intros _ data' is_open. subst data' is_open. unfold ExitEngine.recordTradeOutcome.
  cbn [Blob.trades Blob.activeTrades Blob.performance].
  destruct (update_first (ExitEngine.is_open_record a setup)
              (ExitEngine.close_record o (ExitEngine.realizedPnL setup o) e now
                                       AUTONOMOUS_EXIT_ENGINE)
              (Blob.trades data)) as [updated|] eqn:E.
  - split; [|split; reflexivity]. left.
    apply update_first_is_first in E.
    destruct E as (pre & x & post & El & Hpre & Hx & ->).
    exists pre, x, post. split; [exact El|]. split.
    + intros y Hy Hopen. apply is_open_record_iff in Hopen.
      rewrite (Hpre y Hy) in Hopen. discriminate.
    + split; [apply is_open_record_iff; exact Hx | reflexivity].
  - split; [|split; reflexivity]. right.
    apply update_first_none in E. split; [|reflexivity].
    intros y Hy Hopen. apply is_open_record_iff in Hopen.
    assert (Hex : existsb (ExitEngine.is_open_record a setup) (Blob.trades data) = true)
      by (apply existsb_exists; exists y; split; trivial).
    congruence.
Qed.

(** On a list with two open records of the position behind a closed
    one, the first open record is closed where it stands and the second
    stays open. *)
Lemma exit_recorder_finds_or_creates_witness :
  let data' :=
    ExitEngine.recordTradeOutcome Scenario.with_open_records btc Scenario.armed
                                  WIN 1.25 101.3 9 in
  length (Blob.trades data') = 3%nat
  /\ map Trade.outcome (Blob.trades data') = [Some LOSS; Some WIN; None].
Proof.
  intro data'.
  destruct (exit_recorder_finds_or_creates
              Scenario.with_open_records btc Scenario.armed WIN 1.25 101.3 9
              ltac:(intro E; discriminate E))
    as ([(before & t & after & E0 & _ & _ & E1) | (Hnone & _)] & _).
  - split; [|reflexivity].
    fold data' in E1. rewrite E1.
    change 3%nat with (length (Blob.trades Scenario.with_open_records)).
    rewrite E0, !length_app. reflexivity.
  - exfalso. apply (Hnone Scenario.open_record).
    + right. left. reflexivity.
    + repeat split.
Defined.

(** Both parts are under one premise: before the check the three
    counters and the two averages agree with the list.  Then they agree
    with it after the check as well; and when the check closes the
    position every field of the aggregate is afterwards the value
    recomputed from the list, with 999 for an infinite profit factor.
    Without the premise neither part holds: the manual close of the API
    server stores a WIN and leaves avgWin as it was, and an exit check
    that records a LOSS after it does not repair avgWin
    ([premise_is_needed]). *)
Theorem exit_check_keeps_the_aggregates_right
        (data : Blob.t) (a : asset) (currentPrice : Q) (now : Z) :
  consistent (Blob.performance data) (Blob.trades data) ->
  let data' := fst (ExitEngine.check_asset data a currentPrice now) in
  consistent (Blob.performance data') (Blob.trades data')
  /\ (lookup (Blob.activeTrades data) a <> None ->
      lookup (Blob.activeTrades data') a = None ->
      Spec.perf_equiv (Blob.performance data')
                      (Spec.recompute (Finite 999) (Blob.trades data'))).
Proof.
  intros Hc data'. subst data'.
  destruct (ExitChecks.check_cases data a currentPrice now)
    as [E | [(held & Hl & Et & Ep & Hs & _) | (held & o & profit & Hl & Hterm & E)]].
  - rewrite E. split; [exact Hc|]. intros H1 H2. contradiction.
  - rewrite Et, Ep. split; [exact Hc|]. intros _ H2. contradiction.
  - rewrite E.
    pose proof (Aggregates.exit_engine_aggregates_match_replay
                  data a (setup_of held) o profit currentPrice now Hterm Hc) as Heq.
    cbv zeta in Heq. unfold ExitEngine.clearActiveTrade.
    cbn [Blob.performance Blob.trades].
    split; [apply (Aggregates.replayed_is_consistent (Finite 999)); exact Heq|].
    intros _ _. exact Heq.
Qed.

(** After the manual WIN close of [armed] with profit 5, the exit
    engine's LOSS close of a second position leaves avgWin at 0, where
    the list gives 5. *)
Lemma premise_is_needed :
  let manual := snd (ApiServer.post_trades_close Scenario.exit_blob Scenario.manual_win 1) in
  let reopened :=
    Blob.mk (Blob.trades manual)
            (mkPerAsset (Some (Wrapped Scenario.second_opened)) None)
            (Blob.performance manual) in
  let data' := fst (ExitEngine.check_asset reopened btc 99 2) in
  ~ consistent (Blob.performance manual) (Blob.trades manual)
  /\ map Trade.outcome (Blob.trades data') = [Some WIN; Some LOSS]
  /\ Perf.avgWin (Blob.performance data') == 0
  /\ Spec.mean_abs_profit WIN (Blob.trades data') == 5.
Proof.
  cbv zeta. split; [|repeat split; vm_compute; reflexivity].
  intros (_ & _ & _ & H & _). vm_compute in H. discriminate H.
Qed.

Lemma exit_check_keeps_the_aggregates_right_witness :
  Spec.perf_equiv
    (Blob.performance (fst (ExitEngine.check_asset Scenario.exit_blob btc 101.3 9)))
    (Spec.recompute (Finite 999)
       (Blob.trades (fst (ExitEngine.check_asset Scenario.exit_blob btc 101.3 9)))).
Proof.
  apply (proj2 (exit_check_keeps_the_aggregates_right Scenario.exit_blob btc 101.3 9
                  ltac:(repeat split; reflexivity))).
  - discriminate.
  - vm_compute. reflexivity.
Defined.

End ExitRecorder.

(** ** The price fetcher *)

Module Fetcher.
Import PriceFetcher.

Lemma coinbase_keeps (f : t) (i : inputs) :
  kept_ok f ->
  kept_ok (fst (fetchCoinbasePrices f i))
  /\ (forall p, snd (fetchCoinbasePrices f i) = Some p -> valid p = true).
Proof.
  intro H. unfold fetchCoinbasePrices.
  destruct (coinbase i) as [prices|]; [|split; [exact H | discriminate]].
  destruct (valid prices) eqn:V; [|split; [exact H | discriminate]].
  split; [intros _; exact V|]. simpl. intros p E. inversion E. subst. exact V.
Qed.

Lemma binance_keeps (f : t) (i : inputs) :
  kept_ok f ->
  kept_ok (fst (fetchBinancePrices f i))
  /\ (forall p, snd (fetchBinancePrices f i) = Some p -> valid p = true).
Proof.
  intro H. unfold fetchBinancePrices.
  assert (Hfail : kept_ok (mk (lastPrices f) (lastUpdate f) (S (apiFailures f))))
    by exact H.
  assert (Hfailed :
            let r := if (3 <=? apiFailures (mk (lastPrices f) (lastUpdate f)
                                             (S (apiFailures f))))%nat
                     then fetchCoinbasePrices
                            (mk (lastPrices f) (lastUpdate f) (S (apiFailures f))) i
                     else (mk (lastPrices f) (lastUpdate f) (S (apiFailures f)), None) in
            kept_ok (fst r) /\ (forall p, snd r = Some p -> valid p = true)).
  { cbv zeta. destruct (3 <=? _)%nat.
    - apply coinbase_keeps. exact Hfail.
    - split; [exact Hfail | discriminate]. }
  destruct (binance i) as [prices|]; [|exact Hfailed].
  destruct (valid prices) eqn:V; [|exact Hfailed].
  split; [intros _; exact V|]. simpl. intros p E. inversion E. subst. exact V.
Qed.

Lemma current_keeps (f : t) (i : inputs) :
  kept_ok f ->
  kept_ok (fst (getCurrentPrices f i))
  /\ (forall p, snd (getCurrentPrices f i) = Some p -> valid p = true).
Proof.
  intro H. unfold getCurrentPrices.
  destruct (binance_keeps f i H) as [Hk Hv].
  destruct (fetchBinancePrices f i) as [f' [p|]]; simpl in *.
  - split; [exact Hk|]. intros q E. inversion E. subst. apply Hv. reflexivity.
  - destruct (lastUpdate f') as [u|] eqn:Eu; [|split; [exact Hk | discriminate]].
    destruct (negb (u =? 0)%Z && (now_check i - u <? 30000)%Z);
      simpl; (split; [exact Hk|]); [|discriminate].
    intros q E. inversion E. subst. apply Hk. rewrite Eu. discriminate.
Qed.

(** Whatever the two price services answer, over any series of cycles
    of a new fetcher, every pair of prices getCurrentPrices hands out,
    fresh or stale, has a positive btc and a positive eth price. *)
Theorem fetched_prices_are_positive (calls : list inputs) (p : perAsset Q) :
  In (Some p) (snd (poll new calls)) -> 0 < at_btc p /\ 0 < at_eth p.
Proof.
  assert (G : forall calls f, kept_ok f ->
                              forall p, In (Some p) (snd (poll f calls)) -> valid p = true).
  { clear. induction calls as [|i rest IH]; intros f Hf p; simpl; [tauto|].
    destruct (current_keeps f i Hf) as [Hk Hv].
    destruct (getCurrentPrices f i) as [f' got]. simpl in Hk, Hv.
    specialize (IH f' Hk p). destruct (poll f' rest) as [f'' gots]. simpl in *.
    intros [E | Hin]; [apply Hv; exact E | apply IH; exact Hin]. }
  intro Hin. apply (G calls new) in Hin; [|intro H; exfalso; apply H; reflexivity].
  unfold valid in Hin. apply andb_true_iff in Hin.
  destruct Hin as [H1 H2]. split; apply gtb_true; assumption.
Qed.

Lemma fetched_prices_are_positive_witness :
  let calls := [mkInputs (Some (mkPerAsset 100 50)) None 1000 0 1000;
                mkInputs None None 0 0 6000] in
  snd (poll new calls) = [Some (mkPerAsset 100 50); Some (mkPerAsset 100 50)]
  /\ 0 < 100 /\ 0 < 50.
Proof.
  intro calls. split; [reflexivity|].
  apply (fetched_prices_are_positive calls (mkPerAsset 100 50)).
  left. reflexivity.
Defined.

(** When neither service delivers, prices are handed out only from an
    earlier success less than 30 seconds before the check, and they are
    the prices of that success; otherwise the cycle gets none. *)
Theorem stale_prices_are_under_30_seconds_old (f : t) (i : inputs) (p : perAsset Q) :
  snd (fetchBinancePrices f i) = None ->
  snd (getCurrentPrices f i) = Some p ->
  exists u,
    lastUpdate f = Some u /\ (now_check i - u < 30000)%Z /\ p = lastPrices f.
Proof.
  intros Hfail Hgot.
  assert (Hsame : lastUpdate (fst (fetchBinancePrices f i)) = lastUpdate f
                  /\ lastPrices (fst (fetchBinancePrices f i)) = lastPrices f).
  { revert Hfail. unfold fetchBinancePrices, fetchCoinbasePrices.
    destruct (binance i) as [b|]; [destruct (valid b)|];
      try discriminate;
      destruct (3 <=? _)%nat; try (split; reflexivity);
      destruct (coinbase i) as [c|]; try (split; reflexivity);
      destruct (valid c); try discriminate; split; reflexivity. }
  destruct Hsame as [Eu Ep].
  revert Hgot. unfold getCurrentPrices.
  destruct (fetchBinancePrices f i) as [f' got]. simpl in *. subst got.
  destruct (lastUpdate f') as [u|] eqn:E; [|discriminate].
  destruct (negb (u =? 0)%Z && (now_check i - u <? 30000)%Z) eqn:C; [|discriminate].
  simpl. intro H. inversion H. subst p.
  apply andb_true_iff in C. destruct C as [_ C]. apply Z.ltb_lt in C.
  exists u. rewrite <- Eu, <- Ep. auto.
Qed.

Lemma stale_prices_are_under_30_seconds_old_witness :
  exists u,
    lastUpdate (mk (mkPerAsset 100 50) (Some 1000%Z) 0) = Some u
    /\ (6000 - u < 30000)%Z.
Proof.
  destruct (stale_prices_are_under_30_seconds_old
              (mk (mkPerAsset 100 50) (Some 1000%Z) 0) (mkInputs None None 0 0 6000)
              (mkPerAsset 100 50) eq_refl eq_refl)
    as (u & Hu & Hlt & _).
  exists u. split; [exact Hu | exact Hlt].
Defined.

(** The second service is asked only from the third failure in a row:
    after a success, two failed Binance fetches give no fresh prices
    whatever Coinbase would answer, and the third is answered by
    Coinbase, which also resets the failure count. *)
Theorem coinbase_answers_from_the_third_failure
        (f : t) (i1 i2 i3 : inputs) (c : perAsset Q) :
  apiFailures f = 0%nat ->
  binance i1 = None -> binance i2 = None -> binance i3 = None ->
  coinbase i3 = Some c -> valid c = true ->
  let r1 := fetchBinancePrices f i1 in
  let r2 := fetchBinancePrices (fst r1) i2 in
  let r3 := fetchBinancePrices (fst r2) i3 in
  snd r1 = None /\ snd r2 = None /\ snd r3 = Some c
  /\ apiFailures (fst r2) = 2%nat
  /\ apiFailures (fst r3) = 0%nat
  /\ lastPrices (fst r3) = c.
Proof.
  intros H0 B1 B2 B3 C3 V. unfold fetchBinancePrices, fetchCoinbasePrices.
  rewrite B1, H0. simpl. rewrite B2. simpl. rewrite B3. simpl. rewrite C3, V.
  simpl. repeat split.
Qed.

Lemma coinbase_answers_from_the_third_failure_witness :
  snd (fetchBinancePrices
         (fst (fetchBinancePrices
                 (fst (fetchBinancePrices new down))
                 (mkInputs None (Some (mkPerAsset 100 50)) 0 0 0)))
         (mkInputs None (Some (mkPerAsset 100 50)) 0 7 0))
  = Some (mkPerAsset 100 50).
Proof.
  apply (coinbase_answers_from_the_third_failure
           new down (mkInputs None (Some (mkPerAsset 100 50)) 0 0 0)
           (mkInputs None (Some (mkPerAsset 100 50)) 0 7 0) (mkPerAsset 100 50));
    reflexivity.
Defined.

End Fetcher.

(** ** CSV cells *)

Module CsvCells.
Import Csv.

Lemma quoted_is_special (s : string) : has_special (String quote s) = true.
Proof. reflexivity. Qed.

(** The quoted body of a cell: the doubled text and the closing quote. *)
Lemma body_injective (s1 s2 : string) :
  (double_quotes s1 ++ String quote EmptyString
   = double_quotes s2 ++ String quote EmptyString)%string ->
  s1 = s2.
Proof.
  revert s2. induction s1 as [|c1 r1 IH]; intros [|c2 r2]; simpl; trivial.
  - destruct (Ascii.eqb c2 quote) eqn:E2; simpl; intro H; inversion H.
    apply Ascii.eqb_neq in E2. congruence.
  - destruct (Ascii.eqb c1 quote) eqn:E1; simpl; intro H; inversion H.
    apply Ascii.eqb_neq in E1. congruence.
  - destruct (Ascii.eqb c1 quote) eqn:E1; destruct (Ascii.eqb c2 quote) eqn:E2;
      simpl; intro H; inversion H.
    + apply Ascii.eqb_eq in E1. apply Ascii.eqb_eq in E2. subst.
      f_equal. apply IH. assumption.
    + apply Ascii.eqb_neq in E2. congruence.
    + apply Ascii.eqb_neq in E1. congruence.
    + f_equal. apply IH. assumption.
Qed.

(** escape never writes two different strings as the same cell: a
    string without quote, comma or line feed is its own cell, any other
    is wrapped in quotes with its quotes doubled, and the text can be
    told from the cell in both cases. *)
Theorem escape_is_injective (s1 s2 : string) :
  escape (Some s1) = escape (Some s2) -> s1 = s2.
Proof.
  unfold escape.
  destruct (has_special s1) eqn:H1; destruct (has_special s2) eqn:H2; intro E.
  - inversion E. apply body_injective. assumption.
  - rewrite <- E, quoted_is_special in H2. discriminate.
  - rewrite E, quoted_is_special in H1. discriminate.
  - exact E.
Qed.

Lemma escape_is_injective_witness :
  escape (Some "a,b"%string) = escape (Some "a,b"%string) /\ "a,b"%string = "a,b"%string.
Proof.
  split; [reflexivity|].
  apply (escape_is_injective "a,b" "a,b"). reflexivity.
Defined.

Lemma quotes_app (s t : string) :
  quotes_in (s ++ t)%string = (quotes_in s + quotes_in t)%nat.
Proof.
  induction s as [|c r IH]; simpl; [reflexivity|]. rewrite IH. lia.
Qed.

Lemma doubled_quotes_even (s : string) : Nat.even (quotes_in (double_quotes s)) = true.
Proof.
  induction s as [|c r IH]; simpl; [reflexivity|].
  destruct (Ascii.eqb c quote) eqn:E; simpl.
  - exact IH.
  - rewrite E. exact IH.
Qed.

Lemma no_special_no_quote (s : string) : has_special s = false -> quotes_in s = 0%nat.
Proof.
  induction s as [|c r IH]; simpl; [reflexivity|].
  intro H. apply orb_false_iff in H. destruct H as [H Hr].
  apply orb_false_iff in H. destruct H as [H _].
  apply orb_false_iff in H. destruct H as [H _].
  rewrite H, (IH Hr). reflexivity.
Qed.

(** Every cell has an even number of quote characters, and a cell that
    holds a comma or a line feed begins with a quote: joined by commas,
    the cells of a row can be told apart again. *)
Theorem cells_balance_their_quotes (v : option string) :
  Nat.even (quotes_in (escape v)) = true
  /\ (has_special (escape v) = true -> exists rest, escape v = String quote rest).
Proof.
  destruct v as [s|]; simpl; [|split; [reflexivity | discriminate]].
  destruct (has_special s) eqn:H.
  - split; [|intros _; eexists; reflexivity].
    assert (E : quotes_in (String quote (double_quotes s ++ String quote EmptyString))
                = S (S (quotes_in (double_quotes s)))).
    { change (quotes_in (String quote (double_quotes s ++ String quote EmptyString)))
        with (1 + quotes_in (double_quotes s ++ String quote EmptyString))%nat.
      rewrite quotes_app.
      change (quotes_in (String quote EmptyString)) with 1%nat. lia. }
    rewrite E. cbn [Nat.even]. apply doubled_quotes_even.
  - split; [rewrite (no_special_no_quote s H); reflexivity|].
    intro H'. congruence.
Qed.

Lemma cells_balance_their_quotes_witness :
  Nat.even (quotes_in (escape (Some "a,b"%string))) = true
  /\ exists rest, escape (Some "a,b"%string) = String quote rest.
Proof.
  destruct (cells_balance_their_quotes (Some "a,b"%string)) as [H1 H2].
  split; [exact H1 | apply H2; reflexivity].
Defined.

End CsvCells.

(** ** The manual close, rejected or spelled differently *)

Module ManualRequests.
Import ApiServer.

(** A manual close that is not answered with success changes nothing:
    with a field missing (400), an unknown asset, an empty slot or a
    slot that holds the setup object itself (404), the data written
    back is the data read. *)
Theorem rejected_close_changes_nothing (data : Blob.t) (req : closeRequest) (now : Z) :
  fst (post_trades_close data req now) <> Success ->
  snd (post_trades_close data req now) = data.
Proof.
  unfold post_trades_close.
  destruct (req_outcome req); [|reflexivity].
  destruct (req_exitPrice req); [|reflexivity].
  destruct (String.eqb (req_asset req) "" || missing (Some q)); [reflexivity|].
  destruct (asset_of_key (toLowerCase (req_asset req))); [|reflexivity].
  destruct (lookup (Blob.activeTrades data) a) as [[s | s]|]; try reflexivity.
  simpl. intro H. exfalso. apply H. reflexivity.
Qed.

Lemma rejected_close_changes_nothing_witness :
  snd (post_trades_close Scenario.direct_blob Scenario.manual_win 1) = Scenario.direct_blob.
Proof.
  apply rejected_close_changes_nothing. discriminate.
Defined.

Lemma lower_ascii_idempotent (c : ascii) : lower_ascii (lower_ascii c) = lower_ascii c.
Proof.
  destruct c as [[|] [|] [|] [|] [|] [|] [|] [|]]; reflexivity.
Qed.

Lemma toLowerCase_idempotent (s : string) : toLowerCase (toLowerCase s) = toLowerCase s.
Proof.
  induction s as [|c r IH]; simpl; [reflexivity|].
  rewrite lower_ascii_idempotent, IH. reflexivity.
Qed.

Lemma toLowerCase_empty (s : string) :
  String.eqb (toLowerCase s) "" = String.eqb s "".
Proof. destruct s; reflexivity. Qed.

(** The asset of a manual close is read without regard to case: the
    request with the asset name in lower case gets the same answer and
    leaves the same data as the request as sent. *)
Theorem close_ignores_the_case_of_the_asset
        (data : Blob.t) (name : string) (o : option outcome) (profit exitPrice : option Q)
        (now : Z) :
  post_trades_close data (mkCloseRequest (toLowerCase name) o profit exitPrice) now
  = post_trades_close data (mkCloseRequest name o profit exitPrice) now.
Proof.
  unfold post_trades_close. cbn [req_asset req_outcome req_profit req_exitPrice].
  rewrite toLowerCase_idempotent, toLowerCase_empty. reflexivity.
Qed.

End ManualRequests.

(** ** Repeated requests, silent checks, full windows *)

Module Edges.
Import Pred.

Lemma close_success_clears (data : Blob.t) (req : ApiServer.closeRequest) (now : Z) :
  fst (ApiServer.post_trades_close data req now) = ApiServer.Success ->
  exists a o exitPrice,
    ApiServer.req_outcome req = Some o
    /\ ApiServer.req_exitPrice req = Some exitPrice
    /\ String.eqb (ApiServer.req_asset req) "" || ApiServer.missing (Some exitPrice) = false
    /\ ApiServer.asset_of_key (ApiServer.toLowerCase (ApiServer.req_asset req)) = Some a
    /\ lookup (Blob.activeTrades (snd (ApiServer.post_trades_close data req now))) a = None.
Proof.
  unfold ApiServer.post_trades_close.
  destruct (ApiServer.req_outcome req) as [o|]; [|discriminate].
  destruct (ApiServer.req_exitPrice req) as [e|]; [|discriminate].
  destruct (String.eqb (ApiServer.req_asset req) "" || ApiServer.missing (Some e)) eqn:Hm;
    [discriminate|].
  destruct (ApiServer.asset_of_key (ApiServer.toLowerCase (ApiServer.req_asset req)))
    as [a|]; [|discriminate].
  destruct (lookup (Blob.activeTrades data) a) as [[s | s]|]; try discriminate.
  intros _. exists a, o, e. cbn [snd Blob.activeTrades].
  rewrite lookup_assign_same. repeat split; auto.
Qed.

(** The answer of a manual close does not depend on the clock. *)
Lemma answer_ignores_the_clock (data : Blob.t) (req : ApiServer.closeRequest) (now now' : Z) :
  fst (ApiServer.post_trades_close data req now)
  = fst (ApiServer.post_trades_close data req now').
Proof.
  unfold ApiServer.post_trades_close.
  destruct (ApiServer.req_outcome req) as [o|]; [|reflexivity].
  destruct (ApiServer.req_exitPrice req) as [e|]; [|reflexivity].
  destruct (String.eqb (ApiServer.req_asset req) "" || ApiServer.missing (Some e));
    [reflexivity|].
  destruct (ApiServer.asset_of_key (ApiServer.toLowerCase (ApiServer.req_asset req)))
    as [a|]; [|reflexivity].
  destruct (lookup (Blob.activeTrades data) a) as [[s | s]|]; reflexivity.
Qed.

(** A manual close answered with success is applied once if its write
    went through: the same request, at any later time and whether or
    not its own write goes through, is answered 404 and leaves the
    file, with its single new record, as the first close left it.  If
    the write of the first close failed, which the handler does not
    notice, the file is as before and the same request is answered
    with success again. *)
Theorem repeated_manual_close_is_rejected
        (file : Blob.t) (req : ApiServer.closeRequest) (now now' : Z) (written' : bool) :
  fst (ApiServer.post_trades_close file req now) = ApiServer.Success ->
  (let after := snd (DataFile.close_request file req now true) in
   DataFile.close_request after req now' written' = (ApiServer.Status404, after))
  /\ (let after := snd (DataFile.close_request file req now false) in
      fst (DataFile.close_request file req now false) = ApiServer.Success
      /\ after = file
      /\ fst (DataFile.close_request after req now' written') = ApiServer.Success).
Proof.
  intro H. unfold DataFile.close_request. split.
  - destruct (close_success_clears file req now H)
      as (a & o & e & Ho & He & Hm & Hk & Hnone).
    destruct (ApiServer.post_trades_close file req now) as [answer data] eqn:E1.
    cbn [snd fst] in *.
    assert (E2 : ApiServer.post_trades_close data req now' = (ApiServer.Status404, data)).
    { unfold ApiServer.post_trades_close. rewrite Ho, He, Hm, Hk, Hnone. reflexivity. }
    rewrite E2. destruct written'; reflexivity.
  - pose proof (answer_ignores_the_clock file req now now') as Hc.
    destruct (ApiServer.post_trades_close file req now) as [answer data] eqn:E1.
    cbn [snd fst] in *. subst answer.
    destruct (ApiServer.post_trades_close file req now') as [answer' data'] eqn:E2.
    cbn [fst] in *. repeat split. symmetry. exact Hc.
Qed.

Lemma repeated_manual_close_is_rejected_witness :
  fst (DataFile.close_request
         (snd (DataFile.close_request Scenario.exit_blob Scenario.manual_win 1 true))
         Scenario.manual_win 2 true)
  = ApiServer.Status404
  /\ fst (DataFile.close_request
            (snd (DataFile.close_request Scenario.exit_blob Scenario.manual_win 1 false))
            Scenario.manual_win 2 true)
     = ApiServer.Success.
Proof.
  destruct (repeated_manual_close_is_rejected
              Scenario.exit_blob Scenario.manual_win 1 2 true eq_refl)
    as (H1 & _ & _ & H2).
  cbv zeta in H1, H2. split; [rewrite H1; reflexivity | exact H2].
Defined.

(** Every change made by an exit check is announced: when the engine
    logs no event for a check its whole state is as before, and when
    the exit engine logs no event, an invalid structure or a missing
    price, its data is as before. *)
Theorem silent_checks_change_nothing :
  (forall (st : Engine.state) (a : asset) (now : Z),
      snd (Engine.updateTradeStatus st a now) = Engine.Nothing ->
      fst (Engine.updateTradeStatus st a now) = st)
  /\ (forall (data : Blob.t) (a : asset) (p : Q) (now : Z),
         snd (ExitEngine.check_asset data a p now) = ExitEngine.Nothing
         \/ snd (ExitEngine.check_asset data a p now) = ExitEngine.InvalidTradeStructure
         \/ snd (ExitEngine.check_asset data a p now) = ExitEngine.NoValidPrice ->
         fst (ExitEngine.check_asset data a p now) = data).
Proof.
  split.
  - intros st a now. unfold Engine.updateTradeStatus.
    destruct (lookup (Engine.activeTrades st) a); [|reflexivity].
    repeat match goal with
           | |- context [if ?c then _ else _] => destruct c
           end; cbn [fst snd]; trivial; discriminate.
  - intros data a p now. unfold ExitEngine.check_asset.
    destruct (lookup (Blob.activeTrades data) a); [|reflexivity]. cbv zeta.
    repeat match goal with
           | |- context [if ?c then _ else _] => destruct c
           end; cbn [fst snd]; trivial; intros [H | [H | H]]; discriminate H.
Qed.

Lemma silent_checks_change_nothing_witness :
  fst Scenario.at_100 = Engine.updatePrice Scenario.opened btc 100 0 1700000003000
  /\ fst (ExitEngine.check_asset Scenario.exit_blob btc 0 1) = Scenario.exit_blob.
Proof.
  split.
  - apply (proj1 silent_checks_change_nothing). vm_compute. reflexivity.
  - apply (proj2 silent_checks_change_nothing). right. right. reflexivity.
Defined.

Lemma tl_app_one {A : Type} (l : list A) (x : A) :
  l <> [] -> tl (l ++ [x]) = tl l ++ [x].
Proof. destruct l; [congruence | reflexivity]. Qed.

(** A window that holds 50 samples takes an accepted tick by dropping
    its oldest sample and putting the new one last; the other asset's
    window and price are not touched.  A tick with a price of 0 or less
    is dropped whole. *)
Theorem full_window_drops_its_oldest
        (st : Engine.state) (a : asset) (price change : Q) (now : Z) :
  length (lookup (Engine.priceHistory st) a) = 50%nat ->
  (0 < price ->
   let st' := Engine.updatePrice st a price change now in
   lookup (Engine.priceHistory st') a
   = tl (lookup (Engine.priceHistory st) a) ++ [Engine.mkSample price change now]
   /\ lookup (Engine.currentPrices st') a = price
   /\ (forall b, a <> b ->
                 lookup (Engine.priceHistory st') b = lookup (Engine.priceHistory st) b
                 /\ lookup (Engine.currentPrices st') b
                    = lookup (Engine.currentPrices st) b))
  /\ (price <= 0 -> Engine.updatePrice st a price change now = st).
Proof.
  intro Hlen. split.
  - intros Hp st'. subst st'. unfold Engine.updatePrice.
    rewrite (Priority.positive_price_passes _ Hp).
    assert (E : (50 <? length (lookup (Engine.priceHistory st) a
                               ++ [Engine.mkSample price change now]))%nat = true).
    { apply Nat.ltb_lt. rewrite length_app, Hlen. simpl. lia. }
    rewrite E. cbn [Engine.priceHistory Engine.currentPrices Engine.with_prices].
    rewrite !lookup_assign_same. unfold Js.shift.
    rewrite tl_app_one by (intro H; rewrite H in Hlen; discriminate).
    repeat split; apply lookup_assign_other; assumption.
  - intro Hp. unfold Engine.updatePrice.
    assert (E : (price <=? 0) = true) by (apply leb_true; exact Hp).
    rewrite E, orb_true_r. reflexivity.
Qed.

Lemma full_window_drops_its_oldest_witness :
  let full := Run.run Engine.initial Run.fifty_ticks in
  length (lookup (Engine.priceHistory (Engine.updatePrice full btc 101 0 2)) btc) = 50%nat
  /\ Engine.updatePrice full btc 0 0 2 = full.
Proof.
  intro full.
  destruct (full_window_drops_its_oldest full btc 101 0 2 eq_refl) as [H _].
  split.
  - destruct (H ltac:(reflexivity)) as (E & _). rewrite E. reflexivity.
  - apply (proj2 (full_window_drops_its_oldest full btc 0 0 2 eq_refl)).
    vm_compute. discriminate.
Defined.

End Edges.

(** ** Interleaved turns *)

Module Interleaving.
Import Pred.

Lemma length_put (l : list Setup.t) (r : nat) (s : Setup.t) :
  length (Async.put l r s) = length l.
Proof.
  revert r. induction l as [|x l IH]; intros [|r]; simpl; try reflexivity.
  rewrite IH. reflexivity.
Qed.

Lemma deref_put_same (l : list Setup.t) (r : nat) (s : Setup.t) :
  (r < length l)%nat -> Async.deref (Async.put l r s) r = s.
Proof.
  unfold Async.deref. revert r.
  induction l as [|x l IH]; intros [|r]; simpl; intro H; try lia; try reflexivity.
  apply IH. lia.
Qed.

Lemma deref_put_other (l : list Setup.t) (r r' : nat) (s : Setup.t) :
  r <> r' -> Async.deref (Async.put l r s) r' = Async.deref l r'.
Proof.
  unfold Async.deref. revert r r'.
  induction l as [|x l IH]; intros [|r] [|r']; simpl; intro H;
    try reflexivity; try congruence.
  apply IH. congruence.
Qed.

Lemma put_beyond (l : list Setup.t) (r : nat) (s : Setup.t) :
  (length l <= r)%nat -> Async.put l r s = l.
Proof.
  revert r. induction l as [|x l IH]; intros [|r]; simpl; intro H;
    try reflexivity; try lia.
  rewrite IH; [reflexivity | lia].
Qed.

Lemma Forall_put (P : Setup.t -> Prop) (l : list Setup.t) (r : nat) (s : Setup.t) :
  Forall P l -> P s -> Forall P (Async.put l r s).
Proof.
  intros Hl Hs. revert r.
  induction Hl as [|x l Hx Hl IH]; intros [|r]; simpl; constructor; auto.
Qed.

Lemma deref_in (P : Setup.t -> Prop) (l : list Setup.t) (r : nat) :
  Forall P l -> (r < length l)%nat -> P (Async.deref l r).
Proof.
  intros Hl Hr. rewrite Forall_forall in Hl. apply Hl. apply nth_In. exact Hr.
Qed.

Lemma deref_app (l : list Setup.t) (s : Setup.t) (r : nat) :
  (r < length l)%nat -> Async.deref (l ++ [s]) r = Async.deref l r.
Proof. intro H. unfold Async.deref. apply app_nth1. exact H. Qed.

(** *** How objects change *)

Lemma evolves_refl (s : Setup.t) : Async.evolves s s.
Proof. unfold Async.evolves. repeat split; auto. Qed.


Lemma evolves_mark_recorded (s : Setup.t) : Async.evolves s (Setup.mark_recorded s).
Proof. unfold Async.evolves. simpl. repeat split; auto. Qed.

Lemma evolves_arm (s : Setup.t) (entryAvg : Q) :
  Setup.reachedTarget1 s = false -> Async.evolves s (Setup.arm_breakeven s entryAvg).
Proof.
  intro H. unfold Async.evolves. simpl. repeat split; auto; congruence.
Qed.



Lemma grows_put (l : list Setup.t) (r : nat) (s : Setup.t) :
  Async.evolves (Async.deref l r) s -> Async.grows l (Async.put l r s).
Proof.
  intro H. split; [rewrite length_put; lia|].
  intros r' Hr'. destruct (Nat.eq_dec r r') as [<- | Hne].
  - rewrite deref_put_same; trivial.
  - rewrite deref_put_other; trivial. apply evolves_refl.
Qed.

Lemma grows_app (l : list Setup.t) (s : Setup.t) : Async.grows l (l ++ [s]).
Proof.
  split; [rewrite length_app; simpl; lia|].
  intros r Hr. rewrite deref_app; trivial. apply evolves_refl.
Qed.





(** What [recordTradeOutcome] does, by cases. *)
Lemma record_cases (st : Async.state) (a : asset) (r : nat) (o : outcome)
      (profit : Q) (now : Z) :
  let st' := Async.recordTradeOutcome st a r o profit now in
  st' = st
  \/ (terminal (Some o)
      /\ Setup.recorded (Async.deref (Async.objects st) r) = false
      /\ Async.objects st'
         = Async.put (Async.objects st) r
                     (Setup.mark_recorded (Async.deref (Async.objects st) r))
      /\ (exists t,
             Async.trades st' = Async.trades st ++ [t]
             /\ Async.held t = r
             /\ Trade.asset (Async.pushed t) = a
             /\ Trade.outcome (Async.pushed t) = Some o
             /\ Trade.profit (Async.pushed t)
                = Engine.realizedPnL
                    (Setup.mark_recorded (Async.deref (Async.objects st) r)) o)
      /\ Async.activeTrades st' = Async.activeTrades st
      /\ Async.currentPrices st' = Async.currentPrices st
      /\ Async.priceHistory st' = Async.priceHistory st
      /\ Async.lastSignalTime st' = Async.lastSignalTime st
      /\ Async.riskMode st' = Async.riskMode st
      /\ Async.suspended st' = Async.suspended st).
Proof.
  intro st'. subst st'. unfold Async.recordTradeOutcome.
  destruct (Setup.recorded (Async.deref (Async.objects st) r)) eqn:Hr;
    [destruct o; left; reflexivity|].
  destruct o; try (left; reflexivity);
    match goal with
    | |- context [existsb ?f ?l] => destruct (existsb f l); [left; reflexivity|]
    end;
    right; unfold terminal; (split; [auto|]); (split; [reflexivity|]);
    (split; [reflexivity|]); (split; [|repeat split]);
    eexists; repeat split.
Qed.



(** What a stretch of [updateTradeStatus] leaves alone. *)
Definition frame (st st' : Async.state) : Prop :=
  Async.activeTrades st' = Async.activeTrades st
  /\ Async.currentPrices st' = Async.currentPrices st
  /\ Async.priceHistory st' = Async.priceHistory st
  /\ Async.lastSignalTime st' = Async.lastSignalTime st
  /\ Async.riskMode st' = Async.riskMode st
  /\ Async.suspended st' = Async.suspended st.

Lemma frame_refl (st : Async.state) : frame st st.
Proof. repeat split. Qed.

Lemma record_frame (st : Async.state) (a : asset) (r : nat) (o : outcome)
      (profit : Q) (now : Z) :
  frame st (Async.recordTradeOutcome st a r o profit now).
Proof.
  destruct (record_cases st a r o profit now)
    as [E | (_ & _ & _ & _ & F)]; cbv zeta in *.
  - rewrite E. apply frame_refl.
  - exact F.
Qed.

(** The branch a stretch of [updateTradeStatus] takes. *)
Lemma stretch_cases (st : Async.state) (a : asset) (now : Z) :
  let st' := fst (Async.updateTradeStatus st a now) in
  let p := snd (Async.updateTradeStatus st a now) in
  (st' = st /\ p = Async.AfterStatus a)
  \/ (exists r,
         lookup (Async.activeTrades st) a = Some r
         /\ Setup.reachedTarget1 (Async.deref (Async.objects st) r) = false
         /\ st' = Async.with_objects st
                    (Async.put (Async.objects st) r
                       (Setup.arm_breakeven (Async.deref (Async.objects st) r)
                          (Engine.entryAvg (Async.deref (Async.objects st) r))))
         /\ p = Async.AfterStatus a)
  \/ (exists r o profit,
         lookup (Async.activeTrades st) a = Some r
         /\ ((o = WIN /\ Setup.reachedTarget1 (Async.deref (Async.objects st) r) = true)
             \/ (o = BREAKEVEN
                 /\ Setup.reachedTarget1 (Async.deref (Async.objects st) r) = true)
             \/ (o = LOSS
                 /\ Setup.reachedTarget1 (Async.deref (Async.objects st) r) = false))
         /\ st' = Async.recordTradeOutcome st a r o profit now
         /\ p = Async.AfterRecord a).
Proof.
  unfold Async.updateTradeStatus.
  destruct (lookup (Async.activeTrades st) a) as [r|]; [|left; split; reflexivity].
  cbv zeta.
  destruct (negb (Js.truthy (lookup (Async.currentPrices st) a))
            || (lookup (Async.currentPrices st) a <=? 0)); [left; split; reflexivity|].
  destruct (Setup.reachedTarget1 (Async.deref (Async.objects st) r)) eqn:H1;
    cbn [negb andb].
  - destruct (negb (Setup.reachedTarget2 (Async.deref (Async.objects st) r)));
      cbn [andb]; [|left; split; reflexivity].
    destruct (Engine.crossed_up _ _ (Setup.t2 _)).
    + right. right.
      exists r, WIN, (Qabs (Setup.t2 (Async.deref (Async.objects st) r)
                            - Engine.entryAvg (Async.deref (Async.objects st) r))).
      split; [reflexivity|].
      split; [left; split; [reflexivity | exact H1]|]. split; reflexivity.
    + destruct (Engine.crossed_down _ _ (Setup.stop _)); [|left; split; reflexivity].
      right. right. exists r, BREAKEVEN, 0. split; [reflexivity|].
      split; [right; left; split; [reflexivity | exact H1]|]. split; reflexivity.
  - destruct (Engine.crossed_up _ _ (Setup.t1 _)).
    + right. left. exists r. repeat split. exact H1.
    + destruct (Engine.crossed_down _ _ (Engine.loss_stop _)); [|left; split; reflexivity].
      right. right.
      exists r, LOSS, (Qabs (lookup (Async.currentPrices st) a
                             - Engine.entryAvg (Async.deref (Async.objects st) r))).
      split; [reflexivity|].
      split; [right; right; split; [reflexivity | exact H1]|]. split; reflexivity.
Qed.


Lemma stretch_frame (st : Async.state) (a : asset) (now : Z) :
  frame st (fst (Async.updateTradeStatus st a now)).
Proof.
  destruct (stretch_cases st a now)
    as [[E _] | [(r & _ & H1 & E & _) | (r & o & profit & _ & _ & E & _)]];
    cbv zeta in *; rewrite E.
  - apply frame_refl.
  - repeat split.
  - apply record_frame.
Qed.








(** *** The invariant *)

(** The part of the invariant that does not speak of suspended turns. *)
Definition core (st : Async.state) : Prop :=
  (forall a r, lookup (Async.activeTrades st) a = Some r ->
               (r < length (Async.objects st))%nat)
  /\ Forall Async.object_ok (Async.objects st)
  /\ Forall (Async.trade_ok (Async.objects st)) (Async.trades st)
  /\ Async.riskMode st = Engine.conservative.

Lemma trade_ok_grows (l l' : list Setup.t) (t : Async.trade) :
  Async.grows l l' -> Async.trade_ok l t -> Async.trade_ok l' t.
Proof.
  intros [Hlen Hev] (Hh & Hr & Ho).
  specialize (Hev _ Hh).
  destruct Hev as (_ & _ & _ & _ & _ & _ & _ & _ & _ & _ & _ & Er & Ea & _).
  split; [lia|]. split; [auto|].
  destruct Ho as [(A & B & C) | [(A & B & C) | (A & B)]]; auto 10.
Qed.

Lemma object_ok_mark_recorded (s : Setup.t) :
  Async.object_ok s -> Async.object_ok (Setup.mark_recorded s).
Proof. intro H. exact H. Qed.

Lemma object_ok_arm (s : Setup.t) (entryAvg : Q) :
  Async.object_ok s -> Async.object_ok (Setup.arm_breakeven s entryAvg).
Proof.
  intros (H1 & H2 & _). unfold Async.object_ok. simpl.
  split; [exact H1|]. split; [exact H2|]. split; [discriminate | reflexivity].
Qed.

Lemma record_core (st : Async.state) (a : asset) (r : nat) (o : outcome)
      (profit : Q) (now : Z) :
  core st -> (r < length (Async.objects st))%nat ->
  (o = WIN /\ Setup.reachedTarget1 (Async.deref (Async.objects st) r) = true)
  \/ (o = BREAKEVEN /\ Setup.reachedTarget1 (Async.deref (Async.objects st) r) = true)
  \/ (o = LOSS /\ Setup.reachedTarget1 (Async.deref (Async.objects st) r) = false) ->
  core (Async.recordTradeOutcome st a r o profit now).
Proof.
  intros (Hs & Ho & Ht & Hm) Hr Hside.
  destruct (record_cases st a r o profit now)
    as [E | (_ & Hrec & Eo & (t & Et & Eh & _ & Eout & Ep) & Ea & _ & _ & _ & Em & _)];
    cbv zeta in *.
  - rewrite E. repeat split; assumption.
  - unfold core. rewrite Eo, Et, Ea, Em, length_put.
    split; [exact Hs|].
    split; [apply Forall_put; [exact Ho|];
            apply object_ok_mark_recorded; apply deref_in; assumption|].
    split; [|exact Hm].
    apply Forall_app. split.
    + apply (Forall_impl _ (fun t => trade_ok_grows _ _ t
                                       (grows_put _ r _ (evolves_mark_recorded _)))).
      exact Ht.
    + constructor; [|constructor].
      unfold Async.trade_ok. rewrite Eh, length_put, deref_put_same by exact Hr.
      split; [exact Hr|]. split; [reflexivity|].
      rewrite Eout, Ep.
      destruct Hside as [[-> H1] | [[-> H1] | [-> H1]]].
      * left. split; [reflexivity|]. split; [apply Payout.win_is_not_negative | exact H1].
      * right. left. split; [reflexivity|]. split; [reflexivity | exact H1].
      * right. right. split; reflexivity.
Qed.

Lemma status_core (st : Async.state) (a : asset) (now : Z) :
  core st -> core (fst (Async.updateTradeStatus st a now)).
Proof.
  intro Hc.
  destruct (stretch_cases st a now)
    as [[E _] | [(r & Hl & H1 & E & _) | (r & o & profit & Hl & Hside & E & _)]];
    cbv zeta in *; rewrite E.
  - exact Hc.
  - destruct Hc as (Hs & Ho & Ht & Hm). unfold core.
    cbn [Async.with_objects Async.activeTrades Async.objects Async.trades Async.riskMode].
    rewrite length_put.
    split; [exact Hs|].
    split; [apply Forall_put; [exact Ho|];
            apply object_ok_arm; apply deref_in; [exact Ho | apply (Hs a); exact Hl]|].
    split; [|exact Hm].
    apply (Forall_impl _ (fun t => trade_ok_grows _ _ t
                                     (grows_put _ r _ (evolves_arm _ _ H1)))).
    exact Ht.
  - apply record_core; trivial.
    destruct Hc as (Hs & _). apply (Hs a). exact Hl.
Qed.

Lemma scan_core (st : Async.state) (a : asset) (price : Q) (i : Engine.scanInputs) :
  core st -> 0 < price -> core (fst (Async.scanForSignals st a price i)).
Proof.
  intros Hc Hp. unfold Async.scanForSignals. cbv zeta.
  destruct (_ <? 60000)%Z; [exact Hc|].
  destruct (lookup (Async.activeTrades st) a); [exact Hc|].
  destruct (_ >=? _)%Z; [|exact Hc].
  destruct Hc as (Hs & Ho & Ht & Hm).
  unfold core, Async.generateAISetup. cbv zeta.
  cbn [fst Async.with_objects Async.with_activeTrades Async.activeTrades Async.objects
       Async.trades Async.riskMode].
  rewrite length_app. cbn [length].
  split.
  - intros b r Hb. destruct a, b; cbn [lookup assign at_btc at_eth] in Hb;
      try (inversion Hb; lia);
      [pose proof (Hs eth r Hb) | pose proof (Hs btc r Hb)]; lia.
  - split.
    + apply Forall_app. split; [exact Ho|]. constructor; [|constructor].
      unfold Async.object_ok. cbn.
      split; [exact Hp|]. split; [reflexivity|]. split; [discriminate | congruence].
    + split; [|exact Hm].
      apply (Forall_impl _ (fun t => trade_ok_grows _ _ t (grows_app _ _))). exact Ht.
Qed.

Lemma scan_frame (st : Async.state) (a : asset) (price : Q) (i : Engine.scanInputs) :
  Async.currentPrices (fst (Async.scanForSignals st a price i)) = Async.currentPrices st
  /\ Async.suspended (fst (Async.scanForSignals st a price i)) = Async.suspended st.
Proof.
  unfold Async.scanForSignals. cbv zeta.
  destruct (_ <? 60000)%Z; [split; reflexivity|].
  destruct (lookup (Async.activeTrades st) a); [split; reflexivity|].
  destruct (_ >=? _)%Z; split; reflexivity.
Qed.

(** What [start] and [resume] give back: the invariant, the prices and
    the suspended turns as they were, and a place that has seen a
    positive price. *)
Definition stretch_ok (st st' : Async.state) (p : option Async.point) : Prop :=
  core st'
  /\ Async.currentPrices st' = Async.currentPrices st
  /\ Async.suspended st' = Async.suspended st
  /\ match p with Some p => Async.point_ok st' p | None => True end.

Lemma start_ok (st : Async.state) (todo : list asset) (i : Engine.scanInputs) :
  core st ->
  stretch_ok st (fst (Async.start st todo i)) (snd (Async.start st todo i)).
Proof.
  intro Hc. induction todo as [|a rest IH]; cbn [Async.start].
  - repeat split; trivial; apply Hc.
  - destruct (lookup (Async.currentPrices st) a >? 0) eqn:Hp; [|exact IH].
    apply gtb_true in Hp.
    pose proof (status_core st a (Engine.now_scan i) Hc) as H1.
    pose proof (stretch_frame st a (Engine.now_scan i)) as (_ & H2 & _ & _ & _ & H3).
    pose proof (stretch_cases st a (Engine.now_scan i)) as H4. cbv zeta in H4.
    destruct (Async.updateTradeStatus st a (Engine.now_scan i)) as [st' p].
    cbn [fst snd] in *. split; [exact H1|]. split; [exact H2|]. split; [exact H3|].
    assert (Ep : p = Async.AfterStatus a \/ p = Async.AfterRecord a).
    { destruct H4 as [[_ E] | [(r & _ & _ & _ & E) | (r & o & q & _ & _ & _ & E)]]; auto. }
    destruct Ep as [-> | ->]; cbn [Async.point_ok]; rewrite H2; exact Hp.
Qed.

Lemma resume_ok (st : Async.state) (p : Async.point) (i : Engine.scanInputs) :
  core st -> Async.point_ok st p ->
  stretch_ok st (fst (Async.resume st p i)) (snd (Async.resume st p i)).
Proof.
  intros Hc Hp. destruct p as [a | a | a | a]; cbn [Async.resume].
  - cbn [fst snd]. destruct Hc as (Hs & Ho & Ht & Hm).
    split; [|split; [reflexivity | split; [reflexivity | exact Hp]]].
    unfold core. cbn [Async.with_activeTrades Async.activeTrades Async.objects
                      Async.trades Async.riskMode].
    split; [|repeat split; assumption].
    intros b r Hb. destruct a, b; cbn [lookup assign at_btc at_eth] in Hb;
      try discriminate; [exact (Hs eth r Hb) | exact (Hs btc r Hb)].
  - destruct (lookup (Async.activeTrades st) a); [apply start_ok; exact Hc|].
    pose proof (scan_core st a (lookup (Async.currentPrices st) a) i Hc Hp) as H1.
    pose proof (scan_frame st a (lookup (Async.currentPrices st) a) i) as [H2 H3].
    assert (H4 : match snd (Async.scanForSignals st a (lookup (Async.currentPrices st) a) i)
                 with
                 | Async.AfterSetup _ | Async.AfterScan _ => True
                 | _ => False
                 end).
    { unfold Async.scanForSignals. cbv zeta.
      destruct (_ <? 60000)%Z; [exact I|].
      destruct (lookup (Async.activeTrades st) a); [exact I|].
      destruct (_ >=? _)%Z; exact I. }
    destruct (Async.scanForSignals st a (lookup (Async.currentPrices st) a) i) as [st' p'].
    cbn [fst snd] in *. split; [exact H1|]. split; [exact H2|]. split; [exact H3|].
    destruct p'; try contradiction; exact I.
  - cbn [fst snd]. split; [|split; [reflexivity | split; [reflexivity | exact I]]].
    exact Hc.
  - apply start_ok. exact Hc.
Qed.

Lemma initial_keeps : Async.invariant Async.initial.
Proof.
  unfold Async.invariant. split; [intros [|] r H; discriminate H|].
  split; [constructor|]. split; [constructor|]. split; [constructor | reflexivity].
Qed.

Lemma invariant_core (st : Async.state) : Async.invariant st -> core st.
Proof. intros (A & B & C & _ & D). repeat split; assumption. Qed.

Lemma points_kept (st st' : Async.state) (l : list Async.point) :
  Async.currentPrices st' = Async.currentPrices st ->
  Forall (Async.point_ok st) l -> Forall (Async.point_ok st') l.
Proof.
  intros E. apply Forall_impl. intros [a | a | a | a]; cbn [Async.point_ok];
    rewrite ?E; trivial.
Qed.

Lemma suspend_invariant (st0 st : Async.state) (p : option Async.point)
      (l : list Async.point) :
  stretch_ok st0 st p -> Async.suspended st0 = l -> Forall (Async.point_ok st0) l ->
  Async.invariant (Async.suspend st p).
Proof.
  intros ((Hs & Ho & Ht & Hm) & Ep & Es & Hp) El Hl.
  assert (Hl' : Forall (Async.point_ok st) (Async.suspended st)).
  { rewrite Es, El. apply (points_kept st0); trivial. }
  destruct p as [p|]; cbn [Async.suspend]; unfold Async.invariant.
  - cbn [Async.with_suspended Async.activeTrades Async.objects Async.trades
         Async.riskMode Async.suspended].
    split; [exact Hs|]. split; [exact Ho|]. split; [exact Ht|]. split; [|exact Hm].
    apply Forall_app. split.
    + revert Hl'. apply Forall_impl. intros [a | a | a | a]; trivial.
    + constructor; [|constructor]. destruct p; exact Hp.
  - repeat split; assumption.
Qed.

Lemma Forall_without {A : Type} (P : A -> Prop) (k : nat) (l : list A) :
  Forall P l -> Forall P (Async.without k l).
Proof.
  intro H. revert k. induction H as [|x l Hx Hl IH]; intros [|k]; simpl;
    try constructor; auto.
Qed.

Lemma updatePrice_positive (st : Async.state) (a b : asset) (price change : Q) (now : Z) :
  0 < lookup (Async.currentPrices st) b ->
  0 < lookup (Async.currentPrices (Async.updatePrice st a price change now)) b.
Proof.
  intro H. unfold Async.updatePrice, Async.absorb, Engine.updatePrice.
  destruct (negb (Js.truthy price) || (price <=? 0)) eqn:Hrej; [exact H|].
  apply Invariants.accepted_price_is_positive in Hrej.
  destruct a, b; simpl; trivial.
Qed.

Lemma step_invariant (st : Async.state) (e : Async.event) :
  Async.invariant st -> Async.invariant (Async.step st e).
Proof.
  intro Hinv. pose proof (invariant_core st Hinv) as Hc.
  destruct Hinv as (Hs & Ho & Ht & Hp & Hm).
  destruct e as [a price change now | i | k i]; unfold Async.step.
  - unfold Async.invariant.
    assert (Em : Async.riskMode (Async.updatePrice st a price change now)
                 = Async.riskMode st).
    { unfold Async.updatePrice, Async.absorb. cbn [Async.riskMode].
      destruct (Invariants.updatePrice_frame (Async.view st) a price change now)
        as (_ & _ & _ & E). exact E. }
    rewrite Em.
    split; [exact Hs|]. split; [exact Ho|]. split; [exact Ht|]. split; [|exact Hm].
    change (Async.suspended (Async.updatePrice st a price change now))
      with (Async.suspended st).
    revert Hp. apply Forall_impl. intros [b | b | b | b]; cbn [Async.point_ok]; trivial;
      apply updatePrice_positive.
  - destruct (RegimeCases.detect_frame (Async.view st)) as (Em & _ & Ep & _).
    assert (Hc' : core (Async.detectMarketCondition st)).
    { unfold core, Async.detectMarketCondition, Async.absorb.
      cbn [Async.activeTrades Async.objects Async.trades Async.riskMode].
      rewrite Em. exact Hc. }
    assert (Hp' : Forall (Async.point_ok (Async.detectMarketCondition st))
                         (Async.suspended st)).
    { apply (points_kept st); [exact Ep | exact Hp]. }
    pose proof (start_ok _ [btc; eth] i Hc') as H.
    destruct (Async.start (Async.detectMarketCondition st) [btc; eth] i) as [st' p].
    apply (suspend_invariant _ _ _ _ H eq_refl Hp').
  - destruct (nth_error (Async.suspended st) k) as [p|] eqn:Ek;
      [|repeat split; assumption].
    set (st0 := Async.with_suspended st (Async.without k (Async.suspended st))).
    assert (H0 : core st0) by exact Hc.
    assert (Hpk : Async.point_ok st0 p).
    { rewrite Forall_forall in Hp. apply (Hp p). apply (nth_error_In _ _ Ek). }
    pose proof (resume_ok st0 p i H0 Hpk) as H.
    destruct (Async.resume st0 p i) as [st' p'].
    apply (suspend_invariant _ _ _ _ H eq_refl).
    apply (Forall_without _ k). exact Hp.
Qed.

Lemma run_keeps (events : list Async.event) (st : Async.state) :
  Async.invariant st -> Async.invariant (Async.run st events).
Proof.
  revert st. induction events as [|e rest IH]; intros st H; [exact H|].
  unfold Async.run. cbn [fold_left]. apply IH. apply step_invariant. exact H.
Qed.


(** *** What holds however the turns interleave *)

(** Cut at its [await]s, a run whose turns do not overlap is the run of
    module [Run]: on these messages the variables are the same at the
    end, with the LOSS of the first position stored and the second
    position in the slot. *)
Lemma turns_in_sequence_agree :
  Async.view (Async.run Async.initial Async.turns_in_sequence)
  = Run.run Engine.initial Async.the_same_in_sequence
  /\ Async.suspended (Async.run Async.initial Async.turns_in_sequence) = []
  /\ map Trade.outcome
         (Engine.trades (Run.run Engine.initial Async.the_same_in_sequence))
     = [Some LOSS]
  /\ lookup (Async.activeTrades (Async.run Async.initial Async.turns_in_sequence)) btc
     = Some 1%nat.
Proof. repeat split; vm_compute; reflexivity. Qed.

(** When the next turn starts while the turn that recorded a LOSS is
    suspended before it clears the slot, it finds the recorded position
    in the slot and, the price being beyond target 1 by then, marks it
    as having reached target 1: the stored LOSS holds that object. *)
Lemma recorded_position_is_armed_by_the_next_turn :
  let st := Async.run Async.initial Async.overlapping_turns in
  Async.suspended st = [Async.AfterRecord btc; Async.AfterStatus btc]
  /\ lookup (Async.activeTrades st) btc = Some 0%nat
  /\ map Async.held (Async.trades st) = [0%nat]
  /\ map (fun t => Trade.outcome (Async.pushed t)) (Async.trades st) = [Some LOSS]
  /\ Setup.recorded (Async.deref (Async.objects st) 0) = true
  /\ Setup.reachedTarget1 (Async.deref (Async.objects st) 0) = true.
Proof. repeat split; vm_compute; reflexivity. Qed.

(** In every run from the initial state, however the stretches of the
    turns and the ticker messages interleave, each stored trade holds
    an object of the store that is flagged [recorded], and is a WIN
    with a profit of 0 or more or a BREAKEVEN with profit 0, either on
    an object that has reached target 1, or a LOSS with profit minus
    the risk capital.  (That the object of a LOSS has not reached
    target 1 holds when the trade is pushed and can stop to hold
    later, see [recorded_position_is_armed_by_the_next_turn].) *)
Theorem stored_trades_are_flagged_and_closed (events : list Async.event) :
  let st := Async.run Async.initial events in
  Forall (Async.trade_ok (Async.objects st)) (Async.trades st).
Proof.
  intro st. subst st.
  destruct (run_keeps events Async.initial initial_keeps) as (_ & _ & H & _).
  exact H.
Qed.

(** In every run from the initial state, however the turns interleave,
    every setup object, in a slot or in a trade, was opened at a
    positive price, has target 2 unmarked, and carries an original stop
    exactly when it has reached target 1; a slot holds nothing or an
    object of the store; and the risk mode is the conservative one. *)
Theorem objects_are_well_formed (events : list Async.event) :
  let st := Async.run Async.initial events in
  Forall Async.object_ok (Async.objects st)
  /\ (forall a, match lookup (Async.activeTrades st) a with
                | Some r => (r < length (Async.objects st))%nat
                            /\ Async.object_ok (Async.deref (Async.objects st) r)
                | None => True
                end)
  /\ Async.riskMode st = Engine.conservative.
Proof.
  intro st. subst st.
  destruct (run_keeps events Async.initial initial_keeps) as (Hs & Ho & _ & _ & Hm).
  split; [exact Ho|]. split; [|exact Hm].
  intro a. destruct (lookup (Async.activeTrades _) a) as [r|] eqn:E; [|exact I].
  split; [exact (Hs a r E)|]. apply deref_in; [exact Ho | exact (Hs a r E)].
Qed.


(** A stretch of [updateTradeStatus] on a held position pushes at most
    one trade.  The trade it pushes holds the object of the slot, which
    was not flagged and is flagged now; the slot still holds it, and is
    cleared only when the turn goes on after [recordTradeOutcome].  The
    outcome is on the side of target 1 the object is on at that moment:
    WIN (with a profit of 0 or more) or BREAKEVEN (profit 0) if it has
    reached target 1, LOSS (profit minus the risk capital, whatever the
    price distance) if it has not. *)
Theorem stretch_records_the_slot_by_its_arming
        (st : Async.state) (a : asset) (now : Z) (r : nat) :
  lookup (Async.activeTrades st) a = Some r ->
  (r < length (Async.objects st))%nat ->
  let st' := fst (Async.updateTradeStatus st a now) in
  let before := Async.deref (Async.objects st) r in
  Async.trades st' = Async.trades st
  \/ (exists t,
         Async.trades st' = Async.trades st ++ [t]
         /\ Async.held t = r
         /\ Trade.asset (Async.pushed t) = a
         /\ Setup.recorded before = false
         /\ Async.deref (Async.objects st') r = Setup.mark_recorded before
         /\ lookup (Async.activeTrades st') a = Some r
         /\ snd (Async.updateTradeStatus st a now) = Async.AfterRecord a
         /\ ((Setup.reachedTarget1 before = true
              /\ Trade.outcome (Async.pushed t) = Some WIN
              /\ 0 <= Trade.profit (Async.pushed t))
             \/ (Setup.reachedTarget1 before = true
                 /\ Trade.outcome (Async.pushed t) = Some BREAKEVEN
                 /\ Trade.profit (Async.pushed t) == 0)
             \/ (Setup.reachedTarget1 before = false
                 /\ Trade.outcome (Async.pushed t) = Some LOSS
                 /\ Trade.profit (Async.pushed t) == - Engine.RISK_PER_TRADE))).
Proof.
  intros Hl Hr st' before. subst st' before.
  destruct (stretch_cases st a now)
    as [[E _] | [(r' & _ & _ & E & _) | (r' & o & profit & Hl' & Hside & E & Ep)]];
    cbv zeta in *; rewrite E.
  - left. reflexivity.
  - left. reflexivity.
  - rewrite Hl in Hl'. inversion Hl'; subst r'. clear Hl'.
    destruct (record_cases st a r o profit now)
      as [E' | (_ & Hrec & Eo & (t & Et & Eh & Ea & Eout & Eprofit) & Es & _)];
      cbv zeta in *.
    + left. rewrite E'. reflexivity.
    + right. exists t. rewrite Eo, Es, Ep, Eout, Eprofit.
      split; [exact Et|]. split; [exact Eh|]. split; [exact Ea|]. split; [exact Hrec|].
      split; [apply deref_put_same; exact Hr|]. split; [exact Hl|].
      split; [reflexivity|].
      destruct Hside as [[-> H1] | [[-> H1] | [-> H1]]].
      * left. split; [exact H1|]. split; [reflexivity|]. apply Payout.win_is_not_negative.
      * right. left. split; [exact H1|]. split; reflexivity.
      * right. right. split; [exact H1|]. split; reflexivity.
Qed.

Lemma stretch_records_the_slot_by_its_arming_witness :
  let st := Async.run Async.initial
                      (Async.opening_turn ++ [Async.Ticker btc 99.4 0 1700000002000]) in
  exists t,
    Async.trades (fst (Async.updateTradeStatus st btc 1700000004000)) = [t]
    /\ Trade.outcome (Async.pushed t) = Some LOSS
    /\ Trade.profit (Async.pushed t) == - Engine.RISK_PER_TRADE
    /\ lookup (Async.activeTrades (fst (Async.updateTradeStatus st btc 1700000004000))) btc
       = Some 0%nat.
Proof.
  intro st.
  destruct (stretch_records_the_slot_by_its_arming st btc 1700000004000 0 eq_refl)
    as [H | (t & Ht & _ & _ & _ & _ & Hs & _ & [(H1 & _) | [(H1 & _) | (_ & Ho & Hp)]])].
  - vm_compute. lia.
  - vm_compute in H. discriminate H.
  - vm_compute in H1. discriminate H1.
  - vm_compute in H1. discriminate H1.
  - exists t. split; [exact Ht|]. split; [exact Ho|]. split; [exact Hp | exact Hs].
Defined.

End Interleaving.
